(** * PDF2EPUB: the table-of-contents parser and the chapter segmenter

    A shallow embedding of [pdf_to_epub.py].  Python [str] values are
    modelled as Rocq [string]s whose characters stand for the code
    points 0..255 (the Latin-1 range); Python [int]s are [Z]; the
    [page_contents] dictionary is a [gmap Z string]; exceptions are an
    explicit error type threaded through a small error monad. *)

From Stdlib Require Import ZArith Ascii String DecimalString.
From stdpp Require Import gmap strings list.
From Stdlib Require DecimalNat.
From stdpp Require Import sorting.

Open Scope string_scope.
Open Scope Z_scope.

(** ** Exceptions *)

Module Py.

Inductive exn : Type :=
| ValueError
| IndexError
| OSError.

Definition result (A : Type) : Type := exn + A.

Definition ret {A} (a : A) : result A := inr a.
Definition raise {A} (e : exn) : result A := inl e.

Definition bind {A B} (m : result A) (f : A -> result B) : result B :=
  match m with
  | inl e => inl e
  | inr a => f a
  end.

End Py.

Notation "'do' x <- m ; k" := (Py.bind m (fun x => k))
  (at level 10, x name, m at level 100, k at level 200,
   format "'[v' 'do'  x  <-  m ; '/' k ']'").

(** ** Characters and strings, as Python's [str] sees them *)

Module PyStr.

Definition code (c : ascii) : N := N_of_ascii c.

(** [str.isspace] on one character, which is also the class [\s] of
    [re] for [str] patterns: TAB..CR, FS..US, SPACE, NEL and NBSP. *)
Definition is_space (c : ascii) : bool :=
  let n := code c in
  ((9 <=? n) && (n <=? 13) || (28 <=? n) && (n <=? 31)
   || (n =? 32) || (n =? 133) || (n =? 160))%N.

(** The class [\d]: the only decimal digits below 256 are 0..9. *)
Definition is_digit (c : ascii) : bool :=
  let n := code c in ((48 <=? n) && (n <=? 57))%N.

Definition digit_value (c : ascii) : Z := Z.of_N (code c) - 48.

(** Simple lower-casing, used by [re.IGNORECASE]: A..Z and the Latin-1
    capitals (all of 192..222 but the multiplication sign). *)
Definition lower (c : ascii) : ascii :=
  let n := code c in
  if ((65 <=? n) && (n <=? 90)
      || (192 <=? n) && (n <=? 222) && negb (n =? 215))%N
  then ascii_of_N (n + 32) else c.

(** The line boundaries of [str.splitlines] (a CR directly followed by
    LF is one boundary, see [splitlines_from]). *)
Definition is_linebreak (c : ascii) : bool :=
  let n := code c in
  ((10 <=? n) && (n <=? 13) || (28 <=? n) && (n <=? 30) || (n =? 133))%N.

Definition LF : ascii := ascii_of_N 10.
Definition CR : ascii := ascii_of_N 13.

Fixpoint lstrip (s : string) : string :=
  match s with
  | String c s' => if is_space c then lstrip s' else s
  | EmptyString => EmptyString
  end.

Fixpoint rstrip (s : string) : string :=
  match s with
  | String c s' =>
      match rstrip s' with
      | EmptyString => if is_space c then EmptyString else String c EmptyString
      | r => String c r
      end
  | EmptyString => EmptyString
  end.

(** [str.strip()] with no argument. *)
Definition strip (s : string) : string := rstrip (lstrip s).

Definition is_empty (s : string) : bool :=
  match s with EmptyString => true | _ => false end.

(** [str.splitlines()]: [cur] is the line read so far; a line is
    emitted at each boundary, and at the end only when characters are
    left after the last boundary. *)
Fixpoint splitlines_from (cur : string) (s : string) : list string :=
  match s with
  | EmptyString =>
      if is_empty cur then [] else [cur]
  | String c s' =>
      if is_linebreak c then
        match s' with
        | String c' s'' =>
            if Ascii.eqb c CR && Ascii.eqb c' LF
            then cur :: splitlines_from EmptyString s''
            else cur :: splitlines_from EmptyString s'
        | EmptyString => [cur]
        end
      else splitlines_from (cur ++ String c EmptyString) s'
  end.

Definition splitlines (s : string) : list string :=
  splitlines_from EmptyString s.

(** [str.replace(old, new)] for a non-empty [old]: every occurrence,
    scanning from the left, without overlap.  [fuel] bounds the scan by
    the length of the text. *)
Fixpoint drop (n : nat) (s : string) : string :=
  match n, s with
  | S n', String _ s' => drop n' s'
  | _, _ => s
  end.

Fixpoint replace_from (fuel : nat) (old new s : string) : string :=
  match fuel with
  | O => s
  | S fuel' =>
      match s with
      | EmptyString => EmptyString
      | String c s' =>
          if String.prefix old s
          then new ++ replace_from fuel' old new (drop (String.length old) s)
          else String c (replace_from fuel' old new s')
      end
  end.

Definition replace (old new s : string) : string :=
  replace_from (String.length s) old new s.

(** [str(n)] for an [int]. *)
Definition of_Z (n : Z) : string := NilEmpty.string_of_int (Z.to_int n).
Definition of_nat (n : nat) : string := NilEmpty.string_of_uint (Nat.to_uint n).

(** [int(s)] for a [str].  The white space that [int] ignores around
    the number is narrower than that of [str.strip]: TAB..CR, SPACE,
    NEL and NBSP, but not FS..US. *)
Definition is_int_space (c : ascii) : bool :=
  let n := code c in
  ((9 <=? n) && (n <=? 13) || (n =? 32) || (n =? 133) || (n =? 160))%N.

Fixpoint lstrip_by (sp : ascii -> bool) (s : string) : string :=
  match s with
  | String c s' => if sp c then lstrip_by sp s' else s
  | EmptyString => EmptyString
  end.

Fixpoint rstrip_by (sp : ascii -> bool) (s : string) : string :=
  match s with
  | String c s' =>
      match rstrip_by sp s' with
      | EmptyString => if sp c then EmptyString else String c EmptyString
      | r => String c r
      end
  | EmptyString => EmptyString
  end.

(** One sign is allowed, and single underscores may separate digits;
    anything else is a [ValueError]. *)
Fixpoint int_digits (need_digit : bool) (acc : Z) (s : string) : option Z :=
  match s with
  | EmptyString => if need_digit then None else Some acc
  | String c s' =>
      if is_digit c then int_digits false (10 * acc + digit_value c) s'
      else if Ascii.eqb c "_" && negb need_digit then int_digits true acc s'
      else None
  end.

(** The interpreter refuses to convert more than
    [sys.get_int_max_str_digits()] digits, 4300 unless it is
    reconfigured, with a [ValueError]; underscores do not count, leading
    zeros do. *)
Definition max_str_digits : Z := 4300.

Fixpoint count_digits (s : string) : nat :=
  match s with
  | EmptyString => O
  | String c s' => if is_digit c then S (count_digits s') else count_digits s'
  end.

Definition int (s : string) : Py.result Z :=
  let text := rstrip_by is_int_space (lstrip_by is_int_space s) in
  let parsed :=
    match text with
    | String "-" r => Z.opp <$> int_digits true 0 r
    | String "+" r => int_digits true 0 r
    | r => int_digits true 0 r
    end in
  match parsed with
  | Some n =>
      if Z.of_nat (count_digits text) <=? max_str_digits then Py.ret n
      else Py.raise Py.ValueError
  | None => Py.raise Py.ValueError
  end.

End PyStr.

(** ** The fragment of [re] that the TOC pattern uses

    A backtracking matcher in continuation-passing style: alternatives
    are tried left to right, a greedy repetition tries the longest run
    first and a lazy one the shortest, which is the order in which
    Python's engine explores a pattern.  Quantifiers apply to single
    character classes, as they do in the pattern of [parse_toc_text]. *)

Module Re.

Inductive cclass : Type :=
| Any                 (* .   (no DOTALL: every character but LF) *)
| Space               (* \s *)
| Digit               (* \d *)
| Lit (c : ascii).    (* a literal character *)

Inductive regex : Type :=
| Eps                                         (* the empty pattern *)
| Bol                                         (* ^ *)
| Eol                                         (* $ *)
| Chr (cs : cclass)
| Rep (greedy : bool) (least : nat) (cs : cclass)
| Seq (r1 r2 : regex)
| Alt (r1 r2 : regex)
| Group (n : nat) (r : regex)
| NegLookahead (r : regex).                   (* (?!r) *)

Definition in_class (ignorecase : bool) (cs : cclass) (c : ascii) : bool :=
  match cs with
  | Any => negb (Ascii.eqb c PyStr.LF)
  | Space => PyStr.is_space c
  | Digit => PyStr.is_digit c
  | Lit a =>
      if ignorecase then Ascii.eqb (PyStr.lower a) (PyStr.lower c)
      else Ascii.eqb a c
  end.

Section Repeat.
Context {A : Type} (p : ascii -> bool).

Fixpoint star_greedy (s : string) (k : string -> option A) : option A :=
  match s with
  | String c s' =>
      if p c then
        match star_greedy s' k with
        | Some m => Some m
        | None => k s
        end
      else k s
  | EmptyString => k s
  end.

Fixpoint star_lazy (s : string) (k : string -> option A) : option A :=
  match k s with
  | Some m => Some m
  | None =>
      match s with
      | String c s' => if p c then star_lazy s' k else None
      | EmptyString => None
      end
  end.

Fixpoint repeat (greedy : bool) (least : nat) (s : string)
    (k : string -> option A) : option A :=
  match least with
  | O => if greedy then star_greedy s k else star_lazy s k
  | S least' =>
      match s with
      | String c s' => if p c then repeat greedy least' s' k else None
      | EmptyString => None
      end
  end.

End Repeat.

(** What a successful match remembers: the text of each group. *)
Abbreviation captures := (gmap nat string).

(** The text consumed between the suffix [s] and its own suffix [s']. *)
Definition consumed (s s' : string) : string :=
  String.substring 0 (String.length s - String.length s') s.

Section Match.
Context (ignorecase : bool) (input : string).

Fixpoint run (r : regex) (s : string) (caps : captures)
    (k : string -> captures -> option captures) : option captures :=
  match r with
  | Eps => k s caps
  | Bol =>
      if Nat.eqb (String.length s) (String.length input)
      then k s caps else None
  | Eol =>
      (* the end of the text, or just before a final line feed *)
      match s with
      | EmptyString => k s caps
      | String c EmptyString =>
          if Ascii.eqb c PyStr.LF then k s caps else None
      | _ => None
      end
  | Chr cs =>
      match s with
      | String c s' => if in_class ignorecase cs c then k s' caps else None
      | EmptyString => None
      end
  | Rep greedy least cs =>
      repeat (in_class ignorecase cs) greedy least s (fun s' => k s' caps)
  | Seq r1 r2 =>
      run r1 s caps (fun s' caps' => run r2 s' caps' k)
  | Alt r1 r2 =>
      match run r1 s caps k with
      | Some m => Some m
      | None => run r2 s caps k
      end
  | Group n r0 =>
      run r0 s caps (fun s' caps' => k s' (<[n := consumed s s']> caps'))
  | NegLookahead r0 =>
      match run r0 s caps (fun _ caps' => Some caps') with
      | Some _ => None
      | None => k s caps
      end
  end.

End Match.

(** [pattern.match(text)]: the match is anchored at the start of the
    text and need not reach its end. *)
Definition re_match (ignorecase : bool) (r : regex) (text : string)
    : option captures :=
  run ignorecase text r text ∅ (fun _ caps => Some caps).

(** [match.group(n)] for a group that took part in the match. *)
Definition group (m : captures) (n : nat) : string := default EmptyString (m !! n).

(** A literal word, character by character. *)
Fixpoint word (w : string) : regex :=
  match w with
  | String c EmptyString => Chr (Lit c)
  | String c w' => Seq (Chr (Lit c)) (word w')
  | EmptyString => Eps
  end.

End Re.

(** ** The TOC parser *)

Declare Scope regex_scope.
Delimit Scope regex_scope with re.
Infix ";;" := Re.Seq (at level 100, right associativity) : regex_scope.
Infix "|||" := Re.Alt (at level 50, left associativity) : regex_scope.

(** A TOC entry: [(chapter_title, starting_page)]. *)
Definition toc_entry : Type := string * Z.

(** [^(?!.*Contenido)(.*?)(?:\s*\.+\s*|\s+-\s+)(\d+)$], compiled with
    [re.IGNORECASE]. *)
Definition pattern : Re.regex :=
  (Re.Bol ;;
   Re.NegLookahead (Re.Rep true 0 Re.Any ;; Re.word "Contenido") ;;
   Re.Group 1 (Re.Rep false 0 Re.Any) ;;
   ((Re.Rep true 0 Re.Space ;; Re.Rep true 1 (Re.Lit ".") ;; Re.Rep true 0 Re.Space)
    ||| (Re.Rep true 1 Re.Space ;; Re.Chr (Re.Lit "-") ;; Re.Rep true 1 Re.Space)) ;;
   Re.Group 2 (Re.Rep true 1 Re.Digit) ;;
   Re.Eol)%re.

(** The body of the loop over the lines: [continue] leaves the list as
    it is, [append] extends it at the end. *)
Definition parse_toc_line (toc_entries : list toc_entry) (line : string)
    : list toc_entry :=
  let line := PyStr.strip line in
  if PyStr.is_empty line then toc_entries
  else
    match Re.re_match true pattern line with
    | Some m =>
        let title := PyStr.strip (Re.group m 1) in
        match PyStr.int (PyStr.strip (Re.group m 2)) with
        | inr page_num => toc_entries ++ [(title, page_num)]
        | inl _ => toc_entries            (* except ValueError: continue *)
        end
    | None => toc_entries
    end.

Definition parse_toc_text (text : string) : list toc_entry :=
  let lines := PyStr.splitlines text in
  foldl parse_toc_line [] lines.

(** ** Built-ins on lists *)

Module PyList.

(** [range(start, stop)] *)
Definition range (start stop : Z) : list Z := seqZ start (stop - start).

(** [min(l)] and [max(l)]: a [ValueError] on the empty list. *)
Definition min (l : list Z) : Py.result Z :=
  match l with
  | [] => Py.raise Py.ValueError
  | x :: l' => Py.ret (foldl Z.min x l')
  end.

Definition max (l : list Z) : Py.result Z :=
  match l with
  | [] => Py.raise Py.ValueError
  | x :: l' => Py.ret (foldl Z.max x l')
  end.

(** [l[i]], negative indices counting from the end. *)
Definition index {A} (l : list A) (i : Z) : Py.result A :=
  let n := Z.of_nat (List.length l) in
  let j := if i <? 0 then n + i else i in
  if j <? 0 then Py.raise Py.IndexError
  else match l !! Z.to_nat j with
       | Some a => Py.ret a
       | None => Py.raise Py.IndexError
       end.

(** [enumerate(l)] *)
Definition enumerate {A} (l : list A) : list (nat * A) :=
  zip (seq 0 (List.length l)) l.

(** [sorted(l, key=...)]: Python's sort is stable, and so is this
    insertion sort: an element goes in front of the first element of
    the sorted rest whose key is not smaller, so that elements with
    equal keys keep the order they had in [l]. *)
Section Sorted.
Context {A : Type} (key : A -> Z).

Fixpoint insert_by (x : A) (l : list A) : list A :=
  match l with
  | [] => [x]
  | y :: l' => if key x <=? key y then x :: l else y :: insert_by x l'
  end.

Fixpoint sorted (l : list A) : list A :=
  match l with
  | [] => []
  | x :: l' => insert_by x (sorted l')
  end.

End Sorted.

(** A [for] loop whose body may raise: the state is threaded through
    the elements in order, and the first exception ends the loop. *)
Fixpoint for_each {A S} (body : S -> A -> Py.result S) (s : S) (l : list A)
    : Py.result S :=
  match l with
  | [] => Py.ret s
  | a :: l' => do s' <- body s a; for_each body s' l'
  end.

End PyList.

(** ** Chapters *)

Record EpubHtml : Type := mkEpubHtml {
  title : string;
  file_name : string;
  lang : string;
  content : string
}.

Definition nl : string := String PyStr.LF EmptyString.
Definition dq : string := String (ascii_of_N 34) EmptyString.

Definition create_chapter (title content filename : string) : EpubHtml :=
  let header_html :=
    if negb (PyStr.is_empty (PyStr.strip title))
    then "<h1>" ++ title ++ "</h1>" else EmptyString in
  {| title := title;
     file_name := filename;
     lang := "es";
     content :=
       "<html xmlns=" ++ dq ++ "http://www.w3.org/1999/xhtml" ++ dq ++ ">" ++ nl ++
       "  <head>" ++ nl ++
       "    <title>" ++ title ++ "</title>" ++ nl ++
       "    <link href=" ++ dq ++ "styles/custom.css" ++ dq ++ " rel=" ++ dq ++
         "stylesheet" ++ dq ++ " type=" ++ dq ++ "text/css" ++ dq ++ " />" ++ nl ++
       "  </head>" ++ nl ++
       "  <body>" ++ nl ++
       "    " ++ header_html ++ nl ++
       "    <article epub:type=" ++ dq ++ "chapter" ++ dq ++ " class=" ++ dq ++
         "article-chapter" ++ dq ++ ">" ++ nl ++
       "      " ++ content ++ nl ++
       "    </article>" ++ nl ++
       "  </body>" ++ nl ++
       "</html>" |}.

(** The body of the loop of [combine_pages]:
    [if p in page_contents: combined += page_contents[p]]. *)
Definition add_page (page_contents : gmap Z string) (combined : string)
    (p : Z) : string :=
  match page_contents !! p with
  | Some c => combined ++ c
  | None => combined
  end.

(** Combines the content of pages from [start] to [end_] (inclusive). *)
Definition combine_pages (page_contents : gmap Z string) (start end_ : Z)
    : string :=
  foldl (add_page page_contents) EmptyString (PyList.range start (end_ + 1)).

(** ** The chapter segmenter: the part of [pdf_to_epub] that turns the
    page contents, the content pages and the TOC entries into chapters *)

(** [start_page == toc_page], where [toc_page] may be [None]. *)
Definition is_toc_page (toc_page : option Z) (start_page : Z) : bool :=
  match toc_page with
  | Some t => start_page =? t
  | None => false
  end.

Definition chapter_filename (idx : nat) : string :=
  "chapter_" ++ PyStr.of_nat (idx + 1) ++ ".xhtml".

Section Segmenter.
Context (page_contents : gmap Z string) (content_pages : list Z)
        (toc_page : option Z).

(** The body of [for idx, entry in enumerate(toc_entries)]. *)
Definition toc_chapter_step (toc_entries : list toc_entry)
    (chapters : list EpubHtml) (item : nat * toc_entry)
    : Py.result (list EpubHtml) :=
  let '(idx, (title, start_page)) := item in
  if is_toc_page toc_page start_page then Py.ret chapters     (* continue *)
  else
    do end_page <-
      (if Z.of_nat idx <? Z.of_nat (List.length toc_entries) - 1 then
         do next_entry <- PyList.index toc_entries (Z.of_nat idx + 1);
         Py.ret (snd next_entry - 1)
       else PyList.max content_pages);
    let chapter_text := combine_pages page_contents start_page end_page in
    Py.ret (chapters ++ [create_chapter title chapter_text (chapter_filename idx)])%list.

Definition segment (toc_entries : list toc_entry) : Py.result (list EpubHtml) :=
  match toc_entries with
  | _ :: _ =>
      let toc_entries := PyList.sorted snd toc_entries in
      do first_entry <- PyList.index toc_entries 0;
      let first_entry_page := snd first_entry in
      do lowest <- PyList.min content_pages;
      do chapters <-
        (if first_entry_page >? lowest then
           do lowest <- PyList.min content_pages;
           let preface_text :=
             combine_pages page_contents lowest (first_entry_page - 1) in
           Py.ret [create_chapter "Prefacio" preface_text "chapter_prefacio.xhtml"]
         else Py.ret []);
      PyList.for_each (toc_chapter_step toc_entries) chapters
                      (PyList.enumerate toc_entries)
  | [] =>
      (* Fallback: combine all content pages into one chapter. *)
      do lowest <- PyList.min content_pages;
      do highest <- PyList.max content_pages;
      let all_text := combine_pages page_contents lowest highest in
      Py.ret [create_chapter "Contenido" all_text "chapter_1.xhtml"]
  end.

End Segmenter.

(** ** The conversion

    PyMuPDF and ebooklib are outside the repository: a document is
    modelled by what the program reads from it, a book by what the
    program puts into it (the fixed metadata and the item identifiers
    are left out). *)

Record Pixmap : Type := mkPixmap {
  pix_n : Z;                     (* number of components per pixel *)
  tobytes_png : option string    (* the PNG data of the pixmap, if any *)
}.

(** [pix.tobytes("png")]: PNG cannot hold every colorspace, and PyMuPDF
    raises a [ValueError] for a pixmap that it cannot write as PNG, such
    as a CMYK pixmap, which has four components without an alpha
    channel. *)
Definition tobytes (pix : Pixmap) : Py.result string :=
  match tobytes_png pix with
  | Some data => Py.ret data
  | None => Py.raise Py.ValueError
  end.

Record Image : Type := mkImage {
  img_pixmap : Pixmap;       (* [fitz.Pixmap(doc, xref)] *)
  img_rgb : Pixmap           (* [fitz.Pixmap(fitz.csRGB, pix)] *)
}.

Record Page : Type := mkPage {
  get_text : string;         (* [page.get_text("text")] *)
  get_images : list Image;   (* [page.get_images(full=True)] *)
  get_pixmap : Pixmap        (* [page.get_pixmap()] *)
}.

Definition Document : Type := list Page.

(** What the program asks of its environment: opening the PDF and
    reading the style sheet next to the program. *)
Record World : Type := mkWorld {
  fitz_open : string -> Py.result Document;
  load_css : Py.result string
}.

Inductive SpineItem : Type :=
| SpineNav
| SpineChapter (c : EpubHtml).

Record EpubBook : Type := mkEpubBook {
  cover : string * string;
  images : list (string * string);
  stylesheet : string;
  chapters : list EpubHtml;
  toc : list (string * string * string);
  spine : list SpineItem
}.

(** The body of [for img in page.get_images(full=True)]; the state is
    [(image_html, images_list, image_counter)]. *)
Definition extract_image (st : string * list (string * string) * Z)
    (img : Image) : Py.result (string * list (string * string) * Z) :=
  let '(image_html, images_list, image_counter) := st in
  let pix := img_pixmap img in
  let pix := if pix_n pix >=? 5 then img_rgb img else pix in
  do img_bytes <- tobytes pix;
  let img_filename := "images/img_" ++ PyStr.of_Z image_counter ++ ".png" in
  Py.ret (image_html ++ "<div><img src='" ++ img_filename ++ "' alt='Image "
            ++ PyStr.of_Z image_counter ++ "' /></div>",
          (images_list ++ [(img_filename, img_bytes)])%list,
          image_counter + 1).

(** The marker with the original PDF page number, with the two
    characters that the source file holds after the [P]. *)
Definition page_ref (page_number : Z) : string :=
  "<br/><span class='page-ref'>[P"
  ++ String (ascii_of_N 195) (String (ascii_of_N 161) EmptyString)
  ++ "gina " ++ PyStr.of_Z page_number ++ "]</span>".

(** The body of [for i in range(1, total_pages)]; the state is
    [(page_contents, images_list, image_counter)]. *)
Definition extract_page (doc : Document)
    (st : gmap Z string * list (string * string) * Z) (i : Z)
    : Py.result (gmap Z string * list (string * string) * Z) :=
  let '(page_contents, images_list, image_counter) := st in
  do page <- PyList.index doc i;
  let text := get_text page in
  let formatted_text := PyStr.replace nl "<br/>" text in
  do extracted <-
    PyList.for_each extract_image (EmptyString, images_list, image_counter)
                    (get_images page);
  let '(image_html, images_list, image_counter) := extracted in
  let formatted_text := formatted_text ++ page_ref (i + 1) in
  Py.ret (<[i + 1 := formatted_text ++ image_html]> page_contents,
          images_list, image_counter).

Definition content_page_numbers (total_pages : Z) : list Z :=
  PyList.range 2 (total_pages + 1).

(** Which pages to include as content. *)
Definition content_pages_of (total_pages : Z) (toc_page : option Z) : list Z :=
  match toc_page with
  | Some t => List.filter (fun p => negb (p =? t)) (content_page_numbers total_pages)
  | None => content_page_numbers total_pages
  end.

(** TOC entries are parsed only when a TOC page is given and is one of
    the content page numbers. *)
Definition toc_entries_of (doc : Document) (toc_page : option Z)
    : Py.result (list toc_entry) :=
  match toc_page with
  | Some t =>
      if bool_decide (t ∈ content_page_numbers (Z.of_nat (List.length doc))) then
        do page <- PyList.index doc (t - 1);
        Py.ret (parse_toc_text (get_text page))
      else Py.ret []
  | None => Py.ret []
  end.

Definition convert (doc : Document) (css : Py.result string)
    (toc_page : option Z) : Py.result EpubBook :=
  let total_pages := Z.of_nat (List.length doc) in
  do cover_page <- PyList.index doc 0;
  do cover_data <- tobytes (get_pixmap cover_page);
  do extracted <-
    PyList.for_each (extract_page doc) (∅, [], 1) (PyList.range 1 total_pages);
  let '(page_contents, images_list, _) := extracted in
  let content_pages := content_pages_of total_pages toc_page in
  do toc_entries <- toc_entries_of doc toc_page;
  do chapters <- segment page_contents content_pages toc_page toc_entries;
  do custom_css <- css;
  Py.ret {| cover := ("cover.png", cover_data);
            images := images_list;
            stylesheet := custom_css;
            chapters := chapters;
            toc := (fun chap => (file_name chap, title chap, file_name chap))
                     <$> chapters;
            spine := SpineNav :: (SpineChapter <$> chapters) |}.

(** [pdf_to_epub]: the book that [epub.write_epub] receives, with the
    path it is written to. *)
Definition pdf_to_epub (w : World) (pdf_path epub_path : string)
    (toc_page : option Z) : Py.result (string * EpubBook) :=
  do doc <- fitz_open w pdf_path;
  do book <- convert doc (load_css w) toc_page;
  Py.ret (epub_path, book).

(** ** The command line *)

Inductive outcome : Type :=
| Finished                          (* the script ran to its end *)
| Exited (status : Z)               (* [sys.exit(status)] *)
| Raised (e : Py.exn).              (* an unhandled exception *)

Record run : Type := mkRun {
  stdout : list string;                     (* the lines printed *)
  written : option (string * EpubBook);     (* the EPUB written, if any *)
  ending : outcome
}.

Definition usage : string :=
  "Usage: python pdf_to_epub.py input.pdf output.epub [toc_page]".

(** The [__main__] block; [argv] is [sys.argv]. *)
Definition main (w : World) (argv : list string) : run :=
  if Z.of_nat (List.length argv) <? 2 then
    {| stdout := [usage]; written := None; ending := Exited 1 |}
  else
    let arguments :=
      do pdf_file <- PyList.index argv 1;
      do argv1 <- PyList.index argv 1;
      let epub_file := PyStr.replace ".pdf" ".epub" argv1 in
      do toc_page_arg <-
        (if Z.of_nat (List.length argv) =? 3 then
           do argv2 <- PyList.index argv 2;
           do n <- PyStr.int argv2;
           Py.ret (Some n)
         else Py.ret None);
      Py.ret (pdf_file, epub_file, toc_page_arg) in
    match arguments with
    | inl e => {| stdout := []; written := None; ending := Raised e |}
    | inr (pdf_file, epub_file, toc_page_arg) =>
        match pdf_to_epub w pdf_file epub_file toc_page_arg with
        | inl e => {| stdout := []; written := None; ending := Raised e |}
        | inr out =>
            {| stdout := ["EPUB file created successfully."];
               written := Some out;
               ending := Finished |}
        end
    end.

(** ** Page ranges of the chapters

    Every chapter that [segment] builds is [create_chapter] applied to a
    title, the text [combine_pages page_contents start end_] and a file
    name.  The ranges below record those arguments; [segment_ranges]
    proves that they are the ones the segmenter uses. *)

Record chapter_range : Type := mkRange {
  range_title : string;
  range_start : Z;
  range_end : Z;
  range_file : string
}.

Definition render (page_contents : gmap Z string) (r : chapter_range)
    : EpubHtml :=
  create_chapter (range_title r)
                 (combine_pages page_contents (range_start r) (range_end r))
                 (range_file r).

(** The entries that get a chapter, with their positions in the sorted
    list. *)
Definition emitted (toc_page : option Z) (sorted_entries : list toc_entry)
    : list (nat * toc_entry) :=
  List.filter (fun item => negb (is_toc_page toc_page (snd (snd item))))
              (PyList.enumerate sorted_entries).

(** The ranges of the chapters of the entries [entries], the tail of
    the sorted list that starts at position [idx]. *)
Fixpoint entry_ranges (toc_page : option Z) (highest : Z) (idx : nat)
    (entries : list toc_entry) : list chapter_range :=
  match entries with
  | [] => []
  | (title, start_page) :: rest =>
      let end_page :=
        match rest with
        | (_, next_entry_page) :: _ => next_entry_page - 1
        | [] => highest
        end in
      ((if is_toc_page toc_page start_page then []
        else [mkRange title start_page end_page (chapter_filename idx)])
       ++ entry_ranges toc_page highest (S idx) rest)%list
  end.

Definition preface_ranges (lowest : Z) (sorted_entries : list toc_entry)
    : list chapter_range :=
  match sorted_entries with
  | (_, first_entry_page) :: _ =>
      if first_entry_page >? lowest
      then [mkRange "Prefacio" lowest (first_entry_page - 1)
                    "chapter_prefacio.xhtml"]
      else []
  | [] => []
  end.

Definition chapter_ranges (lowest highest : Z) (toc_page : option Z)
    (toc_entries : list toc_entry) : list chapter_range :=
  match toc_entries with
  | _ :: _ =>
      let sorted_entries := PyList.sorted snd toc_entries in
      (preface_ranges lowest sorted_entries
       ++ entry_ranges toc_page highest 0 sorted_entries)%list
  | [] => [mkRange "Contenido" lowest highest "chapter_1.xhtml"]
  end.

(** Page [p] lies in the range of a chapter: its content, when it has
    one, is one of the pieces that [combine_pages] puts together. *)
Definition covers (p : Z) (r : chapter_range) : bool :=
  (range_start r <=? p) && (p <=? range_end r).

Definition chapters_covering (p : Z) (ranges : list chapter_range) : nat :=
  List.length (List.filter (covers p) ranges).

(** Adjacent elements are in order of their keys. *)
Inductive ascending {A : Type} (key : A -> Z) : list A -> Prop :=
| ascending_nil : ascending key []
| ascending_one x : ascending key [x]
| ascending_cons x y l :
    key x <= key y -> ascending key (y :: l) -> ascending key (x :: y :: l).

(** Every character of a string satisfies [p]. *)
Fixpoint all_chars (p : ascii -> bool) (s : string) : bool :=
  match s with
  | EmptyString => true
  | String c s' => p c && all_chars p s'
  end.

(** File names numbered 1, 2, 3, ... without a gap. *)
Definition numbered_consecutively (names : list string) : Prop :=
  names = chapter_filename <$> seq 0 (List.length names).

(** The file names of the chapters that come from TOC entries. *)
Definition toc_derived_names (chs : list EpubHtml) : list string :=
  List.filter (fun f => negb (String.eqb f "chapter_prefacio.xhtml"))
              (file_name <$> chs).

(** The partition property of the chapters: every content page that has
    content lies in the range of exactly one chapter. *)
Definition partition_claim (page_contents : gmap Z string)
    (content_pages : list Z) (toc_page : option Z)
    (toc_entries : list toc_entry) : Prop :=
  forall p lowest highest,
    PyList.min content_pages = inr lowest ->
    PyList.max content_pages = inr highest ->
    p ∈ content_pages ->
    is_Some (page_contents !! p) ->
    chapters_covering p (chapter_ranges lowest highest toc_page toc_entries)
    = 1%nat.

(** Small inputs for the examples. *)
Definition pages_2_to_5 : gmap Z string :=
  <[2 := "two"]> (<[3 := "three"]> (<[4 := "four"]> (<[5 := "five"]> ∅))).

Definition blank : Pixmap := mkPixmap 3 (Some EmptyString).

Definition text_page (text : string) : Page := mkPage text [] blank.

(** A five-page document whose page 3 is the table of contents. *)
Definition toc_on_page_3 : Document :=
  [text_page "cover";
   text_page "intro";
   text_page ("Contenido" ++ nl ++ "Intro .... 2" ++ nl ++ "Fin .... 4");
   text_page "body";
   text_page "end"].

(** A document that has a cover and nothing else. *)
Definition cover_only : Document := [text_page "cover"].

(** A cover and one more page, which is the table of contents. *)
Definition two_pages_toc_last : Document :=
  [text_page "cover"; text_page "Intro .... 2"].

(** A world in which every path opens [doc] and the style sheet is
    empty. *)
Definition world_of (doc : Document) : World :=
  mkWorld (fun _ => inr doc) (inr EmptyString).

(** ** Further notions used by the verification *)

(** Each range ends right before the next one starts. *)
Fixpoint contiguous (ranges : list chapter_range) : Prop :=
  match ranges with
  | r1 :: ((r2 :: _) as rest) =>
      range_end r1 + 1 = range_start r2 /\ contiguous rest
  | _ => True
  end.

(** The name of the [k]-th extracted image. *)
Definition img_name (k : Z) : string :=
  "images/img_" ++ PyStr.of_Z k ++ ".png".

(** The PNG data stored for an image, if it has any: those of its RGB
    conversion when the pixmap has five components or more. *)
Definition image_bytes (img : Image) : option string :=
  tobytes_png (if pix_n (img_pixmap img) >=? 5 then img_rgb img
               else img_pixmap img).

(** The markup for the images of one page, the first of which has the
    number [k]. *)
Fixpoint images_html (k : Z) (imgs : list Image) : string :=
  match imgs with
  | [] => EmptyString
  | _ :: rest =>
      "<div><img src='" ++ img_name k ++ "' alt='Image " ++ PyStr.of_Z k
      ++ "' /></div>" ++ images_html (k + 1) rest
  end.

(** The images of a list of pages, in reading order. *)
Definition images_of (pages : list Page) : list Image :=
  mjoin (get_images <$> pages).

(** The text of a page as it is stored: line feeds become [<br/>] and
    the page marker follows. *)
Definition formatted_page (page : Page) (page_number : Z) : string :=
  PyStr.replace nl "<br/>" (get_text page) ++ page_ref page_number.

(** A cover and three pages, the second of which, page 3, is a TOC
    page without a parsable line. *)
Definition cover_and_three : Document :=
  [text_page "cover"; text_page "one"; text_page "Indice"; text_page "two"].

(** [old in s]: the string [old] occurs somewhere in [s]. *)
Fixpoint occurs (old s : string) : bool :=
  String.prefix old s
  || match s with
     | EmptyString => false
     | String _ s' => occurs old s'
     end.

(** [w] is at the start of [s], letter case apart. *)
Fixpoint prefix_ci (w s : string) : bool :=
  match w with
  | EmptyString => true
  | String a w' =>
      match s with
      | String c s' =>
          Ascii.eqb (PyStr.lower a) (PyStr.lower c) && prefix_ci w' s'
      | EmptyString => false
      end
  end.

(** [w] occurs somewhere in [s], letter case apart. *)
Fixpoint occurs_ci (w s : string) : bool :=
  prefix_ci w s
  || match s with
     | EmptyString => false
     | String _ s' => occurs_ci w s'
     end.

(** The character [c] matches no character of [w], letter case
    apart. *)
Definition matches_none (w : string) (c : ascii) : bool :=
  all_chars (fun a => negb (Ascii.eqb (PyStr.lower a) (PyStr.lower c))) w.

Definition no_linebreak (c : ascii) : bool := negb (PyStr.is_linebreak c).

(** White space that does not end a line. *)
Definition blank_char (c : ascii) : bool :=
  PyStr.is_space c && negb (PyStr.is_linebreak c).

(** A character that may stand in a title without being taken for a
    part of the separator or for the end of the line. *)
Definition title_char (c : ascii) : bool :=
  negb (PyStr.is_linebreak c) && negb (Ascii.eqb c ".")
  && negb (Ascii.eqb c "-").

(** The number that a run of digits stands for. *)
Fixpoint decimal_from (acc : Z) (digits : string) : Z :=
  match digits with
  | EmptyString => acc
  | String c rest => decimal_from (10 * acc + PyStr.digit_value c) rest
  end.

Definition decimal_value (digits : string) : Z := decimal_from 0 digits.

(** The two separators of the pattern and what follows the title:
    [(?:\s*\.+\s*|\s+-\s+)(\d+)$]. *)
Definition dotted_separator : Re.regex :=
  (Re.Rep true 0 Re.Space ;; Re.Rep true 1 (Re.Lit ".") ;; Re.Rep true 0 Re.Space)%re.

Definition hyphen_separator : Re.regex :=
  (Re.Rep true 1 Re.Space ;; Re.Chr (Re.Lit "-") ;; Re.Rep true 1 Re.Space)%re.

Definition pattern_tail : Re.regex :=
  ((dotted_separator ||| hyphen_separator) ;;
   Re.Group 2 (Re.Rep true 1 Re.Digit) ;;
   Re.Eol)%re.

(** The contents of the pages [pages], one after the other; a page
    without content gives nothing. *)
Fixpoint pages_text (page_contents : gmap Z string) (pages : list Z)
    : string :=
  match pages with
  | [] => EmptyString
  | p :: rest =>
      default EmptyString (page_contents !! p) ++ pages_text page_contents rest
  end.

(** The XHTML document of a chapter with the title [title], the heading
    [header] and the text [text]. *)
Definition xhtml_document (title header text : string) : string :=
  "<html xmlns=" ++ dq ++ "http://www.w3.org/1999/xhtml" ++ dq ++ ">" ++ nl ++
  "  <head>" ++ nl ++
  "    <title>" ++ title ++ "</title>" ++ nl ++
  "    <link href=" ++ dq ++ "styles/custom.css" ++ dq ++ " rel=" ++ dq ++
    "stylesheet" ++ dq ++ " type=" ++ dq ++ "text/css" ++ dq ++ " />" ++ nl ++
  "  </head>" ++ nl ++
  "  <body>" ++ nl ++
  "    " ++ header ++ nl ++
  "    <article epub:type=" ++ dq ++ "chapter" ++ dq ++ " class=" ++ dq ++
    "article-chapter" ++ dq ++ ">" ++ nl ++
  "      " ++ text ++ nl ++
  "    </article>" ++ nl ++
  "  </body>" ++ nl ++
  "</html>".

(** The one chapter of a book without TOC entries, with the text
    [text]. *)
Definition fallback_chapter (text : string) : EpubHtml :=
  {| title := "Contenido";
     file_name := "chapter_1.xhtml";
     lang := "es";
     content := xhtml_document "Contenido" "<h1>Contenido</h1>" text |}.

(** The extraction loop of [pdf_to_epub] on a document. *)
Definition extraction (doc : Document)
    : Py.result (gmap Z string * list (string * string) * Z) :=
  PyList.for_each (extract_page doc) (∅, [], 1)
                  (PyList.range 1 (Z.of_nat (List.length doc))).

(** A five-page document whose page 3 is a table of contents that
    lists itself. *)
Definition toc_lists_itself : Document :=
  [text_page "cover";
   text_page "intro";
   text_page "Indice .... 3";
   text_page "body";
   text_page "end"].

(** An RGB image, a CMYK image with an alpha channel, which is
    converted to RGB, and a CMYK image without one, which is not and
    has no PNG data. *)
Definition rgb_image : Image :=
  mkImage (mkPixmap 3 (Some "rgb")) (mkPixmap 3 (Some "rgb")).

Definition cmyk_alpha_image : Image :=
  mkImage (mkPixmap 5 None) (mkPixmap 3 (Some "converted")).

Definition cmyk_image : Image :=
  mkImage (mkPixmap 4 None) (mkPixmap 3 (Some "converted")).

(** A cover and two pages with images. *)
Definition illustrated : Document :=
  [text_page "cover";
   mkPage "one" [rgb_image; cmyk_alpha_image] blank;
   mkPage "two" [rgb_image] blank].

(** The same with a CMYK image on the last page. *)
Definition illustrated_cmyk : Document :=
  [text_page "cover";
   mkPage "one" [rgb_image; cmyk_alpha_image] blank;
   mkPage "two" [cmyk_image] blank].

(** * Verification *)

Open Scope list_scope.
(** ** Facts about the list built-ins *)

Section ListFacts.

Lemma foldl_min_le (l : list Z) (x : Z) :
  foldl Z.min x l <= x /\ forall p, p ∈ l -> foldl Z.min x l <= p.
Proof.
  revert x. induction l as [|y l IH]; intros x; simpl.
  - split; [lia | intros p Hp; inversion Hp].
  - destruct (IH (Z.min x y)) as [H1 H2]. split; [lia |].
    intros p Hp. apply elem_of_cons in Hp as [-> | Hp]; [lia | auto].
Qed.

Lemma foldl_max_ge (l : list Z) (x : Z) :
  x <= foldl Z.max x l /\ forall p, p ∈ l -> p <= foldl Z.max x l.
Proof.
  revert x. induction l as [|y l IH]; intros x; simpl.
  - split; [lia | intros p Hp; inversion Hp].
  - destruct (IH (Z.max x y)) as [H1 H2]. split; [lia |].
    intros p Hp. apply elem_of_cons in Hp as [-> | Hp]; [lia | auto].
Qed.

Lemma min_le (l : list Z) (lo p : Z) :
  PyList.min l = inr lo -> p ∈ l -> lo <= p.
Proof.
  destruct l as [|x l]; [discriminate |].
  intros [= <-] Hp. destruct (foldl_min_le l x) as [H1 H2].
  apply elem_of_cons in Hp as [-> | Hp]; auto.
Qed.

Lemma max_ge (l : list Z) (hi p : Z) :
  PyList.max l = inr hi -> p ∈ l -> p <= hi.
Proof.
  destruct l as [|x l]; [discriminate |].
  intros [= <-] Hp. destruct (foldl_max_ge l x) as [H1 H2].
  apply elem_of_cons in Hp as [-> | Hp]; auto.
Qed.

Lemma min_max_nonempty (l : list Z) :
  l <> [] -> exists lo hi, PyList.min l = inr lo /\ PyList.max l = inr hi.
Proof. destruct l; [congruence | intros _; simpl; eauto]. Qed.

Lemma index_app_head {A} (pre : list A) (x : A) (rest : list A) :
  PyList.index (pre ++ x :: rest) (Z.of_nat (List.length pre)) = inr x.
Proof.
  unfold PyList.index. cbv zeta.
  destruct (Z.ltb_spec (Z.of_nat (List.length pre)) 0) as [|_]; [lia |].
  destruct (Z.ltb_spec (Z.of_nat (List.length pre)) 0) as [|_]; [lia |].
  rewrite Nat2Z.id, list_lookup_middle by reflexivity. reflexivity.
Qed.

Lemma index_0 {A} (x : A) (l : list A) : PyList.index (x :: l) 0 = inr x.
Proof. reflexivity. Qed.

End ListFacts.

(** ** [sorted] orders the entries by starting page *)

Section SortedFacts.
Context {A : Type} (key : A -> Z).

Lemma insert_by_ascending (x : A) (l : list A) :
  ascending key l -> ascending key (PyList.insert_by key x l).
Proof.
  induction 1 as [|y|y z l Hyz Hl IH]; simpl.
  - constructor.
  - destruct (Z.leb_spec (key x) (key y)); repeat constructor; lia.
  - destruct (Z.leb_spec (key x) (key y)).
    + repeat constructor; auto.
    + simpl in IH. destruct (Z.leb_spec (key x) (key z)).
      * repeat constructor; auto; lia.
      * constructor; auto.
Qed.

Lemma sorted_ascending (l : list A) : ascending key (PyList.sorted key l).
Proof.
  induction l; simpl; [constructor | by apply insert_by_ascending].
Qed.

Lemma insert_by_perm (x : A) (l : list A) : PyList.insert_by key x l ≡ₚ x :: l.
Proof.
  induction l as [|y l IH]; simpl; [done |].
  destruct (key x <=? key y); [done |].
  rewrite IH. apply Permutation_swap.
Qed.

Lemma sorted_perm (l : list A) : PyList.sorted key l ≡ₚ l.
Proof.
  induction l as [|x l IH]; simpl; [done |].
  by rewrite insert_by_perm, IH.
Qed.

(** Stability: the elements with a given key keep their order. *)
Lemma insert_by_stable (k : Z) (x : A) (l : list A) :
  List.filter (fun y => key y =? k) (PyList.insert_by key x l)
  = List.filter (fun y => key y =? k) (x :: l).
Proof.
  induction l as [|y l IH]; [done |].
  cbn [PyList.insert_by].
  destruct (Z.leb_spec (key x) (key y)) as [|Hlt]; [done |].
  cbn [List.filter] in *. rewrite IH.
  destruct (Z.eqb_spec (key x) k), (Z.eqb_spec (key y) k); try done.
  exfalso. lia.
Qed.

Lemma sorted_stable (k : Z) (l : list A) :
  List.filter (fun y => key y =? k) (PyList.sorted key l)
  = List.filter (fun y => key y =? k) l.
Proof.
  induction l as [|x l IH]; [done |].
  cbn [PyList.sorted]. rewrite insert_by_stable.
  cbn [List.filter]. by rewrite IH.
Qed.

Lemma sorted_nonempty (l : list A) : l <> [] -> PyList.sorted key l <> [].
Proof.
  intros Hl Hs. apply Hl. apply Permutation_nil_r.
  rewrite <- Hs. symmetry. apply sorted_perm.
Qed.

End SortedFacts.

(** ** The segmenter, as a list of page ranges *)

Section SegmentRanges.
Context (page_contents : gmap Z string) (content_pages : list Z)
        (toc_page : option Z).

Lemma for_each_entries (highest : Z) (suf pre : list toc_entry)
    (chs : list EpubHtml) :
  PyList.max content_pages = inr highest ->
  PyList.for_each
    (toc_chapter_step page_contents content_pages toc_page (pre ++ suf))
    chs (zip (seq (List.length pre) (List.length suf)) suf)
  = inr (chs ++ (render page_contents
                   <$> entry_ranges toc_page highest (List.length pre) suf))%list.
Proof.
  intros Hmax. revert pre chs.
  induction suf as [|[t s] rest IH]; intros pre chs.
  - simpl. by rewrite app_nil_r.
  - specialize (IH (pre ++ [(t, s)])).
    rewrite <- app_assoc, length_app, Nat.add_1_r in IH. simpl app in IH.
    cbn [List.length seq zip zip_with PyList.for_each entry_ranges].
    unfold toc_chapter_step at 1.
    destruct (is_toc_page toc_page s) eqn:Hskip.
    + cbn [Py.bind Py.ret]. by rewrite IH.
    + match goal with
      | |- context [Py.bind (if ?c then ?a else ?b) _] =>
          assert (Hend : (if c then a else b)
                         = inr match rest with
                               | (_, next_entry_page) :: _ => next_entry_page - 1
                               | [] => highest
                               end)
      end.
      { rewrite length_app. destruct rest as [|[t' s'] rest'].
        - simpl List.length.
          destruct (Z.ltb_spec (Z.of_nat (List.length pre))
                      (Z.of_nat (List.length pre + 1) - 1)); [lia | done].
        - simpl List.length.
          destruct (Z.ltb_spec (Z.of_nat (List.length pre))
                      (Z.of_nat (List.length pre + S (S (List.length rest'))) - 1));
            [| lia].
          rewrite (cons_middle (t, s) pre), app_assoc.
          replace (Z.of_nat (List.length pre) + 1)
            with (Z.of_nat (List.length (pre ++ [(t, s)])))
            by (rewrite length_app; simpl; lia).
          by rewrite index_app_head. }
      rewrite Hend. cbn [Py.bind Py.ret]. rewrite IH.
      unfold render at 2. cbn [range_title range_start range_end range_file].
      by rewrite <- app_assoc.
Qed.

(** [segment] builds exactly the chapters of [chapter_ranges]. *)
Lemma segment_ranges (toc_entries : list toc_entry) (lowest highest : Z) :
  PyList.min content_pages = inr lowest ->
  PyList.max content_pages = inr highest ->
  segment page_contents content_pages toc_page toc_entries
  = inr (render page_contents
           <$> chapter_ranges lowest highest toc_page toc_entries).
Proof.
  intros Hmin Hmax. destruct toc_entries as [|e l].
  - simpl. by rewrite Hmin, Hmax.
  - unfold segment, chapter_ranges. cbv beta iota zeta.
    pose proof (sorted_nonempty snd (e :: l)) as Hne.
    destruct (PyList.sorted snd (e :: l)) as [|[t0 s0] rest] eqn:Hs;
      [by destruct Hne |].
    rewrite index_0, Hmin. cbn [Py.bind snd].
    rewrite fmap_app. unfold PyList.enumerate.
    pose proof (for_each_entries highest ((t0, s0) :: rest) [] ) as Hloop.
    cbn [app List.length] in Hloop.
    unfold preface_ranges.
    destruct (s0 >? lowest); cbn [Py.bind Py.ret]; by rewrite Hloop.
Qed.

End SegmentRanges.

(** ** What the ranges cover *)

Section RangeFacts.
Context (toc_page : option Z) (highest : Z).

Lemma entry_ranges_cons (t : string) (s : Z) (rest : list toc_entry)
    (idx : nat) :
  entry_ranges toc_page highest idx ((t, s) :: rest)
  = (if is_toc_page toc_page s then []
     else [mkRange t s
             match rest with
             | (_, next_entry_page) :: _ => next_entry_page - 1
             | [] => highest
             end
             (chapter_filename idx)])
    ++ entry_ranges toc_page highest (S idx) rest.
Proof. reflexivity. Qed.

Lemma chapters_covering_app (p : Z) (rs1 rs2 : list chapter_range) :
  chapters_covering p (rs1 ++ rs2)
  = (chapters_covering p rs1 + chapters_covering p rs2)%nat.
Proof.
  unfold chapters_covering. by rewrite List.filter_app, length_app.
Qed.

Lemma chapters_covering_one (p : Z) (r : chapter_range) :
  chapters_covering p [r] = if covers p r then 1%nat else 0%nat.
Proof. unfold chapters_covering. simpl. by destruct (covers p r). Qed.

(** When no entry is skipped, the ranges of an ascending list of entries
    cover every page from the first starting page up to [highest] once,
    and no page below the first starting page. *)
Lemma covering_entries (l : list toc_entry) (idx : nat) (p : Z) :
  ascending snd l ->
  (forall e, e ∈ l -> is_toc_page toc_page (snd e) = false) ->
  p <= highest ->
  chapters_covering p (entry_ranges toc_page highest idx l)
  = match l with
    | (_, s0) :: _ => if s0 <=? p then 1%nat else 0%nat
    | [] => 0%nat
    end.
Proof.
  intros Hasc. revert idx.
  induction Hasc as [|[t s]|[t s] [t' s'] l Hle Hasc IH];
    intros idx Hno Hp.
  - reflexivity.
  - pose proof (Hno (t, s) ltac:(apply list_elem_of_here)) as Hs.
    cbn [snd] in Hs.
    rewrite entry_ranges_cons, Hs, chapters_covering_app, chapters_covering_one.
    unfold covers, chapters_covering. cbn [range_start range_end entry_ranges].
    destruct (Z.leb_spec s p), (Z.leb_spec p highest); simpl; lia.
  - pose proof (Hno (t, s) ltac:(apply list_elem_of_here)) as Hs.
    cbn [snd] in Hs, Hle.
    rewrite entry_ranges_cons, Hs, chapters_covering_app, chapters_covering_one.
    rewrite IH by (auto using list_elem_of_further).
    unfold covers. cbn [range_start range_end].
    destruct (Z.leb_spec s p), (Z.leb_spec p (s' - 1)), (Z.leb_spec s' p);
      simpl; lia.
Qed.

Lemma entry_ranges_files (l : list toc_entry) (idx : nat) :
  range_file <$> entry_ranges toc_page highest idx l
  = (fun item => chapter_filename (fst item))
      <$> List.filter (fun item => negb (is_toc_page toc_page (snd (snd item))))
                      (zip (seq idx (List.length l)) l).
Proof.
  revert idx. induction l as [|[t s] rest IH]; intros idx; [done |].
  cbn [entry_ranges List.length seq zip zip_with List.filter snd].
  rewrite fmap_app, IH. by destruct (is_toc_page toc_page s).
Qed.

Lemma entry_ranges_entries (l : list toc_entry) (idx : nat) :
  (fun r => (range_title r, range_start r))
    <$> entry_ranges toc_page highest idx l
  = List.filter (fun e => negb (is_toc_page toc_page (snd e))) l.
Proof.
  revert idx. induction l as [|[t s] rest IH]; intros idx; [done |].
  cbn [entry_ranges List.filter snd].
  rewrite fmap_app, IH. by destruct (is_toc_page toc_page s).
Qed.

End RangeFacts.

Lemma render_file_names (pc : gmap Z string) (rs : list chapter_range) :
  file_name <$> (render pc <$> rs) = range_file <$> rs.
Proof. rewrite <- list_fmap_compose. by apply list_fmap_ext. Qed.


(** ** Strings *)

Lemma str_app_cons (c : ascii) (s t : string) :
  (String c s ++ t)%string = String c (s ++ t)%string.
Proof. reflexivity. Qed.

Lemma str_app_nil_r (s : string) : (s ++ EmptyString)%string = s.
Proof. induction s; [done |]. by rewrite str_app_cons, IHs. Qed.

Lemma str_app_assoc (s t u : string) :
  ((s ++ t) ++ u)%string = (s ++ (t ++ u))%string.
Proof. induction s; [done |]. by rewrite !str_app_cons, IHs. Qed.

(** ** [combine_pages] puts the content of each page of the range in *)

Lemma foldl_add_page (pc : gmap Z string) (l : list Z) (acc : string) :
  foldl (add_page pc) acc l = (acc ++ foldl (add_page pc) EmptyString l)%string.
Proof.
  revert acc. induction l as [|p l IH]; intros acc; simpl.
  - by rewrite str_app_nil_r.
  - rewrite (IH (add_page pc acc p)), (IH (add_page pc EmptyString p)).
    unfold add_page. destruct (pc !! p); [| done].
    by rewrite str_app_assoc.
Qed.

Lemma combine_pages_page (pc : gmap Z string) (start end_ p : Z) (text : string) :
  start <= p <= end_ ->
  pc !! p = Some text ->
  combine_pages pc start end_
  = (combine_pages pc start (p - 1) ++ text ++ combine_pages pc (p + 1) end_)%string.
Proof.
  intros Hp Htext. unfold combine_pages, PyList.range.
  replace (end_ + 1 - start) with ((p - start) + (1 + (end_ - p))) by lia.
  rewrite seqZ_app by lia. rewrite (seqZ_app _ 1) by lia.
  rewrite !foldl_app.
  replace (p - 1 + 1 - start) with (p - start) by lia.
  replace (start + (p - start)) with p by lia.
  replace (end_ + 1 - (p + 1)) with (end_ - p) by lia.
  rewrite (foldl_add_page pc (seqZ (p + 1) (end_ - p))).
  change (seqZ p 1) with [p]. cbn [foldl]. unfold add_page at 1.
  by rewrite Htext, str_app_assoc.
Qed.

(** ** The segmenter: claims *)

Lemma foldl_add_page_text (pc : gmap Z string) (l : list Z) (acc : string) :
  foldl (add_page pc) acc l = (acc ++ pages_text pc l)%string.
Proof.
  revert acc. induction l as [|p l IH]; intros acc.
  - by rewrite str_app_nil_r.
  - cbn [foldl pages_text]. rewrite IH. unfold add_page.
    destruct (pc !! p) as [c|]; [by rewrite str_app_assoc | done].
Qed.

Lemma combine_pages_text (pc : gmap Z string) (start end_ : Z) :
  combine_pages pc start end_
  = pages_text pc (seqZ start (end_ + 1 - start)).
Proof. unfold combine_pages, PyList.range. by rewrite foldl_add_page_text. Qed.

Lemma segment_example_ranges (pc : gmap Z string) :
  segment pc (PyList.range 2 21) (Some 1) [("A", 3); ("B", 10)]
  = inr [create_chapter "Prefacio" (combine_pages pc 2 2)
                        "chapter_prefacio.xhtml";
         create_chapter "A" (combine_pages pc 3 9) "chapter_1.xhtml";
         create_chapter "B" (combine_pages pc 10 20) "chapter_2.xhtml"].
Proof. by rewrite (segment_ranges _ _ _ _ 2 20). Qed.

(** C6.  With the entries [(A,3); (B,10)], the content pages 2..20 and
    the TOC page 1, the segmenter yields three chapters: Prefacio, whose
    text is the content of page 2; A, whose text is the contents of the
    pages 3 to 9; and B, whose text is the contents of the pages 10 to
    20. *)
Theorem segment_example (pc : gmap Z string) :
  segment pc [2; 3; 4; 5; 6; 7; 8; 9; 10; 11; 12; 13; 14; 15; 16; 17; 18; 19; 20]
          (Some 1) [("A", 3); ("B", 10)]
  = inr [{| title := "Prefacio";
            file_name := "chapter_prefacio.xhtml";
            lang := "es";
            content :=
              xhtml_document "Prefacio" "<h1>Prefacio</h1>"
                             (pages_text pc [2]) |};
         {| title := "A";
            file_name := "chapter_1.xhtml";
            lang := "es";
            content :=
              xhtml_document "A" "<h1>A</h1>"
                             (pages_text pc [3; 4; 5; 6; 7; 8; 9]) |};
         {| title := "B";
            file_name := "chapter_2.xhtml";
            lang := "es";
            content :=
              xhtml_document "B" "<h1>B</h1>"
                (pages_text pc [10; 11; 12; 13; 14; 15; 16; 17; 18; 19; 20]) |}].
Proof.
  change [2; 3; 4; 5; 6; 7; 8; 9; 10; 11; 12; 13; 14; 15; 16; 17; 18; 19; 20]
    with (PyList.range 2 21).
  rewrite segment_example_ranges, !combine_pages_text. reflexivity.
Qed.

(** C1.  In the five-page document whose page 3 is a table of contents
    that lists itself, converted with the TOC page 3, the content pages
    are 2, 4 and 5 and the one entry starts at the TOC page: the entry
    is skipped with its whole range, and the pages 4 and 5, which have
    content, are in no chapter.  The book has the preface with page 2
    and nothing else. *)
Theorem skipped_entry_omits_pages :
  exists pc imgs cnt book,
    extraction toc_lists_itself = inr (pc, imgs, cnt)
    /\ content_pages_of (Z.of_nat (List.length toc_lists_itself)) (Some 3)
       = [2; 4; 5]
    /\ toc_entries_of toc_lists_itself (Some 3) = inr [("Indice"%string, 3)]
    /\ pc !! 4 = Some ("body" ++ page_ref 4)%string
    /\ pc !! 5 = Some ("end" ++ page_ref 5)%string
    /\ convert toc_lists_itself (inr EmptyString) (Some 3) = inr book
    /\ chapters book
       = [{| title := "Prefacio";
             file_name := "chapter_prefacio.xhtml";
             lang := "es";
             content :=
               xhtml_document "Prefacio" "<h1>Prefacio</h1>"
                              ("intro" ++ page_ref 2) |}]
    /\ ~ partition_claim pc [2; 4; 5] (Some 3) [("Indice"%string, 3)].
Proof.
  eexists _, _, _, _.
  split; [by vm_compute |]. split; [by vm_compute |].
  split; [by vm_compute |]. split; [by vm_compute |].
  split; [by vm_compute |]. split; [by vm_compute |].
  split; [by vm_compute |].
  intros Hclaim.
  specialize (Hclaim 4 2 5 eq_refl eq_refl).
  assert (H4 : 4 ∈ [2; 4; 5]) by repeat constructor.
  specialize (Hclaim H4 (ex_intro _ _ eq_refl)).
  vm_compute in Hclaim. discriminate.
Qed.

(** C7.  The chapters made from TOC entries are, in order, those of
    the sorted entries whose starting page is not the TOC page: an
    entry that starts at the TOC page gets no chapter.  The only other
    chapter is the preface, when there is one. *)
Theorem toc_page_entries_emit_no_chapter (pc : gmap Z string)
    (cps : list Z) (tp : Z) (toc : list toc_entry) :
  toc <> [] ->
  cps <> [] ->
  exists lo hi,
    segment pc cps (Some tp) toc
    = inr (render pc
             <$> (preface_ranges lo (PyList.sorted snd toc)
                  ++ entry_ranges (Some tp) hi 0 (PyList.sorted snd toc))) /\
    (fun r => (range_title r, range_start r))
      <$> entry_ranges (Some tp) hi 0 (PyList.sorted snd toc)
    = List.filter (fun e => negb (snd e =? tp)) (PyList.sorted snd toc).
Proof.
  intros Htoc Hcps.
  destruct (min_max_nonempty cps Hcps) as (lo & hi & Hmin & Hmax).
  exists lo, hi. split.
  - rewrite (segment_ranges _ _ _ _ lo hi) by done.
    by destruct toc.
  - apply entry_ranges_entries.
Qed.

Lemma toc_page_entries_emit_no_chapter_witness :
  exists lo hi,
    segment pages_2_to_5 [2; 4; 5] (Some 3) [("B", 5); ("A", 3)]
    = inr (render pages_2_to_5
             <$> (preface_ranges lo (PyList.sorted snd [("B", 5); ("A", 3)])
                  ++ entry_ranges (Some 3) hi 0
                       (PyList.sorted snd [("B", 5); ("A", 3)]))) /\
    (fun r => (range_title r, range_start r))
      <$> entry_ranges (Some 3) hi 0 (PyList.sorted snd [("B", 5); ("A", 3)])
    = List.filter (fun e => negb (snd e =? 3))
                  (PyList.sorted snd [("B", 5); ("A", 3)]).
Proof.
  apply (toc_page_entries_emit_no_chapter pages_2_to_5 [2; 4; 5] 3
           [("B", 5); ("A", 3)]); discriminate.
Defined.

(** C3, amended.  The preface is named [chapter_prefacio.xhtml], and
    the chapter of the entry at position [idx] (from 0) of the sorted
    list is named [chapter_<idx+1>.xhtml]: a skipped entry keeps its
    number, which is then missing from the names. *)
Theorem chapter_file_names (pc : gmap Z string) (cps : list Z)
    (tp : option Z) (toc : list toc_entry) :
  toc <> [] ->
  cps <> [] ->
  exists chs pre,
    segment pc cps tp toc = inr chs /\
    (pre = [] \/ pre = ["chapter_prefacio.xhtml"%string]) /\
    file_name <$> chs
    = pre ++ ((fun item => chapter_filename (fst item))
                <$> emitted tp (PyList.sorted snd toc)).
Proof.
  intros Htoc Hcps.
  destruct (min_max_nonempty cps Hcps) as (lo & hi & Hmin & Hmax).
  eexists _, (range_file <$> preface_ranges lo (PyList.sorted snd toc)).
  split_and!.
  - by apply segment_ranges.
  - unfold preface_ranges.
    destruct (PyList.sorted snd toc) as [|[t0 s0] rest]; [by left |].
    destruct (s0 >? lo); [by right | by left].
  - rewrite render_file_names. destruct toc as [|e l]; [done |].
    unfold chapter_ranges. rewrite fmap_app. f_equal.
    apply entry_ranges_files.
Qed.

Lemma chapter_file_names_witness :
  exists chs pre,
    segment pages_2_to_5 [2; 4; 5] (Some 3) [("B", 5); ("A", 3)] = inr chs /\
    (pre = [] \/ pre = ["chapter_prefacio.xhtml"%string]) /\
    file_name <$> chs
    = pre ++ ((fun item => chapter_filename (fst item))
                <$> emitted (Some 3) (PyList.sorted snd [("B", 5); ("A", 3)])).
Proof.
  apply (chapter_file_names pages_2_to_5 [2; 4; 5] (Some 3)
           [("B", 5); ("A", 3)]); discriminate.
Defined.

(** C3 as stated fails: with the TOC on page 3 and the entries (A,3)
    and (B,5), entry A is skipped and the first chapter made from a TOC
    entry is [chapter_2.xhtml]. *)
Lemma skipped_entry_leaves_gap :
  exists chs,
    segment pages_2_to_5 [2; 4; 5] (Some 3) [("A", 3); ("B", 5)] = inr chs /\
    file_name <$> chs
    = ["chapter_prefacio.xhtml"%string; "chapter_2.xhtml"%string] /\
    ~ numbered_consecutively (toc_derived_names chs).
Proof.
  eexists. split; [by vm_compute |]. split; [by vm_compute |].
  vm_compute. discriminate.
Qed.

(** ** The matcher: a success goes through the continuation *)

Section RepeatFacts.
Context {A : Type} (p : ascii -> bool).

Lemma star_greedy_success (s : string) (k : string -> option A) (m : A) :
  Re.star_greedy p s k = Some m ->
  exists pre s', s = (pre ++ s')%string /\ all_chars p pre = true
                 /\ k s' = Some m.
Proof.
  induction s as [|c s IH]; simpl; intros H.
  - by exists EmptyString, EmptyString.
  - destruct (p c) eqn:Hc; [| by exists EmptyString, (String c s)].
    destruct (Re.star_greedy p s k) as [m'|] eqn:Hs.
    + destruct (IH H) as (pre & s' & -> & Hpre & Hk).
      exists (String c pre), s'. simpl. by rewrite Hc, Hpre.
    + by exists EmptyString, (String c s).
Qed.

Lemma star_lazy_success (s : string) (k : string -> option A) (m : A) :
  Re.star_lazy p s k = Some m ->
  exists pre s', s = (pre ++ s')%string /\ all_chars p pre = true
                 /\ k s' = Some m.
Proof.
  induction s as [|c s IH]; simpl; intros H.
  - destruct (k EmptyString) eqn:Hk; [| done].
    exists EmptyString, EmptyString. by rewrite Hk.
  - destruct (k (String c s)) eqn:Hk.
    + exists EmptyString, (String c s). by rewrite Hk.
    + destruct (p c) eqn:Hc; [| done].
      destruct (IH H) as (pre & s' & -> & Hpre & Hk').
      exists (String c pre), s'. simpl. by rewrite Hc, Hpre.
Qed.

Lemma repeat_success (greedy : bool) (least : nat) (s : string)
    (k : string -> option A) (m : A) :
  Re.repeat p greedy least s k = Some m ->
  exists pre s', s = (pre ++ s')%string /\ all_chars p pre = true
                 /\ (least <= String.length pre)%nat /\ k s' = Some m.
Proof.
  revert s. induction least as [|least IH]; intros s; simpl; intros H.
  - destruct greedy;
      [apply star_greedy_success in H | apply star_lazy_success in H];
      destruct H as (pre & s' & -> & Hpre & Hk);
      exists pre, s'; split_and!; auto; lia.
  - destruct s as [|c s]; [done |].
    destruct (p c) eqn:Hc; [| done].
    destruct (IH _ H) as (pre & s' & -> & Hpre & Hlen & Hk).
    exists (String c pre), s'. simpl. rewrite Hc, Hpre.
    split_and!; auto; lia.
Qed.

End RepeatFacts.

Section RunFacts.
Context (ignorecase : bool) (input : string).

Lemma run_success (r : Re.regex) (s : string) (caps : Re.captures)
    (k : string -> Re.captures -> option Re.captures) (m : Re.captures) :
  Re.run ignorecase input r s caps k = Some m ->
  exists s' caps', k s' caps' = Some m.
Proof.
  revert s caps k.
  induction r as [| | |cs|greedy least cs|r1 IH1 r2 IH2|r1 IH1 r2 IH2|n r IH|r IH];
    intros s caps k; simpl; intros H.
  - eauto.
  - destruct (Nat.eqb _ _); [eauto | done].
  - destruct s as [|c [|c' s]]; [eauto | | done].
    destruct (Ascii.eqb c PyStr.LF); [eauto | done].
  - destruct s as [|c s]; [done |].
    destruct (Re.in_class ignorecase cs c); [eauto | done].
  - apply repeat_success in H as (pre & s' & _ & _ & _ & Hk). eauto.
  - apply IH1 in H as (s1 & caps1 & H). by apply IH2 in H.
  - destruct (Re.run ignorecase input r1 s caps k) eqn:H1.
    + inversion H; subst. by apply IH1 in H1.
    + by apply IH2 in H.
  - apply IH in H as (s1 & caps1 & H). eauto.
  - destruct (Re.run ignorecase input r s caps _); [done | eauto].
Qed.

Lemma run_seq (r1 r2 : Re.regex) (s : string) (caps : Re.captures)
    (k : string -> Re.captures -> option Re.captures) :
  Re.run ignorecase input (Re.Seq r1 r2) s caps k
  = Re.run ignorecase input r1 s caps
      (fun s' caps' => Re.run ignorecase input r2 s' caps' k).
Proof. reflexivity. Qed.

End RunFacts.

(** ** The page number of a match is a run of digits *)

Lemma str_length_app (s t : string) :
  String.length (s ++ t)%string = (String.length s + String.length t)%nat.
Proof. induction s; [done |]. rewrite str_app_cons. simpl. by rewrite IHs. Qed.

Lemma substring_prefix (s t : string) :
  String.substring 0 (String.length s) (s ++ t)%string = s.
Proof.
  induction s as [|c s IH]; [by destruct t |].
  rewrite str_app_cons. simpl. by rewrite IH.
Qed.

Lemma consumed_app (pre s' : string) : Re.consumed (pre ++ s')%string s' = pre.
Proof.
  unfold Re.consumed. rewrite str_length_app.
  replace (String.length pre + String.length s' - String.length s')%nat
    with (String.length pre) by lia.
  apply substring_prefix.
Qed.

Lemma page_group_digits (ignorecase : bool) (input s : string)
    (caps m : Re.captures) :
  Re.run ignorecase input
    (Re.Seq (Re.Group 2 (Re.Rep true 1 Re.Digit)) Re.Eol) s caps
    (fun _ caps' => Some caps') = Some m ->
  exists digits,
    m !! 2%nat = Some digits /\ all_chars PyStr.is_digit digits = true
    /\ digits <> EmptyString.
Proof.
  intros H. cbn [Re.run] in H.
  apply repeat_success in H as (pre & s' & -> & Hpre & Hlen & Hk).
  rewrite consumed_app in Hk.
  assert (m = <[2%nat := pre]> caps) as ->.
  { destruct s' as [|c [|c' s'']]; [congruence | | done].
    destruct (Ascii.eqb c PyStr.LF); congruence. }
  exists pre. rewrite lookup_insert_eq. split_and!; [done | | ].
  - by destruct ignorecase.
  - intros ->. simpl in Hlen. lia.
Qed.

Lemma pattern_page_digits (line : string) (m : Re.captures) :
  Re.re_match true pattern line = Some m ->
  exists digits,
    Re.group m 2 = digits /\ all_chars PyStr.is_digit digits = true
    /\ digits <> EmptyString.
Proof.
  unfold Re.re_match, pattern. intros H.
  do 4 (rewrite run_seq in H; apply run_success in H as (? & ? & H)).
  apply page_group_digits in H as (digits & Hm & Hd & Hne).
  exists digits. unfold Re.group. by rewrite Hm.
Qed.

(** ** [int] on a run of digits *)

Lemma all_chars_lstrip (p : ascii -> bool) (s : string) :
  all_chars p s = true -> all_chars p (PyStr.lstrip s) = true.
Proof.
  induction s as [|c s IH]; [done |]. simpl. intros [Hc Hs]%andb_prop.
  destruct (PyStr.is_space c); [auto |]. simpl. by rewrite Hc, Hs.
Qed.

Lemma all_chars_rstrip (p : ascii -> bool) (s : string) :
  all_chars p s = true -> all_chars p (PyStr.rstrip s) = true.
Proof.
  induction s as [|c s IH]; [done |]. simpl. intros [Hc Hs]%andb_prop.
  specialize (IH Hs). destruct (PyStr.rstrip s) as [|c' r].
  - destruct (PyStr.is_space c); [done |]. simpl. by rewrite Hc.
  - change (all_chars p (String c (String c' r)))
      with (p c && all_chars p (String c' r)). by rewrite Hc, IH.
Qed.

Lemma all_chars_strip (p : ascii -> bool) (s : string) :
  all_chars p s = true -> all_chars p (PyStr.strip s) = true.
Proof. intros H. by apply all_chars_rstrip, all_chars_lstrip. Qed.

Lemma digit_value_nonneg (c : ascii) :
  PyStr.is_digit c = true -> 0 <= PyStr.digit_value c.
Proof.
  unfold PyStr.is_digit, PyStr.digit_value.
  intros [H _]%andb_prop. apply N.leb_le in H. lia.
Qed.

Lemma int_digits_nonneg (s : string) (need_digit : bool) (acc n : Z) :
  0 <= acc -> PyStr.int_digits need_digit acc s = Some n -> 0 <= n.
Proof.
  revert need_digit acc. induction s as [|c s IH]; intros need_digit acc Hacc; simpl.
  - destruct need_digit; [done | congruence].
  - destruct (PyStr.is_digit c) eqn:Hc.
    + apply IH. pose proof (digit_value_nonneg c Hc). lia.
    + destruct (Ascii.eqb c "_" && negb need_digit); [by apply IH | done].
Qed.

Lemma all_chars_lstrip_by (p sp : ascii -> bool) (s : string) :
  all_chars p s = true -> all_chars p (PyStr.lstrip_by sp s) = true.
Proof.
  induction s as [|c s IH]; [done |]. simpl. intros [Hc Hs]%andb_prop.
  destruct (sp c); [auto |]. simpl. by rewrite Hc, Hs.
Qed.

Lemma all_chars_rstrip_by (p sp : ascii -> bool) (s : string) :
  all_chars p s = true -> all_chars p (PyStr.rstrip_by sp s) = true.
Proof.
  induction s as [|c s IH]; [done |]. simpl. intros [Hc Hs]%andb_prop.
  specialize (IH Hs). destruct (PyStr.rstrip_by sp s) as [|c' r].
  - destruct (sp c); [done |]. simpl. by rewrite Hc.
  - change (all_chars p (String c (String c' r)))
      with (p c && all_chars p (String c' r)). by rewrite Hc, IH.
Qed.

Lemma int_of_digits_nonneg (s : string) (n : Z) :
  all_chars PyStr.is_digit s = true -> PyStr.int s = inr n -> 0 <= n.
Proof.
  intros Hs. unfold PyStr.int.
  apply (all_chars_lstrip_by _ PyStr.is_int_space) in Hs.
  apply (all_chars_rstrip_by _ PyStr.is_int_space) in Hs.
  destruct (PyStr.rstrip_by _ (PyStr.lstrip_by _ s)) as [|c r] eqn:Hstrip.
  - done.
  - simpl in Hs. apply andb_prop in Hs as [Hc _].
    assert (Hparse : forall (o : option Z) (b : bool),
              match o with
              | Some n0 => if b then Py.ret n0 else Py.raise Py.ValueError
              | None => Py.raise Py.ValueError
              end = inr n -> o = Some n).
    { intros [n0|] []; [intros [= ->]; done | done | done | done]. }
    cbv zeta.
    destruct c as [[] [] [] [] [] [] [] []]; try discriminate Hc;
      intros H%Hparse; by apply int_digits_nonneg in H.
Qed.

(** ** The TOC parser: claims *)

Lemma parse_toc_line_nonneg (entries : list toc_entry) (line : string) :
  Forall (fun e => 0 <= snd e) entries ->
  Forall (fun e => 0 <= snd e) (parse_toc_line entries line).
Proof.
  intros Hentries. unfold parse_toc_line.
  destruct (PyStr.is_empty (PyStr.strip line)); [done |].
  destruct (Re.re_match true pattern (PyStr.strip line)) as [m|] eqn:Hm;
    [| done].
  apply pattern_page_digits in Hm as (digits & <- & Hd & _).
  destruct (PyStr.int (PyStr.strip (Re.group m 2))) as [e|page_num] eqn:Hint;
    [done |].
  apply Forall_app. split; [done |]. constructor; [| constructor].
  simpl. apply int_of_digits_nonneg in Hint; [done |].
  by apply all_chars_strip.
Qed.

(** C4.  The three lines of the example give the two entries
    (Introduccion, 3) and (Capitulo Uno, 10), in that order; the line
    with Contenido gives none. *)
Theorem parse_toc_example :
  parse_toc_text ("Introduccion .... 3" ++ nl ++ "Capitulo Uno - 10" ++ nl
                  ++ "Contenido ..... 1")%string
  = [("Introduccion"%string, 3); ("Capitulo Uno"%string, 10)].
Proof. by vm_compute. Qed.

(** C8, amended.  Every entry that the parser returns has a starting
    page that is zero or more. *)
Theorem parsed_pages_nonnegative (text : string) :
  Forall (fun e => 0 <= snd e) (parse_toc_text text).
Proof.
  unfold parse_toc_text.
  assert (Hfold : forall lines entries,
            Forall (fun e : toc_entry => 0 <= snd e) entries ->
            Forall (fun e => 0 <= snd e) (foldl parse_toc_line entries lines)).
  { induction lines as [|line lines IH]; intros entries Hentries; [done |].
    simpl. by apply IH, parse_toc_line_nonneg. }
  by apply Hfold.
Qed.

(** C8 as stated fails: page 0 is accepted. *)
Lemma parsed_page_zero :
  parse_toc_text "Intro .... 0" = [("Intro"%string, 0)]
  /\ ~ (forall text, Forall (fun e => 0 < snd e) (parse_toc_text text)).
Proof.
  split; [by vm_compute |].
  intros Hclaim. specialize (Hclaim "Intro .... 0"%string).
  vm_compute in Hclaim. inversion Hclaim as [|? ? Hpos _]. discriminate Hpos.
Qed.

(** ** The conversion: auxiliary facts *)

Lemma index_in_range {A} (l : list A) (i : Z) :
  0 <= i < Z.of_nat (List.length l) -> exists a, PyList.index l i = inr a.
Proof.
  intros Hi. unfold PyList.index. cbv zeta.
  destruct (Z.ltb_spec i 0) as [|_]; [lia |].
  destruct (Z.ltb_spec i 0) as [|_]; [lia |].
  destruct (l !! Z.to_nat i) as [a|] eqn:Hl; [by exists a |].
  apply lookup_ge_None in Hl. lia.
Qed.

Lemma range_bounds (a b : Z) :
  Forall (fun i => a <= i < b) (PyList.range a b).
Proof.
  apply Forall_forall. intros i Hi. unfold PyList.range in Hi.
  apply elem_of_seqZ in Hi. lia.
Qed.

(** *** The extraction loop

    The loop over the images of a page, and then the loop over the
    pages, either run to their end or stop at the first image that
    cannot be written as PNG. *)

Lemma extract_images_loop (images : list Image) (html : string)
    (imgs : list (string * string)) (c : Z) :
  (exists bs,
     Forall2 (fun img b => image_bytes img = Some b) images bs
     /\ PyList.for_each extract_image (html, imgs, c) images
        = inr ((html ++ images_html c images)%string,
               imgs ++ zip (img_name <$> seqZ c (Z.of_nat (List.length images)))
                           bs,
               c + Z.of_nat (List.length images)))
  \/ (Exists (fun img => image_bytes img = None) images
      /\ PyList.for_each extract_image (html, imgs, c) images
         = inl Py.ValueError).
Proof.
  revert html imgs c. induction images as [|img rest IH]; intros html imgs c.
  - left. exists []. split; [constructor |].
    simpl. rewrite str_app_nil_r, app_nil_r. do 3 f_equal. lia.
  - assert (Hstep :
      PyList.for_each extract_image (html, imgs, c) (img :: rest)
      = match image_bytes img with
        | Some b =>
            PyList.for_each extract_image
              ((html ++ "<div><img src='" ++ img_name c ++ "' alt='Image "
                  ++ PyStr.of_Z c ++ "' /></div>")%string,
               imgs ++ [(img_name c, b)], c + 1) rest
        | None => inl Py.ValueError
        end).
    { cbn [PyList.for_each]. unfold extract_image, tobytes, image_bytes.
      by destruct (tobytes_png _). }
    rewrite Hstep. clear Hstep.
    destruct (image_bytes img) as [b|] eqn:Hb.
    2:{ right. split; [| done]. by apply Exists_cons_hd. }
    destruct (IH (html ++ "<div><img src='" ++ img_name c ++ "' alt='Image "
                    ++ PyStr.of_Z c ++ "' /></div>")%string
                 (imgs ++ [(img_name c, b)]) (c + 1))
      as [(bs & Hbs & ->) | [Hex ->]].
    + left. exists (b :: bs). split; [by constructor |].
      cbn [List.length].
      rewrite (seqZ_cons c) by lia.
      replace (Z.pred (Z.of_nat (S (List.length rest))))
        with (Z.of_nat (List.length rest)) by lia.
      replace (Z.succ c) with (c + 1) by lia.
      cbn [fmap list_fmap zip zip_with images_html].
      rewrite <- app_assoc. cbn [app].
      rewrite !str_app_assoc.
      do 2 f_equal. lia.
    + right. split; [by apply Exists_cons_tl | done].
Qed.

Lemma images_of_cons (page : Page) (rest : list Page) :
  images_of (page :: rest) = get_images page ++ images_of rest.
Proof. reflexivity. Qed.

Lemma extract_page_step (pre : list Page) (page : Page) (rest : list Page)
    (pc0 : gmap Z string) (imgs0 : list (string * string)) (c0 : Z) :
  (exists bs,
     Forall2 (fun img b => image_bytes img = Some b) (get_images page) bs
     /\ extract_page (pre ++ page :: rest) (pc0, imgs0, c0)
                     (Z.of_nat (List.length pre))
        = inr (<[Z.of_nat (List.length pre) + 1
                 := (formatted_page page (Z.of_nat (List.length pre) + 1)
                     ++ images_html c0 (get_images page))%string]> pc0,
               imgs0 ++ zip (img_name
                               <$> seqZ c0 (Z.of_nat
                                              (List.length (get_images page))))
                            bs,
               c0 + Z.of_nat (List.length (get_images page))))
  \/ (Exists (fun img => image_bytes img = None) (get_images page)
      /\ extract_page (pre ++ page :: rest) (pc0, imgs0, c0)
                      (Z.of_nat (List.length pre))
         = inl Py.ValueError).
Proof.
  unfold extract_page. rewrite index_app_head. cbn [Py.bind].
  destruct (extract_images_loop (get_images page) EmptyString imgs0 c0)
    as [(bs & Hbs & ->) | [Hex ->]].
  - left. exists bs. split; [done |]. reflexivity.
  - right. by split.
Qed.

(** The loop over the pages [suf] that follow the pages [pre]. *)
Lemma extract_loop (suf pre : list Page) (pc0 : gmap Z string)
    (imgs0 : list (string * string)) (c0 : Z) :
  (exists pc bs,
     Forall2 (fun img b => image_bytes img = Some b) (images_of suf) bs
     /\ PyList.for_each (extract_page (pre ++ suf)) (pc0, imgs0, c0)
          (seqZ (Z.of_nat (List.length pre)) (Z.of_nat (List.length suf)))
        = inr (pc,
               imgs0 ++ zip (img_name
                               <$> seqZ c0 (Z.of_nat
                                              (List.length (images_of suf))))
                            bs,
               c0 + Z.of_nat (List.length (images_of suf)))
     /\ (forall p,
           ~ (Z.of_nat (List.length pre) < p
              <= Z.of_nat (List.length pre) + Z.of_nat (List.length suf)) ->
           pc !! p = pc0 !! p)
     /\ (forall (j : nat) page,
           suf !! j = Some page ->
           pc !! (Z.of_nat (List.length pre) + Z.of_nat j + 1)
           = Some (formatted_page page
                     (Z.of_nat (List.length pre) + Z.of_nat j + 1)
                   ++ images_html
                        (c0 + Z.of_nat (List.length (images_of (take j suf))))
                        (get_images page))%string))
  \/ (Exists (fun img => image_bytes img = None) (images_of suf)
      /\ PyList.for_each (extract_page (pre ++ suf)) (pc0, imgs0, c0)
           (seqZ (Z.of_nat (List.length pre)) (Z.of_nat (List.length suf)))
         = inl Py.ValueError).
Proof.
  revert pre pc0 imgs0 c0.
  induction suf as [|page rest IH]; intros pre pc0 imgs0 c0.
  - left. exists pc0, []. split_and!.
    + constructor.
    + simpl. rewrite app_nil_r. do 3 f_equal. lia.
    + done.
    + intros j page Hj. inversion Hj.
  - cbn [List.length]. rewrite seqZ_cons by lia.
    replace (Z.pred (Z.of_nat (S (List.length rest))))
      with (Z.of_nat (List.length rest)) by lia.
    cbn [PyList.for_each]. rewrite images_of_cons.
    destruct (extract_page_step pre page rest pc0 imgs0 c0)
      as [(bs1 & Hbs1 & ->) | [Hex ->]]; cbn [Py.bind].
    2:{ right. split; [| done]. apply Exists_app. by left. }
    set (a := Z.of_nat (List.length pre)).
    set (k := Z.of_nat (List.length (get_images page))).
    destruct (IH (pre ++ [page])
                (<[a + 1 := (formatted_page page (a + 1)
                             ++ images_html c0 (get_images page))%string]> pc0)
                (imgs0 ++ zip (img_name <$> seqZ c0 k) bs1)
                (c0 + k))
      as [(pc & bs2 & Hbs2 & Hloop & Hout & Hin) | [Hex Hloop]];
      rewrite <- app_assoc in Hloop; cbn [app] in Hloop;
      rewrite length_app in Hloop; cbn [List.length] in Hloop;
      replace (Z.of_nat (List.length pre + 1)) with (Z.succ a) in Hloop
        by (unfold a; lia).
    2:{ right. split; [| done]. apply Exists_app. by right. }
    rewrite length_app in Hout, Hin. cbn [List.length] in Hout, Hin.
    replace (Z.of_nat (List.length pre + 1)) with (Z.succ a) in Hout, Hin
      by (unfold a; lia).
    pose proof (Forall2_length _ _ _ Hbs1) as Hlen1.
    left. exists pc, (bs1 ++ bs2). split_and!.
    + by apply Forall2_app.
    + rewrite Hloop. rewrite length_app, Nat2Z.inj_add.
      fold k. rewrite seqZ_app by lia.
      rewrite !fmap_app, zip_with_app, <- app_assoc
        by (rewrite !length_fmap, length_seqZ; unfold k; lia).
      do 2 f_equal. lia.
    + intros p Hp. rewrite Hout by lia.
      apply lookup_insert_ne. lia.
    + intros [|j] page' Hj.
      * cbn in Hj. inversion Hj; subst page'.
        replace (a + Z.of_nat 0 + 1) with (a + 1) by lia.
        rewrite Hout by lia. rewrite lookup_insert_eq.
        cbn [take images_of]. do 3 f_equal.
        change (images_of []) with (@nil Image). simpl. lia.
      * cbn in Hj.
        replace (a + Z.of_nat (S j) + 1) with (Z.succ a + Z.of_nat j + 1) by lia.
        rewrite (Hin j page' Hj).
        cbn [take]. rewrite images_of_cons, length_app, Nat2Z.inj_add.
        fold k. do 3 f_equal. lia.
Qed.

(** The extraction either gives the contents of the pages 2 to N and
    the images of these pages, or raises [ValueError] at an image
    without PNG data. *)
Lemma extraction_cases (doc : Document) :
  (exists pc bs,
     Forall2 (fun img b => image_bytes img = Some b) (images_of (tail doc)) bs
     /\ extraction doc
        = inr (pc,
               zip (img_name
                      <$> seqZ 1 (Z.of_nat (List.length (images_of (tail doc)))))
                   bs,
               1 + Z.of_nat (List.length (images_of (tail doc))))
     /\ (forall p, ~ (2 <= p <= Z.of_nat (List.length doc)) -> pc !! p = None)
     /\ (forall (j : nat) page,
           tail doc !! j = Some page ->
           pc !! (Z.of_nat j + 2)
           = Some (formatted_page page (Z.of_nat j + 2)
                   ++ images_html
                        (1 + Z.of_nat
                               (List.length (images_of (take j (tail doc)))))
                        (get_images page))%string))
  \/ (Exists (fun img => image_bytes img = None) (images_of (tail doc))
      /\ extraction doc = inl Py.ValueError).
Proof.
  unfold extraction. destruct doc as [|cover_page rest].
  - left. exists ∅, []. split_and!; [constructor | done | done |].
    intros j page Hj. inversion Hj.
  - cbn [tail]. unfold PyList.range.
    replace (Z.of_nat (List.length (cover_page :: rest)) - 1)
      with (Z.of_nat (List.length rest)) by (cbn [List.length]; lia).
    destruct (extract_loop rest [cover_page] ∅ [] 1)
      as [(pc & bs & Hbs & Hloop & Hout & Hin) | [Hex Hloop]];
      cbn [List.length app] in *.
    + left. exists pc, bs. split_and!.
      * done.
      * exact Hloop.
      * intros p Hp. rewrite Hout by lia. apply lookup_empty.
      * intros j page Hj. specialize (Hin j page Hj).
        by replace (Z.of_nat 1 + Z.of_nat j + 1) with (Z.of_nat j + 2) in Hin
          by lia.
    + right. by split.
Qed.

Lemma extraction_error (doc : Document) (e : Py.exn) :
  extraction doc = inl e -> e = Py.ValueError.
Proof.
  intros H.
  destruct (extraction_cases doc) as [(pc & bs & _ & Heq & _) | [_ Heq]];
    rewrite Heq in H; congruence.
Qed.

Lemma tobytes_error (pix : Pixmap) (e : Py.exn) :
  tobytes pix = inl e -> e = Py.ValueError.
Proof.
  unfold tobytes, Py.ret, Py.raise. destruct (tobytes_png pix); congruence.
Qed.

Lemma foldl_max_seqZ (x n : Z) :
  0 <= n -> foldl Z.max x (seqZ (x + 1) n) = x + n.
Proof.
  intros Hn. rewrite <- (Z2Nat.id n Hn). clear Hn.
  generalize (Z.to_nat n) as k. intros k. revert x.
  induction k as [|k IH]; intros x.
  - simpl. lia.
  - rewrite seqZ_cons by lia. simpl foldl.
    replace (Z.max x (x + 1)) with (x + 1) by lia.
    replace (Z.pred (Z.of_nat (S k))) with (Z.of_nat k) by lia.
    replace (Z.succ (x + 1)) with (x + 1 + 1) by lia.
    rewrite IH. lia.
Qed.

Lemma foldl_min_seqZ (x n : Z) : foldl Z.min x (seqZ (x + 1) n) = x.
Proof.
  destruct (foldl_min_le (seqZ (x + 1) n) x) as [Hle _].
  assert (Hge : forall l y, (forall p, p ∈ l -> x <= p) -> x <= y ->
                            x <= foldl Z.min y l).
  { induction l as [|z l IH]; intros y Hl Hy; [done |]. simpl.
    apply IH; [intros p Hp; apply Hl; by right |].
    pose proof (Hl z ltac:(by left)). lia. }
  specialize (Hge (seqZ (x + 1) n) x).
  assert (x <= foldl Z.min x (seqZ (x + 1) n)); [| lia].
  apply Hge; [| lia]. intros p Hp%elem_of_seqZ. lia.
Qed.

Lemma content_page_numbers_min_max (n : Z) :
  2 <= n ->
  PyList.min (content_page_numbers n) = inr 2
  /\ PyList.max (content_page_numbers n) = inr n.
Proof.
  intros Hn. unfold content_page_numbers, PyList.range.
  rewrite seqZ_cons by lia. simpl.
  change (Z.succ 2) with (2 + 1).
  rewrite foldl_min_seqZ, foldl_max_seqZ by lia. split; f_equal; lia.
Qed.

Lemma content_pages_empty (n : Z) (tp : option Z) :
  content_pages_of n tp = [] <-> n <= 1 \/ (n = 2 /\ tp = Some 2).
Proof.
  unfold content_pages_of, content_page_numbers, PyList.range. split.
  - intros Hnil. destruct (Z_le_gt_dec n 1) as [|Hn]; [by left | right].
    rewrite seqZ_cons in Hnil by lia.
    destruct tp as [t|]; [| done]. cbn [List.filter] in Hnil.
    destruct (Z.eqb_spec 2 t) as [Heq|]; [subst t | done]. cbn [negb] in Hnil.
    destruct (Z_le_gt_dec n 2) as [|Hn3]; [split; [lia | done] |].
    rewrite seqZ_cons in Hnil by lia. cbn [List.filter] in Hnil.
    change (Z.succ 2 =? 2) with false in Hnil. done.
  - intros [Hn | [-> ->]]; [| done].
    rewrite seqZ_nil by lia. by destruct tp.
Qed.

Lemma toc_page_not_content (n t : Z) : t ∉ content_pages_of n (Some t).
Proof.
  unfold content_pages_of. rewrite list_elem_of_In, List.filter_In.
  intros [_ H]. by rewrite Z.eqb_refl in H.
Qed.

Lemma toc_entries_succeed (doc : Document) (tp : option Z) :
  exists toc, toc_entries_of doc tp = inr toc.
Proof.
  unfold toc_entries_of. destruct tp as [t|]; [| by eexists].
  case_bool_decide as Ht; [| by eexists].
  unfold content_page_numbers, PyList.range in Ht.
  apply elem_of_seqZ in Ht.
  destruct (index_in_range doc (t - 1)) as [page ->]; [lia |].
  by eexists.
Qed.

Lemma segment_no_content_pages (pc : gmap Z string) (tp : option Z)
    (toc : list toc_entry) :
  segment pc [] tp toc = inl Py.ValueError.
Proof.
  destruct toc as [|e l]; [done |].
  unfold segment. cbv beta iota zeta.
  pose proof (sorted_nonempty snd (e :: l) ltac:(done)) as Hne.
  by destruct (PyList.sorted snd (e :: l)).
Qed.

(** A conversion that returns a book has gone through each of its
    steps. *)
Lemma convert_success (doc : Document) (css : Py.result string)
    (tp : option Z) (book : EpubBook) :
  convert doc css tp = inr book ->
  exists cover_page cover_data pc imgs cnt toc chs css_text,
    PyList.index doc 0 = inr cover_page
    /\ tobytes (get_pixmap cover_page) = inr cover_data
    /\ extraction doc = inr (pc, imgs, cnt)
    /\ toc_entries_of doc tp = inr toc
    /\ segment pc (content_pages_of (Z.of_nat (List.length doc)) tp) tp toc
       = inr chs
    /\ css = inr css_text
    /\ book = {| cover := ("cover.png"%string, cover_data);
                 images := imgs;
                 stylesheet := css_text;
                 chapters := chs;
                 toc := (fun chap =>
                           (file_name chap, title chap, file_name chap))
                          <$> chs;
                 spine := SpineNav :: (SpineChapter <$> chs) |}.
Proof.
  unfold convert, extraction.
  destruct (PyList.index doc 0) as [|cover_page]; [done |]. cbn [Py.bind].
  destruct (tobytes (get_pixmap cover_page)) as [|cover_data] eqn:Hcover;
    [done |].
  cbn [Py.bind].
  destruct (PyList.for_each _ _ _) as [|[[pc imgs] cnt]]; [done |].
  cbn [Py.bind].
  destruct (toc_entries_of doc tp) as [|toc]; [done |]. cbn [Py.bind].
  destruct (segment _ _ _ _) as [|chs] eqn:Hchs; [done |]. cbn [Py.bind].
  destruct css as [|css_text]; [done |]. cbn [Py.bind Py.ret].
  intros [= <-].
  by exists cover_page, cover_data, pc, imgs, cnt, toc, chs, css_text.
Qed.

Lemma segment_fallback (pc : gmap Z string) (cps : list Z) (tp : option Z)
    (lo hi : Z) :
  PyList.min cps = inr lo ->
  PyList.max cps = inr hi ->
  segment pc cps tp []
  = inr [fallback_chapter (pages_text pc (seqZ lo (hi + 1 - lo)))].
Proof.
  intros Hmin Hmax. unfold segment. rewrite Hmin, Hmax. cbn [Py.bind].
  by rewrite combine_pages_text.
Qed.

(** ** The conversion: claims *)

(** C5, amended.  For a PDF with N >= 2 pages and no TOC page, the
    segmenter is given the content pages 2 to N and no entries, and it
    produces exactly one chapter, titled Contenido, whose text is the
    contents of the pages 2 to N; a conversion that returns a book has
    that chapter, made from the extracted pages, and no other. *)
Theorem no_toc_single_chapter (doc : Document) :
  2 <= Z.of_nat (List.length doc) ->
  toc_entries_of doc None = inr []
  /\ (forall pc : gmap Z string,
        segment pc (content_pages_of (Z.of_nat (List.length doc)) None) None []
        = inr [fallback_chapter
                 (pages_text pc (seqZ 2 (Z.of_nat (List.length doc) - 1)))])
  /\ (forall css book,
        convert doc css None = inr book ->
        exists pc imgs cnt,
          extraction doc = inr (pc, imgs, cnt)
          /\ chapters book
             = [fallback_chapter
                  (pages_text pc (seqZ 2 (Z.of_nat (List.length doc) - 1)))]).
Proof.
  intros Hn.
  destruct (content_page_numbers_min_max _ Hn) as [Hmin Hmax].
  assert (Hseg : forall pc : gmap Z string,
    segment pc (content_pages_of (Z.of_nat (List.length doc)) None) None []
    = inr [fallback_chapter
             (pages_text pc (seqZ 2 (Z.of_nat (List.length doc) - 1)))]).
  { intros pc. cbn [content_pages_of].
    rewrite (segment_fallback pc _ None 2 (Z.of_nat (List.length doc)))
      by done.
    by replace (Z.of_nat (List.length doc) + 1 - 2)
      with (Z.of_nat (List.length doc) - 1) by lia. }
  split_and!; [done | done |].
  intros css book Hbook.
  apply convert_success in Hbook
    as (cp & cd & pc & imgs & cnt & toc & chs & ct
        & _ & _ & Hextract & Htoc & Hchs & _ & ->).
  exists pc, imgs, cnt. split; [done |].
  cbn [chapters]. cbn [toc_entries_of] in Htoc. injection Htoc as <-.
  rewrite Hseg in Hchs. by injection Hchs as <-.
Qed.

Lemma no_toc_single_chapter_witness :
  toc_entries_of illustrated None = inr []
  /\ (forall pc : gmap Z string,
        segment pc (content_pages_of (Z.of_nat (List.length illustrated)) None)
                None []
        = inr [fallback_chapter
                 (pages_text pc
                    (seqZ 2 (Z.of_nat (List.length illustrated) - 1)))])
  /\ (forall css book,
        convert illustrated css None = inr book ->
        exists pc imgs cnt,
          extraction illustrated = inr (pc, imgs, cnt)
          /\ chapters book
             = [fallback_chapter
                  (pages_text pc
                     (seqZ 2 (Z.of_nat (List.length illustrated) - 1)))]).
Proof. apply (no_toc_single_chapter illustrated). simpl. lia. Defined.

(** C5 as stated fails for a PDF of one page: there are no content
    pages, [min] raises in the segmenter and no chapter is produced. *)
Lemma one_page_pdf_fails :
  (forall pc : gmap Z string,
     segment pc (content_pages_of (Z.of_nat (List.length cover_only)) None)
             None []
     = inl Py.ValueError)
  /\ convert cover_only (inr EmptyString) None = inl Py.ValueError
  /\ ~ (forall doc : Document,
          exists book, convert doc (inr EmptyString) None = inr book
                       /\ List.length (chapters book) = 1%nat).
Proof.
  split_and!; [done | by vm_compute |].
  intros Hclaim. destruct (Hclaim cover_only) as (book & Hbook & _).
  vm_compute in Hbook. discriminate.
Qed.

(** C10.  When the set of content pages is empty, the PDF has at most
    one page, or it has two pages and the second is the TOC page;
    [pdf_to_epub] then writes no book but fails: with [IndexError] at the
    cover of a PDF without pages, and otherwise with a [ValueError], that
    of [min] on the empty list of content pages if not one raised
    before. *)
Theorem empty_content_pages_fail (w : World) (pdf_path epub_path : string)
    (tp : option Z) (doc : Document) :
  fitz_open w pdf_path = inr doc ->
  content_pages_of (Z.of_nat (List.length doc)) tp = [] ->
  (Z.of_nat (List.length doc) <= 1
   \/ (Z.of_nat (List.length doc) = 2 /\ tp = Some 2))
  /\ pdf_to_epub w pdf_path epub_path tp
     = inl (match doc with [] => Py.IndexError | _ => Py.ValueError end).
Proof.
  intros Hopen Hempty. split; [by apply content_pages_empty |].
  unfold pdf_to_epub. rewrite Hopen. cbn [Py.bind].
  assert (Hconvert :
    convert doc (load_css w) tp
    = inl (match doc with [] => Py.IndexError | _ => Py.ValueError end)).
  { destruct doc as [|cover_page doc]; [done |].
    destruct (toc_entries_succeed (cover_page :: doc) tp) as [toc Htoc].
    unfold convert. rewrite index_0. cbn [Py.bind].
    destruct (tobytes (get_pixmap cover_page)) as [e|cover_data] eqn:Hcover.
    { by rewrite (tobytes_error _ _ Hcover). }
    cbn [Py.bind]. fold (extraction (cover_page :: doc)).
    destruct (extraction (cover_page :: doc)) as [e|[[pc imgs] cnt]]
      eqn:Hextract.
    { by rewrite (extraction_error _ _ Hextract). }
    cbn [Py.bind]. rewrite Htoc. cbn [Py.bind].
    by rewrite Hempty, segment_no_content_pages. }
  by rewrite Hconvert.
Qed.

Lemma empty_content_pages_fail_witness :
  (Z.of_nat (List.length two_pages_toc_last) <= 1
   \/ (Z.of_nat (List.length two_pages_toc_last) = 2 /\ Some 2 = Some 2))
  /\ pdf_to_epub (world_of two_pages_toc_last) "book.pdf" "book.epub" (Some 2)
     = inl Py.ValueError.
Proof.
  apply (empty_content_pages_fail (world_of two_pages_toc_last)
           "book.pdf" "book.epub" (Some 2) two_pages_toc_last);
    reflexivity.
Defined.

(** C2: the first half holds, the second does not.  The TOC page is
    never one of the content pages; but in the five-page document with
    the TOC on page 3, the chapter Intro runs from page 2 to page 3, and
    its text holds the text of the TOC page. *)
Theorem toc_page_text_in_chapter :
  (forall n t, t ∉ content_pages_of n (Some t))
  /\ exists book,
       convert toc_on_page_3 (inr EmptyString) (Some 3) = inr book
       /\ chapters book
          = [create_chapter "Intro"
               ("intro" ++ page_ref 2
                ++ "Contenido<br/>Intro .... 2<br/>Fin .... 4" ++ page_ref 3)
               "chapter_1.xhtml";
             create_chapter "Fin"
               ("body" ++ page_ref 4 ++ "end" ++ page_ref 5)
               "chapter_2.xhtml"].
Proof.
  split; [apply toc_page_not_content |].
  eexists. split; by vm_compute.
Qed.

(** ** The command line: claims *)

(** C9: the usage error is raised only when no argument at all is
    given.  With the input path alone, the conversion is run, writing
    to the input path with its extension replaced. *)
Theorem one_argument_runs_conversion (w : World) :
  (forall argv,
     ending (main w argv) = Exited 1 <-> (List.length argv < 2)%nat)
  /\ main w ["pdf_to_epub.py"; "book.pdf"]
     = match pdf_to_epub w "book.pdf" "book.epub" None with
       | inl e => {| stdout := []; written := None; ending := Raised e |}
       | inr out => {| stdout := ["EPUB file created successfully."];
                       written := Some out;
                       ending := Finished |}
       end.
Proof.
  split; [| reflexivity].
  intros argv. unfold main.
  destruct (Z.ltb_spec (Z.of_nat (List.length argv)) 2) as [Hlt | Hge].
  - simpl. split; [lia | done].
  - split; [| lia]. intros H. exfalso.
    destruct (Py.bind _ _) as [e | [[pdf_file epub_file] toc_page_arg]];
      [done |].
    by destruct (pdf_to_epub _ _ _ _).
Qed.

(** * Further properties of the code *)

(** ** The segmenter *)

(** X1.  The segmenter fails exactly when there is no content page, and
    then with the [ValueError] of [min]; with a content page it returns
    chapters, whatever the TOC entries and the TOC page are. *)
Theorem segment_fails_iff_no_content_pages (pc : gmap Z string)
    (cps : list Z) (tp : option Z) (toc : list toc_entry) :
  (cps = [] /\ segment pc cps tp toc = inl Py.ValueError)
  \/ (cps <> [] /\ exists chs, segment pc cps tp toc = inr chs).
Proof.
  destruct cps as [|p cps].
  - left. split; [done | apply segment_no_content_pages].
  - right. split; [done |].
    destruct (min_max_nonempty (p :: cps)) as (lo & hi & Hmin & Hmax); [done |].
    eexists. by apply segment_ranges.
Qed.

Section Overlap.
Context (toc_page : option Z) (highest : Z).

Lemma covering_entries_le (l : list toc_entry) (idx : nat) (p : Z) :
  ascending snd l ->
  (chapters_covering p (entry_ranges toc_page highest idx l)
   <= match l with
      | (_, s0) :: _ => if (s0 <=? p)%Z then 1 else 0
      | [] => 0
      end)%nat.
Proof.
  intros Hasc. revert idx.
  induction Hasc as [|[t s]|[t s] [t' s'] l Hle Hasc IH]; intros idx.
  - reflexivity.
  - rewrite entry_ranges_cons, chapters_covering_app.
    cbn [entry_ranges]. unfold chapters_covering at 2. cbn [List.filter List.length].
    destruct (is_toc_page toc_page s).
    + unfold chapters_covering. simpl. lia.
    + rewrite chapters_covering_one. unfold covers. cbn [range_start range_end].
      destruct (Z.leb_spec s p), (Z.leb_spec p highest); simpl; lia.
  - cbn [snd] in Hle. specialize (IH (S idx)).
    rewrite entry_ranges_cons, chapters_covering_app.
    assert (Hfirst :
      (chapters_covering p
         (if is_toc_page toc_page s then []
          else [mkRange t s (s' - 1) (chapter_filename idx)])
       <= if ((s <=? p) && (p <=? s' - 1))%Z then 1 else 0)%nat).
    { destruct (is_toc_page toc_page s).
      - unfold chapters_covering. simpl. lia.
      - rewrite chapters_covering_one. unfold covers.
        cbn [range_start range_end]. done. }
    destruct (Z.leb_spec s p), (Z.leb_spec p (s' - 1)), (Z.leb_spec s' p);
      simpl in *; lia.
Qed.

End Overlap.

(** X2.  No page is in the ranges of two chapters, for any TOC entries
    and any TOC page: chapters never overlap. *)
Theorem chapters_never_overlap (pc : gmap Z string) (cps : list Z)
    (tp : option Z) (toc : list toc_entry) :
  cps <> [] ->
  exists lo hi,
    segment pc cps tp toc = inr (render pc <$> chapter_ranges lo hi tp toc)
    /\ forall p, (chapters_covering p (chapter_ranges lo hi tp toc) <= 1)%nat.
Proof.
  intros Hcps.
  destruct (min_max_nonempty cps Hcps) as (lo & hi & Hmin & Hmax).
  exists lo, hi. split; [by apply segment_ranges |].
  intros p. destruct toc as [|e l].
  - unfold chapter_ranges. rewrite chapters_covering_one.
    destruct (covers p _); lia.
  - unfold chapter_ranges. rewrite chapters_covering_app.
    pose proof (covering_entries_le tp hi (PyList.sorted snd (e :: l)) 0 p
                  (sorted_ascending snd _)) as Hentries.
    unfold preface_ranges.
    destruct (PyList.sorted snd (e :: l)) as [|[t0 s0] rest].
    + unfold chapters_covering in *. simpl in *. lia.
    + destruct (Z.gtb_spec s0 lo).
      * rewrite chapters_covering_one. unfold covers.
        cbn [range_start range_end].
        destruct (Z.leb_spec lo p), (Z.leb_spec p (s0 - 1)), (Z.leb_spec s0 p);
          simpl in *; lia.
      * change (chapters_covering p []) with 0%nat.
        destruct (s0 <=? p); lia.
Qed.

Lemma chapters_never_overlap_witness :
  exists lo hi,
    segment pages_2_to_5 [2; 4; 5] (Some 3) [("B", 5); ("A", 3)]
    = inr (render pages_2_to_5
             <$> chapter_ranges lo hi (Some 3) [("B", 5); ("A", 3)])
    /\ forall p,
         (chapters_covering p
            (chapter_ranges lo hi (Some 3%Z) [("B", 5%Z); ("A", 3%Z)])
          <= 1)%nat.
Proof.
  apply (chapters_never_overlap pages_2_to_5 [2; 4; 5] (Some 3)
           [("B", 5); ("A", 3)]).
  discriminate.
Defined.

(** *** File names *)

Lemma str_app_inj_r (s s' t : string) :
  (s ++ t)%string = (s' ++ t)%string -> s = s'.
Proof.
  revert s'. induction s as [|c s IH]; intros [|c' s'] H.
  - done.
  - apply (f_equal String.length) in H.
    rewrite !str_length_app in H. simpl in H. lia.
  - apply (f_equal String.length) in H.
    rewrite !str_length_app in H. simpl in H. lia.
  - rewrite !str_app_cons in H. inversion H; subst. f_equal. by apply IH.
Qed.

Lemma of_nat_inj (n m : nat) : PyStr.of_nat n = PyStr.of_nat m -> n = m.
Proof.
  unfold PyStr.of_nat. intros H.
  apply (f_equal NilEmpty.uint_of_string) in H.
  rewrite !NilEmpty.usu in H. inversion H as [H'].
  apply (f_equal Nat.of_uint) in H'.
  by rewrite !DecimalNat.Unsigned.of_to in H'.
Qed.

Lemma chapter_filename_inj (i j : nat) :
  chapter_filename i = chapter_filename j -> i = j.
Proof.
  unfold chapter_filename. intros H.
  apply String.app_inj, str_app_inj_r, of_nat_inj in H. lia.
Qed.

Lemma chapter_filename_not_preface (i : nat) :
  chapter_filename i <> "chapter_prefacio.xhtml"%string.
Proof.
  unfold chapter_filename. intros H.
  change "chapter_prefacio.xhtml"%string
    with ("chapter_" ++ "prefacio" ++ ".xhtml")%string in H.
  apply String.app_inj, str_app_inj_r in H. unfold PyStr.of_nat in H.
  apply (f_equal NilEmpty.uint_of_string) in H.
  rewrite NilEmpty.usu in H. discriminate H.
Qed.

Lemma entry_ranges_file_index (tp : option Z) (hi : Z) (l : list toc_entry)
    (idx : nat) (name : string) :
  name ∈ range_file <$> entry_ranges tp hi idx l ->
  exists j, (idx <= j)%nat /\ name = chapter_filename j.
Proof.
  revert idx. induction l as [|[t s] rest IH]; intros idx Hname.
  - inversion Hname.
  - rewrite entry_ranges_cons, fmap_app in Hname.
    apply elem_of_app in Hname as [Hname | Hname].
    + destruct (is_toc_page tp s); [inversion Hname |].
      apply list_elem_of_singleton in Hname. by exists idx.
    + destruct (IH _ Hname) as (j & Hj & ->). exists j. split; [lia | done].
Qed.

Lemma entry_ranges_files_NoDup (tp : option Z) (hi : Z) (l : list toc_entry)
    (idx : nat) :
  NoDup (range_file <$> entry_ranges tp hi idx l).
Proof.
  revert idx. induction l as [|[t s] rest IH]; intros idx.
  - constructor.
  - rewrite entry_ranges_cons, fmap_app.
    destruct (is_toc_page tp s); [apply IH |].
    cbn [fmap list_fmap app range_file]. constructor; [| apply IH].
    intros Hin. apply entry_ranges_file_index in Hin as (j & Hj & Heq).
    apply chapter_filename_inj in Heq. lia.
Qed.

(** X3.  The chapters of one book have pairwise different file names. *)
Theorem chapter_file_names_distinct (pc : gmap Z string) (cps : list Z)
    (tp : option Z) (toc : list toc_entry) :
  cps <> [] ->
  exists chs, segment pc cps tp toc = inr chs /\ NoDup (file_name <$> chs).
Proof.
  intros Hcps.
  destruct (min_max_nonempty cps Hcps) as (lo & hi & Hmin & Hmax).
  eexists. split; [by apply segment_ranges |].
  rewrite render_file_names. destruct toc as [|e l].
  - apply NoDup_singleton.
  - unfold chapter_ranges. rewrite fmap_app. apply NoDup_app. split_and!.
    + unfold preface_ranges.
      destruct (PyList.sorted snd (e :: l)) as [|[t0 s0] rest];
        [constructor |].
      destruct (s0 >? lo); [apply NoDup_singleton | constructor].
    + intros name Hpre Hentry.
      apply entry_ranges_file_index in Hentry as (j & _ & ->).
      unfold preface_ranges in Hpre.
      destruct (PyList.sorted snd (e :: l)) as [|[t0 s0] rest];
        [inversion Hpre |].
      destruct (s0 >? lo); [| inversion Hpre].
      apply list_elem_of_singleton in Hpre.
      by apply chapter_filename_not_preface in Hpre.
    + apply entry_ranges_files_NoDup.
Qed.

Lemma chapter_file_names_distinct_witness :
  exists chs,
    segment pages_2_to_5 [2; 4; 5] (Some 3) [("B", 5); ("A", 3)] = inr chs
    /\ NoDup (file_name <$> chs).
Proof.
  apply (chapter_file_names_distinct pages_2_to_5 [2; 4; 5] (Some 3)
           [("B", 5); ("A", 3)]).
  discriminate.
Defined.

(** *** The order of the entries on the TOC page *)

Lemma ascending_Sorted {A} (key : A -> Z) (l : list A) :
  ascending key l -> Sorted (fun a b => key a <= key b) l.
Proof.
  induction 1 as [|x|x y l Hxy Hl IH].
  - constructor.
  - repeat constructor.
  - constructor; [done | by constructor].
Qed.

Lemma sorted_perm_eq (toc1 toc2 : list toc_entry) :
  toc1 ≡ₚ toc2 ->
  NoDup (snd <$> toc1) ->
  PyList.sorted snd toc1 = PyList.sorted snd toc2.
Proof.
  intros Hperm Hnodup.
  assert (Htrans : Transitive (fun a b : toc_entry => snd a <= snd b)).
  { intros a b c. lia. }
  apply (Sorted_unique_strong (fun a b : toc_entry => snd a <= snd b)).
  - intros x1 x2 Hx1 Hx2 H12 H21.
    rewrite sorted_perm in Hx1. rewrite sorted_perm, <- Hperm in Hx2.
    assert (Hsnd : snd x1 = snd x2) by lia.
    apply list_elem_of_lookup in Hx1 as [i1 Hi1].
    apply list_elem_of_lookup in Hx2 as [i2 Hi2].
    assert (i1 = i2) as ->.
    { apply (NoDup_lookup (snd <$> toc1) i1 i2 (snd x1)); [done | |].
      - apply list_lookup_fmap_Some. eauto.
      - apply list_lookup_fmap_Some. eauto. }
    congruence.
  - apply ascending_Sorted, sorted_ascending.
  - apply ascending_Sorted, sorted_ascending.
  - by rewrite !sorted_perm.
Qed.

(** X4.  When the entries have pairwise different starting pages, the
    order in which they are listed does not matter: any rearrangement
    of the entries gives the same chapters. *)
Theorem toc_order_irrelevant (pc : gmap Z string) (cps : list Z)
    (tp : option Z) (toc1 toc2 : list toc_entry) :
  toc1 ≡ₚ toc2 ->
  NoDup (snd <$> toc1) ->
  segment pc cps tp toc1 = segment pc cps tp toc2.
Proof.
  intros Hperm Hnodup.
  pose proof (sorted_perm_eq toc1 toc2 Hperm Hnodup) as Hsorted.
  destruct toc1 as [|e1 l1], toc2 as [|e2 l2].
  - done.
  - by apply Permutation_nil_l in Hperm.
  - by apply Permutation_nil_r in Hperm.
  - unfold segment. cbv beta iota zeta. by rewrite Hsorted.
Qed.

Lemma toc_order_irrelevant_witness :
  segment pages_2_to_5 [2; 4; 5] (Some 3) [("B", 5); ("A", 3)]
  = segment pages_2_to_5 [2; 4; 5] (Some 3) [("A", 3); ("B", 5)].
Proof.
  apply (toc_order_irrelevant pages_2_to_5 [2; 4; 5] (Some 3)
           [("B", 5); ("A", 3)] [("A", 3); ("B", 5)]).
  - apply Permutation_swap.
  - apply NoDup_cons. split; [| apply NoDup_singleton].
    intros H%list_elem_of_singleton. discriminate H.
Defined.

(** *** Entries that are all skipped *)

Lemma entry_ranges_all_skipped (tp hi : Z) (l : list toc_entry) (idx : nat) :
  Forall (fun e => snd e = tp) l -> entry_ranges (Some tp) hi idx l = [].
Proof.
  intros Hl. revert idx. induction Hl as [|[t s] rest Hs Hrest IH]; intros idx.
  - done.
  - rewrite entry_ranges_cons, IH. cbn [snd] in Hs. subst s.
    cbn [is_toc_page]. by rewrite Z.eqb_refl.
Qed.

(** X5.  When every TOC entry starts at the TOC page and no content
    page comes before it, the segmenter succeeds with no chapter at
    all. *)
Theorem all_entries_skipped_no_chapter (pc : gmap Z string) (cps : list Z)
    (tp lo : Z) (toc : list toc_entry) :
  toc <> [] ->
  Forall (fun e => snd e = tp) toc ->
  PyList.min cps = inr lo ->
  tp <= lo ->
  segment pc cps (Some tp) toc = inr [].
Proof.
  intros Htoc Hall Hmin Hle.
  assert (Hcps : cps <> []) by (by intros ->).
  destruct (min_max_nonempty cps Hcps) as (lo' & hi & Hmin' & Hmax).
  rewrite (segment_ranges _ _ _ _ lo hi) by done.
  destruct toc as [|e l]; [done |]. unfold chapter_ranges.
  assert (Hsorted : Forall (fun e => snd e = tp) (PyList.sorted snd (e :: l))).
  { by rewrite sorted_perm. }
  rewrite entry_ranges_all_skipped by done.
  unfold preface_ranges.
  destruct Hsorted as [|[t0 s0] rest Hs0 _]; [done |].
  cbn [snd] in Hs0. subst s0.
  destruct (Z.gtb_spec tp lo); [lia | done].
Qed.

Lemma all_entries_skipped_no_chapter_witness :
  segment pages_2_to_5 [3; 4; 5] (Some 2) [("Indice", 2)] = inr [].
Proof.
  apply (all_entries_skipped_no_chapter pages_2_to_5 [3; 4; 5] 2 3
           [("Indice", 2)]).
  - discriminate.
  - repeat constructor.
  - reflexivity.
  - lia.
Defined.

(** *** Contiguity *)

Lemma entry_ranges_contiguous (tp : option Z) (hi : Z) (l : list toc_entry)
    (idx : nat) :
  Forall (fun e => is_toc_page tp (snd e) = false) l ->
  contiguous (entry_ranges tp hi idx l)
  /\ range_start <$> head (entry_ranges tp hi idx l) = snd <$> head l
  /\ (l <> [] -> range_end <$> last (entry_ranges tp hi idx l) = Some hi).
Proof.
  intros Hl. revert idx.
  induction Hl as [|[t s] rest Hs Hrest IH]; intros idx; [done |].
  cbn [snd] in Hs. rewrite entry_ranges_cons, Hs.
  destruct (IH (S idx)) as (Hcont & Hhead & Hlast).
  destruct rest as [|[t' s'] rest'].
  - cbn [entry_ranges app]. split_and!; done.
  - destruct (entry_ranges tp hi (S idx) ((t', s') :: rest'))
      as [|r rs] eqn:Hrs; [done |].
    cbn [head fmap option_fmap option_map] in Hhead. inversion Hhead as [Hr].
    split_and!.
    + cbn [app contiguous range_end]. split; [lia | done].
    + done.
    + intros _. cbn [app]. rewrite last_cons.
      specialize (Hlast ltac:(done)).
      destruct (last (r :: rs)); [done | discriminate].
Qed.

(** X6.  When no entry starts at the TOC page, each chapter ends right
    before the next one starts, and the last chapter ends at the
    highest content page. *)
Theorem chapters_contiguous (pc : gmap Z string) (cps : list Z)
    (tp : option Z) (toc : list toc_entry) :
  cps <> [] ->
  Forall (fun e => is_toc_page tp (snd e) = false) toc ->
  exists lo hi,
    PyList.max cps = inr hi
    /\ segment pc cps tp toc = inr (render pc <$> chapter_ranges lo hi tp toc)
    /\ contiguous (chapter_ranges lo hi tp toc)
    /\ range_end <$> last (chapter_ranges lo hi tp toc) = Some hi.
Proof.
  intros Hcps Hno.
  destruct (min_max_nonempty cps Hcps) as (lo & hi & Hmin & Hmax).
  exists lo, hi. split_and!; [done | by apply segment_ranges | |].
  - destruct toc as [|e l]; [done |]. unfold chapter_ranges.
    assert (Hsorted : Forall (fun e => is_toc_page tp (snd e) = false)
                             (PyList.sorted snd (e :: l))).
    { by rewrite sorted_perm. }
    destruct (entry_ranges_contiguous tp hi _ 0%nat Hsorted)
      as (Hcont & Hhead & _).
    unfold preface_ranges.
    destruct (PyList.sorted snd (e :: l)) as [|[t0 s0] rest]; [done |].
    destruct (s0 >? lo); [| done].
    destruct (entry_ranges tp hi 0 ((t0, s0) :: rest)) as [|r rs]; [done |].
    cbn [head fmap option_fmap option_map] in Hhead. inversion Hhead as [Hr].
    cbn [app contiguous range_end]. split; [lia | done].
  - destruct toc as [|e l]; [done |]. unfold chapter_ranges.
    assert (Hsorted : Forall (fun e => is_toc_page tp (snd e) = false)
                             (PyList.sorted snd (e :: l))).
    { by rewrite sorted_perm. }
    destruct (entry_ranges_contiguous tp hi _ 0%nat Hsorted)
      as (_ & _ & Hlast).
    specialize (Hlast (sorted_nonempty snd (e :: l) ltac:(done))).
    destruct (entry_ranges tp hi 0 (PyList.sorted snd (e :: l))) as [|r rs];
      [done |].
    by rewrite last_app_cons.
Qed.

Lemma chapters_contiguous_witness :
  exists lo hi,
    PyList.max [2; 4; 5] = inr hi
    /\ segment pages_2_to_5 [2; 4; 5] (Some 3) [("B", 4); ("A", 2)]
       = inr (render pages_2_to_5
                <$> chapter_ranges lo hi (Some 3) [("B", 4); ("A", 2)])
    /\ contiguous (chapter_ranges lo hi (Some 3) [("B", 4); ("A", 2)])
    /\ range_end <$> last (chapter_ranges lo hi (Some 3) [("B", 4); ("A", 2)])
       = Some hi.
Proof.
  apply (chapters_contiguous pages_2_to_5 [2; 4; 5] (Some 3)
           [("B", 4); ("A", 2)]).
  - discriminate.
  - repeat constructor.
Defined.

(** *** Content pages and chapters *)

(** X26.  When no TOC entry starts at the TOC page, every content page
    lies in the range of exactly one chapter, and when the page has
    content that content is part of the text of that chapter. *)
Theorem eligible_pages_partitioned (pc : gmap Z string) (cps : list Z)
    (tp : option Z) (toc : list toc_entry) (p : Z) :
  Forall (fun e => is_toc_page tp (snd e) = false) toc ->
  p ∈ cps ->
  exists lo hi,
    PyList.min cps = inr lo /\ PyList.max cps = inr hi /\
    segment pc cps tp toc = inr (render pc <$> chapter_ranges lo hi tp toc) /\
    chapters_covering p (chapter_ranges lo hi tp toc) = 1%nat /\
    forall r text,
      r ∈ chapter_ranges lo hi tp toc -> covers p r = true ->
      pc !! p = Some text ->
      exists before after,
        combine_pages pc (range_start r) (range_end r)
        = (before ++ text ++ after)%string.
Proof.
  intros Hno Hp.
  destruct (min_max_nonempty cps) as (lo & hi & Hmin & Hmax).
  { intros ->. inversion Hp. }
  exists lo, hi. split_and!; [done | done | by apply segment_ranges | |].
  - pose proof (min_le _ _ _ Hmin Hp). pose proof (max_ge _ _ _ Hmax Hp).
    destruct toc as [|e l].
    + unfold chapter_ranges. rewrite chapters_covering_one. unfold covers.
      cbn [range_start range_end].
      destruct (Z.leb_spec lo p), (Z.leb_spec p hi); simpl; lia.
    + unfold chapter_ranges. rewrite chapters_covering_app.
      rewrite covering_entries; [| apply sorted_ascending | | done].
      2:{ intros e' He'. rewrite sorted_perm in He'.
          by apply (proj1 (Forall_forall _ _) Hno). }
      unfold preface_ranges.
      pose proof (sorted_nonempty snd (e :: l) ltac:(done)) as Hne.
      destruct (PyList.sorted snd (e :: l)) as [|[t0 s0] rest]; [done |].
      destruct (Z.gtb_spec s0 lo).
      * rewrite chapters_covering_one. unfold covers.
        cbn [range_start range_end].
        destruct (Z.leb_spec lo p), (Z.leb_spec p (s0 - 1)), (Z.leb_spec s0 p);
          simpl; lia.
      * unfold chapters_covering.
        destruct (Z.leb_spec s0 p); simpl; [done | lia].
  - intros r text _ Hcov Htext. unfold covers in Hcov.
    apply andb_prop in Hcov as [H1%Z.leb_le H2%Z.leb_le].
    eexists _, _. apply (combine_pages_page pc _ _ p); [lia | done].
Qed.

Lemma eligible_pages_partitioned_witness :
  exists lo hi,
    PyList.min [2; 4; 5] = inr lo /\ PyList.max [2; 4; 5] = inr hi /\
    segment pages_2_to_5 [2; 4; 5] (Some 3) [("B", 4); ("A", 2)]
    = inr (render pages_2_to_5
             <$> chapter_ranges lo hi (Some 3) [("B", 4); ("A", 2)]) /\
    chapters_covering 4 (chapter_ranges lo hi (Some 3) [("B", 4); ("A", 2)])
    = 1%nat /\
    forall r text,
      r ∈ chapter_ranges lo hi (Some 3) [("B", 4); ("A", 2)] ->
      covers 4 r = true ->
      pages_2_to_5 !! 4 = Some text ->
      exists before after,
        combine_pages pages_2_to_5 (range_start r) (range_end r)
        = (before ++ text ++ after)%string.
Proof.
  apply (eligible_pages_partitioned pages_2_to_5 [2; 4; 5] (Some 3)
           [("B", 4); ("A", 2)] 4).
  - repeat constructor.
  - repeat constructor.
Defined.

(** ** [combine_pages] *)

(** X7.  A range whose end is before its start has no page: the
    combined text is empty. *)
Theorem combine_pages_empty_range (pc : gmap Z string) (start end_ : Z) :
  end_ < start -> combine_pages pc start end_ = EmptyString.
Proof.
  intros H. unfold combine_pages, PyList.range.
  by rewrite seqZ_nil by lia.
Qed.

Lemma combine_pages_empty_range_witness :
  combine_pages pages_2_to_5 3 2 = EmptyString.
Proof. apply (combine_pages_empty_range pages_2_to_5 3 2). lia. Defined.

(** X8.  Combining a range is combining its two parts, one after the
    other: the pages are taken in ascending order, each once. *)
Theorem combine_pages_split (pc : gmap Z string) (start mid end_ : Z) :
  start - 1 <= mid <= end_ ->
  combine_pages pc start end_
  = (combine_pages pc start mid ++ combine_pages pc (mid + 1) end_)%string.
Proof.
  intros H. unfold combine_pages, PyList.range.
  replace (end_ + 1 - start) with ((mid + 1 - start) + (end_ - mid)) by lia.
  rewrite seqZ_app, foldl_app, foldl_add_page by lia.
  do 3 f_equal; lia.
Qed.

Lemma combine_pages_split_witness :
  combine_pages pages_2_to_5 2 5
  = (combine_pages pages_2_to_5 2 3 ++ combine_pages pages_2_to_5 (3 + 1) 5)%string.
Proof. apply (combine_pages_split pages_2_to_5 2 3 5). lia. Defined.

Lemma foldl_add_page_agree (pc pc' : gmap Z string) (l : list Z)
    (acc : string) :
  (forall p, p ∈ l -> pc !! p = pc' !! p) ->
  foldl (add_page pc) acc l = foldl (add_page pc') acc l.
Proof.
  revert acc. induction l as [|p l IH]; intros acc Hl; [done |]. simpl.
  unfold add_page at 2 4. rewrite (Hl p) by (by left).
  apply IH. intros q Hq. apply Hl. by right.
Qed.

(** X9.  The combined text depends on the page contents of the range
    only: two mappings that agree on the pages from [start] to [end_]
    give the same text, whatever they hold elsewhere. *)
Theorem combine_pages_only_range (pc pc' : gmap Z string) (start end_ : Z) :
  (forall p, start <= p <= end_ -> pc !! p = pc' !! p) ->
  combine_pages pc start end_ = combine_pages pc' start end_.
Proof.
  intros Hagree. unfold combine_pages, PyList.range.
  apply foldl_add_page_agree. intros p Hp%elem_of_seqZ. apply Hagree. lia.
Qed.

Lemma combine_pages_only_range_witness :
  combine_pages pages_2_to_5 3 4 = combine_pages (delete 2 pages_2_to_5) 3 4.
Proof.
  apply (combine_pages_only_range pages_2_to_5 (delete 2 pages_2_to_5) 3 4).
  intros p Hp. symmetry. apply lookup_delete_ne. lia.
Defined.

(** X10.  Pages that are missing from the mapping are skipped without
    an error: when no page of the range is in the mapping, the combined
    text is empty. *)
Theorem combine_pages_missing (pc : gmap Z string) (start end_ : Z) :
  (forall p, start <= p <= end_ -> pc !! p = None) ->
  combine_pages pc start end_ = EmptyString.
Proof.
  intros Hnone. unfold combine_pages, PyList.range.
  rewrite (foldl_add_page_agree pc ∅).
  - generalize (seqZ start (end_ + 1 - start)).
    induction l as [|p l IH]; [done |]. simpl. unfold add_page at 2.
    by rewrite lookup_empty.
  - intros p Hp%elem_of_seqZ. rewrite lookup_empty. apply Hnone. lia.
Qed.

Lemma combine_pages_missing_witness :
  combine_pages pages_2_to_5 6 9 = EmptyString.
Proof.
  apply (combine_pages_missing pages_2_to_5 6 9).
  intros p Hp. unfold pages_2_to_5.
  rewrite !lookup_insert_ne by lia. apply lookup_empty.
Defined.

(** ** The extraction of pages and images *)

Lemma extraction_success (doc : Document) (pc : gmap Z string)
    (imgs : list (string * string)) (cnt : Z) :
  extraction doc = inr (pc, imgs, cnt) ->
  exists bs,
    Forall2 (fun img b => image_bytes img = Some b) (images_of (tail doc)) bs
    /\ imgs = zip (img_name
                     <$> seqZ 1 (Z.of_nat (List.length (images_of (tail doc)))))
                  bs
    /\ cnt = 1 + Z.of_nat (List.length (images_of (tail doc)))
    /\ (forall p, ~ (2 <= p <= Z.of_nat (List.length doc)) -> pc !! p = None)
    /\ (forall (j : nat) page,
          tail doc !! j = Some page ->
          pc !! (Z.of_nat j + 2)
          = Some (formatted_page page (Z.of_nat j + 2)
                  ++ images_html
                       (1 + Z.of_nat
                              (List.length (images_of (take j (tail doc)))))
                       (get_images page))%string).
Proof.
  intros Hextract.
  destruct (extraction_cases doc)
    as [(pc' & bs & Hbs & Heq & Hout & Hin) | [_ Heq]];
    rewrite Heq in Hextract; [| done].
  injection Hextract as <- <- <-. by exists bs.
Qed.

(** X11.  When the extraction loop has run to its end, the page
    contents have an entry for each of the pages 2 to N and for no
    other page: the cover never has content. *)
Theorem extracted_pages_are_2_to_N (doc : Document) (pc : gmap Z string)
    (imgs : list (string * string)) (cnt : Z) :
  extraction doc = inr (pc, imgs, cnt) ->
  forall p, is_Some (pc !! p) <-> 2 <= p <= Z.of_nat (List.length doc).
Proof.
  intros (bs & _ & _ & _ & Hout & Hin)%extraction_success p. split.
  - intros Hsome. destruct (decide (2 <= p <= Z.of_nat (List.length doc)));
      [done |].
    rewrite Hout in Hsome by done. by destruct Hsome.
  - intros Hp.
    destruct (tail doc !! Z.to_nat (p - 2)) as [page|] eqn:Hpage.
    + specialize (Hin _ _ Hpage).
      replace (Z.of_nat (Z.to_nat (p - 2)) + 2) with p in Hin by lia.
      by rewrite Hin.
    + apply lookup_ge_None in Hpage. destruct doc; simpl in *; lia.
Qed.

Lemma extracted_pages_are_2_to_N_witness :
  exists pc imgs cnt,
    extraction illustrated = inr (pc, imgs, cnt)
    /\ forall p,
         is_Some (pc !! p) <-> 2 <= p <= Z.of_nat (List.length illustrated).
Proof.
  eexists _, _, _. split; [by vm_compute |].
  eapply (extracted_pages_are_2_to_N illustrated). by vm_compute.
Defined.

(** X12.  When the extraction loop has run to its end, the content
    stored for page [p] is the text of that page with its line feeds
    replaced by [<br/>], followed by the marker with the number [p] and
    by the markup of the images of the page, which are numbered after
    the images of the content pages before it. *)
Theorem extracted_page_content (doc : Document) (pc : gmap Z string)
    (imgs : list (string * string)) (cnt : Z) :
  extraction doc = inr (pc, imgs, cnt) ->
  forall (j : nat) page,
    tail doc !! j = Some page ->
    pc !! (Z.of_nat j + 2)
    = Some (PyStr.replace nl "<br/>" (get_text page)
            ++ page_ref (Z.of_nat j + 2)
            ++ images_html
                 (1 + Z.of_nat (List.length (images_of (take j (tail doc)))))
                 (get_images page))%string.
Proof.
  intros (bs & _ & _ & _ & Hout & Hin)%extraction_success j page Hj.
  rewrite (Hin j page Hj).
  unfold formatted_page. by rewrite str_app_assoc.
Qed.

Lemma extracted_page_content_witness :
  exists pc imgs cnt,
    extraction illustrated = inr (pc, imgs, cnt)
    /\ forall (j : nat) page,
         tail illustrated !! j = Some page ->
         pc !! (Z.of_nat j + 2)
         = Some (PyStr.replace nl "<br/>" (get_text page)
                 ++ page_ref (Z.of_nat j + 2)
                 ++ images_html
                      (1 + Z.of_nat
                             (List.length
                                (images_of (take j (tail illustrated)))))
                      (get_images page))%string.
Proof.
  eexists _, _, _. split; [by vm_compute |].
  eapply (extracted_page_content illustrated). by vm_compute.
Defined.

(** X13.  When the extraction loop has run to its end, the images are
    those of the pages after the cover, in reading order, each with its
    PNG data; they are named [images/img_1.png], [images/img_2.png], ...
    without a gap, and the image counter ends one above their number. *)
Theorem extracted_images_numbered (doc : Document) (pc : gmap Z string)
    (imgs : list (string * string)) (cnt : Z) :
  extraction doc = inr (pc, imgs, cnt) ->
  imgs.*1 = img_name <$> seqZ 1 (Z.of_nat (List.length (images_of (tail doc))))
  /\ Forall2 (fun img b => image_bytes img = Some b)
             (images_of (tail doc)) (imgs.*2)
  /\ cnt = 1 + Z.of_nat (List.length (images_of (tail doc))).
Proof.
  intros (bs & Hbs & -> & -> & _)%extraction_success.
  pose proof (Forall2_length _ _ _ Hbs) as Hlen.
  split_and!.
  - apply fst_zip. rewrite !length_fmap, length_seqZ. lia.
  - rewrite snd_zip; [done |]. rewrite !length_fmap, length_seqZ. lia.
  - done.
Qed.

Lemma extracted_images_numbered_witness :
  exists pc imgs cnt,
    extraction illustrated = inr (pc, imgs, cnt)
    /\ imgs.*1
       = img_name
           <$> seqZ 1 (Z.of_nat (List.length (images_of (tail illustrated))))
    /\ Forall2 (fun img b => image_bytes img = Some b)
               (images_of (tail illustrated)) (imgs.*2)
    /\ cnt = 1 + Z.of_nat (List.length (images_of (tail illustrated))).
Proof.
  eexists _, _, _. split; [by vm_compute |].
  eapply (extracted_images_numbered illustrated). by vm_compute.
Defined.

(** ** The conversion as a whole *)

(** X14.  A conversion returns a book only if the PDF has a first
    page and the pixmap of that page has PNG data, every image of the
    pages after it has PNG data, there is a content page, and the style
    sheet could be read; the book has that cover and that style
    sheet. *)
Theorem convert_success_requires (doc : Document) (css : Py.result string)
    (tp : option Z) (book : EpubBook) :
  convert doc css tp = inr book ->
  (exists cover_page cover_data,
     head doc = Some cover_page
     /\ tobytes_png (get_pixmap cover_page) = Some cover_data
     /\ cover book = ("cover.png"%string, cover_data))
  /\ Forall (fun img => is_Some (image_bytes img)) (images_of (tail doc))
  /\ content_pages_of (Z.of_nat (List.length doc)) tp <> []
  /\ css = inr (stylesheet book).
Proof.
  intros (cp & cd & pc & imgs & cnt & toc & chs & ct
          & Hcp & Hcd & Hextract & _ & Hchs & -> & ->)%convert_success.
  split_and!.
  - exists cp, cd. split_and!; [| | done].
    + destruct doc as [|p0 rest]; [done |]. rewrite index_0 in Hcp.
      by injection Hcp as ->.
    + unfold tobytes in Hcd. destruct (tobytes_png (get_pixmap cp)); [| done].
      by injection Hcd as ->.
  - apply extraction_success in Hextract as (bs & Hbs & _).
    induction Hbs; constructor; eauto.
  - intros Hcps. by rewrite Hcps, segment_no_content_pages in Hchs.
  - done.
Qed.

Lemma convert_success_requires_witness :
  exists book,
    convert illustrated (inr "body { }"%string) None = inr book
    /\ (exists cover_page cover_data,
          head illustrated = Some cover_page
          /\ tobytes_png (get_pixmap cover_page) = Some cover_data
          /\ cover book = ("cover.png"%string, cover_data))
    /\ Forall (fun img => is_Some (image_bytes img))
              (images_of (tail illustrated))
    /\ content_pages_of (Z.of_nat (List.length illustrated)) None <> []
    /\ @inr Py.exn string "body { }" = inr (stylesheet book).
Proof.
  eexists. split; [by vm_compute |].
  eapply (convert_success_requires illustrated (inr "body { }"%string) None).
  by vm_compute.
Defined.

(** X27.  An image of a page after the cover whose pixmap has fewer
    than five components and no PNG data, as a CMYK image without an
    alpha channel has, is not converted to RGB, and the conversion
    fails with [ValueError], whatever the TOC page and the style
    sheet. *)
Theorem unconverted_image_fails (doc : Document) (css : Py.result string)
    (tp : option Z) (img : Image) :
  img ∈ images_of (tail doc) ->
  pix_n (img_pixmap img) < 5 ->
  tobytes_png (img_pixmap img) = None ->
  convert doc css tp = inl Py.ValueError.
Proof.
  intros Himg Hn Hpng.
  assert (Hbytes : image_bytes img = None).
  { unfold image_bytes. by destruct (Z.geb_spec (pix_n (img_pixmap img)) 5);
      [lia |]. }
  destruct doc as [|cover_page rest]; [by inversion Himg |].
  unfold convert. rewrite index_0. cbn [Py.bind].
  destruct (tobytes (get_pixmap cover_page)) as [e|cover_data] eqn:Hcover.
  { by rewrite (tobytes_error _ _ Hcover). }
  cbn [Py.bind]. fold (extraction (cover_page :: rest)).
  destruct (extraction_cases (cover_page :: rest))
    as [(pc & bs & Hbs & _) | [_ ->]]; [| done].
  exfalso. cbn [tail] in Himg, Hbs.
  apply list_elem_of_lookup in Himg as [i Hi].
  destruct (Forall2_lookup_l _ _ _ _ _ Hbs Hi) as (b & _ & Hb). congruence.
Qed.

Lemma unconverted_image_fails_witness :
  convert illustrated_cmyk (inr "body { }"%string) None = inl Py.ValueError.
Proof.
  apply (unconverted_image_fails illustrated_cmyk (inr "body { }"%string) None
           cmyk_image).
  - cbn. apply list_elem_of_In. simpl. auto.
  - by vm_compute.
  - reflexivity.
Defined.

(** X15.  A TOC page number outside 2..N is accepted without an error
    and has no effect: the conversion is the one without a TOC page. *)
Theorem toc_page_out_of_range_ignored (doc : Document)
    (css : Py.result string) (tp : Z) :
  ~ (2 <= tp <= Z.of_nat (List.length doc)) ->
  convert doc css (Some tp) = convert doc css None.
Proof.
  intros Htp.
  assert (Hnotin : tp ∉ content_page_numbers (Z.of_nat (List.length doc))).
  { unfold content_page_numbers, PyList.range. intros H%elem_of_seqZ. lia. }
  assert (Hcps : content_pages_of (Z.of_nat (List.length doc)) (Some tp)
                 = content_pages_of (Z.of_nat (List.length doc)) None).
  { unfold content_pages_of.
    generalize dependent (content_page_numbers (Z.of_nat (List.length doc))).
    induction l as [|p l IH]; intros Hl; [done |]. cbn [List.filter].
    destruct (Z.eqb_spec p tp) as [-> | _].
    - exfalso. apply Hl. by left.
    - cbn [negb]. f_equal. apply IH. intros H. apply Hl. by right. }
  unfold convert. rewrite Hcps. unfold toc_entries_of.
  by rewrite bool_decide_eq_false_2.
Qed.

Lemma toc_page_out_of_range_ignored_witness :
  convert toc_on_page_3 (inr EmptyString) (Some 1)
  = convert toc_on_page_3 (inr EmptyString) None.
Proof.
  apply (toc_page_out_of_range_ignored toc_on_page_3 (inr EmptyString) 1).
  simpl. lia.
Defined.

(** X16.  When the TOC page has no line that gives an entry, a
    conversion that returns a book gives it the one chapter of the
    fallback, whose text is the contents of the pages from the lowest to
    the highest content page. *)
Theorem unparsable_toc_falls_back (doc : Document) (css : Py.result string)
    (tp : Z) (page : Page) (book : EpubBook) :
  PyList.index doc (tp - 1) = inr page ->
  parse_toc_text (get_text page) = [] ->
  convert doc css (Some tp) = inr book ->
  exists pc imgs cnt lo hi,
    extraction doc = inr (pc, imgs, cnt)
    /\ PyList.min (content_pages_of (Z.of_nat (List.length doc)) (Some tp))
       = inr lo
    /\ PyList.max (content_pages_of (Z.of_nat (List.length doc)) (Some tp))
       = inr hi
    /\ chapters book
       = [fallback_chapter (pages_text pc (seqZ lo (hi + 1 - lo)))].
Proof.
  intros Hpage Hparse
    (cp & cd & pc & imgs & cnt & toc & chs & ct
     & _ & _ & Hextract & Htoc & Hchs & _ & ->)%convert_success.
  assert (toc = []) as ->.
  { unfold toc_entries_of in Htoc. case_bool_decide; [| by inversion Htoc].
    rewrite Hpage in Htoc. cbn [Py.bind] in Htoc. unfold Py.ret in Htoc.
    inversion Htoc. congruence. }
  destruct (min_max_nonempty
              (content_pages_of (Z.of_nat (List.length doc)) (Some tp)))
    as (lo & hi & Hmin & Hmax).
  { intros Hcps. by rewrite Hcps in Hchs. }
  exists pc, imgs, cnt, lo, hi. split_and!; [done | done | done |].
  rewrite (segment_fallback _ _ _ lo hi) in Hchs by done.
  by injection Hchs as <-.
Qed.

Lemma unparsable_toc_falls_back_witness :
  exists book,
    convert cover_and_three (inr EmptyString) (Some 3) = inr book
    /\ exists pc imgs cnt lo hi,
         extraction cover_and_three = inr (pc, imgs, cnt)
         /\ PyList.min
              (content_pages_of (Z.of_nat (List.length cover_and_three))
                                (Some 3))
            = inr lo
         /\ PyList.max
              (content_pages_of (Z.of_nat (List.length cover_and_three))
                                (Some 3))
            = inr hi
         /\ chapters book
            = [fallback_chapter (pages_text pc (seqZ lo (hi + 1 - lo)))].
Proof.
  eexists. split; [by vm_compute |].
  apply (unparsable_toc_falls_back cover_and_three (inr EmptyString) 3
           (text_page "Indice")); by vm_compute.
Defined.

(** ** The command line *)

(** X17.  With three or more arguments after the program name no TOC
    page is read from the command line: the run is the one with the
    input path alone. *)
Theorem extra_arguments_drop_toc_page (w : World)
    (prog pdf a b : string) (rest : list string) :
  main w (prog :: pdf :: a :: b :: rest) = main w [prog; pdf].
Proof.
  unfold main. cbn [List.length].
  destruct (Z.ltb_spec (Z.of_nat (S (S (S (S (List.length rest)))))) 2);
    [lia |].
  destruct (Z.eqb_spec (Z.of_nat (S (S (S (S (List.length rest)))))) 3);
    [lia |].
  reflexivity.
Qed.






(** [replace] leaves a text without an occurrence as it is. *)
Lemma replace_absent (old new s : string) :
  occurs old s = false -> PyStr.replace old new s = s.
Proof.
  unfold PyStr.replace. generalize (String.length s) as fuel.
  intros fuel. revert s. induction fuel as [|fuel IH]; intros s Hs; [done |].
  destruct s as [|c s]; [done |].
  cbn [occurs] in Hs. apply orb_false_elim in Hs as [Hprefix Hrest].
  cbn [PyStr.replace_from]. rewrite Hprefix. f_equal. by apply IH.
Qed.

(** X19.  When the input path does not contain [.pdf], the output path
    is the input path itself: the book is written over the input
    file. *)
Theorem output_path_is_input_path (w : World) (prog path : string) :
  occurs ".pdf" path = false ->
  main w [prog; path]
  = match pdf_to_epub w path path None with
    | inl e => {| stdout := []; written := None; ending := Raised e |}
    | inr out => {| stdout := ["EPUB file created successfully."%string];
                    written := Some out;
                    ending := Finished |}
    end.
Proof.
  intros Habsent. unfold main.
  change (Z.of_nat (List.length [prog; path]) <? 2) with false.
  change (Z.of_nat (List.length [prog; path]) =? 3) with false.
  change (PyList.index [prog; path] 1) with (inr path : Py.result string).
  cbn [Py.bind Py.ret]. by rewrite replace_absent.
Qed.

Lemma output_path_is_input_path_witness :
  main (world_of toc_on_page_3) ["pdf_to_epub.py"; "book.PDF"]
  = match pdf_to_epub (world_of toc_on_page_3) "book.PDF" "book.PDF" None with
    | inl e => {| stdout := []; written := None; ending := Raised e |}
    | inr out => {| stdout := ["EPUB file created successfully."%string];
                    written := Some out;
                    ending := Finished |}
    end.
Proof.
  apply (output_path_is_input_path (world_of toc_on_page_3)
           "pdf_to_epub.py" "book.PDF").
  reflexivity.
Defined.

Lemma prefix_pdf_app (x : string) :
  x <> EmptyString ->
  String.prefix ".pdf" (x ++ ".pdf")%string = String.prefix ".pdf" x.
Proof.
  intros Hx.
  destruct x as [|c [|c1 [|c2 [|c3 rest]]]]; [done | | | |];
    rewrite ?str_app_cons; cbn [String.prefix];
    repeat (match goal with
            | |- context [ascii_dec ?a ?b] =>
                destruct (ascii_dec a b) as [<- |]; [| reflexivity]
            end);
    try reflexivity.
  by destruct rest.
Qed.

Lemma replace_from_empty (fuel : nat) (old new : string) :
  PyStr.replace_from fuel old new EmptyString = EmptyString.
Proof. by destruct fuel. Qed.

Lemma replace_pdf_suffix (stem : string) (fuel : nat) :
  (String.length stem < fuel)%nat ->
  occurs ".pdf" stem = false ->
  PyStr.replace_from fuel ".pdf" ".epub" (stem ++ ".pdf")%string
  = (stem ++ ".epub")%string.
Proof.
  revert fuel. induction stem as [|c stem IH]; intros fuel Hfuel Hocc.
  - destruct fuel as [|fuel]; [simpl in Hfuel; lia |].
    cbn [PyStr.replace_from]. change (EmptyString ++ ".pdf")%string with ".pdf"%string.
    change (String.prefix ".pdf" ".pdf") with true. cbv iota.
    change (PyStr.drop (String.length ".pdf") ".pdf") with EmptyString.
    by rewrite replace_from_empty.
  - destruct fuel as [|fuel]; [simpl in Hfuel; lia |].
    cbn [occurs] in Hocc. apply orb_false_elim in Hocc as [Hprefix Hrest].
    rewrite str_app_cons. cbn [PyStr.replace_from].
    rewrite <- str_app_cons, prefix_pdf_app, Hprefix by done.
    rewrite !str_app_cons. f_equal. apply IH; [simpl in Hfuel; lia | done].
Qed.

(** X20.  For an input path that ends in [.pdf] and has no other
    [.pdf] in it, the book is written to the same path with [.epub] in
    place of the extension. *)
Theorem pdf_extension_becomes_epub (w : World) (prog stem : string) :
  occurs ".pdf" stem = false ->
  main w [prog; (stem ++ ".pdf")%string]
  = match pdf_to_epub w (stem ++ ".pdf") (stem ++ ".epub") None with
    | inl e => {| stdout := []; written := None; ending := Raised e |}
    | inr out => {| stdout := ["EPUB file created successfully."%string];
                    written := Some out;
                    ending := Finished |}
    end.
Proof.
  intros Hocc. unfold main.
  change (Z.of_nat (List.length [prog; (stem ++ ".pdf")%string]) <? 2) with false.
  change (Z.of_nat (List.length [prog; (stem ++ ".pdf")%string]) =? 3) with false.
  change (PyList.index [prog; (stem ++ ".pdf")%string] 1)
    with (inr (stem ++ ".pdf")%string : Py.result string).
  cbn [Py.bind Py.ret]. unfold PyStr.replace.
  rewrite replace_pdf_suffix; [done | | done].
  rewrite str_length_app. simpl. lia.
Qed.

Lemma pdf_extension_becomes_epub_witness :
  main (world_of toc_on_page_3) ["pdf_to_epub.py"; ("my.book" ++ ".pdf")%string]
  = match pdf_to_epub (world_of toc_on_page_3)
            ("my.book" ++ ".pdf") ("my.book" ++ ".epub") None with
    | inl e => {| stdout := []; written := None; ending := Raised e |}
    | inr out => {| stdout := ["EPUB file created successfully."%string];
                    written := Some out;
                    ending := Finished |}
    end.
Proof.
  apply (pdf_extension_becomes_epub (world_of toc_on_page_3)
           "pdf_to_epub.py" "my.book").
  reflexivity.
Defined.

(** ** The TOC parser, further *)

Lemma parse_toc_line_app (entries : list toc_entry) (line : string) :
  parse_toc_line entries line = entries ++ parse_toc_line [] line.
Proof.
  unfold parse_toc_line.
  destruct (PyStr.is_empty _); [by rewrite app_nil_r |].
  destruct (Re.re_match _ _ _); [| by rewrite app_nil_r].
  destruct (PyStr.int _); [by rewrite app_nil_r | done].
Qed.

Lemma parse_toc_line_length (line : string) :
  (List.length (parse_toc_line [] line) <= 1)%nat.
Proof.
  unfold parse_toc_line.
  destruct (PyStr.is_empty _); [simpl; lia |].
  destruct (Re.re_match _ _ _); [| simpl; lia].
  destruct (PyStr.int _); simpl; lia.
Qed.

Lemma foldl_parse_toc_line (lines : list string) (entries : list toc_entry) :
  foldl parse_toc_line entries lines
  = entries ++ mjoin (parse_toc_line [] <$> lines).
Proof.
  revert entries. induction lines as [|line lines IH]; intros entries.
  - simpl. by rewrite app_nil_r.
  - cbn [foldl fmap list_fmap mjoin list_join]. rewrite IH.
    rewrite (parse_toc_line_app entries). by rewrite <- app_assoc.
Qed.

(** X21.  The entries come in the order of the lines of the text, and
    no line gives more than one entry: the result is the concatenation,
    line after line, of what each line gives, which is nothing or one
    entry. *)
Theorem entries_follow_lines (text : string) :
  parse_toc_text text
  = mjoin (parse_toc_line [] <$> PyStr.splitlines text)
  /\ Forall (fun line => (List.length (parse_toc_line [] line) <= 1)%nat)
            (PyStr.splitlines text).
Proof.
  split.
  - unfold parse_toc_text. by rewrite foldl_parse_toc_line.
  - apply Forall_forall. intros line _. apply parse_toc_line_length.
Qed.

(** *** Titles are stripped *)

Lemma rstrip_idemp (s : string) : PyStr.rstrip (PyStr.rstrip s) = PyStr.rstrip s.
Proof.
  induction s as [|c s IH]; [done |]. cbn [PyStr.rstrip].
  destruct (PyStr.rstrip s) as [|c1 r] eqn:Hr.
  - destruct (PyStr.is_space c) eqn:Hc; [done |].
    cbn [PyStr.rstrip]. by rewrite Hc.
  - change (PyStr.rstrip (String c (String c1 r)))
      with (match PyStr.rstrip (String c1 r) with
            | EmptyString =>
                if PyStr.is_space c then EmptyString else String c EmptyString
            | r0 => String c r0
            end).
    by rewrite IH.
Qed.

Lemma lstrip_head (s : string) :
  match PyStr.lstrip s with
  | EmptyString => True
  | String c _ => PyStr.is_space c = false
  end.
Proof.
  induction s as [|c s IH]; [done |]. cbn [PyStr.lstrip].
  by destruct (PyStr.is_space c) eqn:Hc.
Qed.

Lemma lstrip_rstrip (s : string) :
  match s with
  | EmptyString => True
  | String c _ => PyStr.is_space c = false
  end ->
  PyStr.lstrip (PyStr.rstrip s) = PyStr.rstrip s.
Proof.
  destruct s as [|c s]; [done |]. intros Hc. cbn [PyStr.rstrip].
  destruct (PyStr.rstrip s); [| cbn [PyStr.lstrip]; by rewrite Hc].
  rewrite Hc. cbn [PyStr.lstrip]. by rewrite Hc.
Qed.

Lemma strip_idemp (s : string) : PyStr.strip (PyStr.strip s) = PyStr.strip s.
Proof.
  unfold PyStr.strip.
  rewrite (lstrip_rstrip (PyStr.lstrip s)) by apply lstrip_head.
  apply rstrip_idemp.
Qed.

(** X22.  Every title that the parser returns is stripped: it has no
    white space at its start or at its end. *)
Theorem parsed_titles_stripped (text : string) :
  Forall (fun e => PyStr.strip (fst e) = fst e) (parse_toc_text text).
Proof.
  unfold parse_toc_text. rewrite foldl_parse_toc_line. cbn [app].
  apply Forall_forall. intros e He.
  apply list_elem_of_join in He as (es & He & Hes).
  apply list_elem_of_fmap in Hes as (line & -> & _).
  unfold parse_toc_line in He.
  destruct (PyStr.is_empty _); [inversion He |].
  destruct (Re.re_match _ _ _); [| inversion He].
  destruct (PyStr.int _); [inversion He |].
  apply list_elem_of_singleton in He as ->. apply strip_idemp.
Qed.

(** *** Lines with Contenido *)

Lemma all_chars_app (p : ascii -> bool) (s t : string) :
  all_chars p (s ++ t)%string = all_chars p s && all_chars p t.
Proof.
  induction s as [|c s IH]; [done |].
  rewrite str_app_cons. cbn [all_chars]. by rewrite IH, andb_assoc.
Qed.

Lemma all_chars_impl (p q : ascii -> bool) (s : string) :
  (forall c, p c = true -> q c = true) ->
  all_chars p s = true -> all_chars q s = true.
Proof.
  intros Hpq. induction s as [|c s IH]; [done |]. cbn [all_chars].
  intros [Hc Hs]%andb_prop. by rewrite (Hpq c Hc), IH.
Qed.

Section GreedyComplete.
Context {A : Type} (p : ascii -> bool).

Lemma star_greedy_complete (pre s' : string) (k : string -> option A) :
  all_chars p pre = true ->
  is_Some (k s') ->
  is_Some (Re.star_greedy p (pre ++ s')%string k).
Proof.
  intros Hpre Hk. induction pre as [|c pre IH].
  - change (EmptyString ++ s')%string with s'.
    destruct s' as [|c s']; [done |]. cbn [Re.star_greedy].
    destruct (p c); [| done]. by destruct (Re.star_greedy p s' k).
  - cbn [all_chars] in Hpre. apply andb_prop in Hpre as [Hc Hpre].
    rewrite str_app_cons. cbn [Re.star_greedy]. rewrite Hc.
    destruct (IH Hpre) as [m ->]. by eexists.
Qed.

End GreedyComplete.

Lemma run_word (input w s : string) (caps : Re.captures)
    (k : string -> Re.captures -> option Re.captures) :
  prefix_ci w s = true ->
  Re.run true input (Re.word w) s caps k
  = k (PyStr.drop (String.length w) s) caps.
Proof.
  revert s. induction w as [|a w IH]; intros s Hs.
  - by destruct s.
  - destruct s as [|c s]; [done |]. cbn [prefix_ci] in Hs.
    apply andb_prop in Hs as [Hc Hs].
    destruct w as [|b w].
    + cbn [Re.word Re.run Re.in_class]. rewrite Hc. by destruct s.
    + change (Re.word (String a (String b w)))
        with (Re.Seq (Re.Chr (Re.Lit a)) (Re.word (String b w))).
      cbn [Re.run Re.in_class]. rewrite Hc. by rewrite IH.
Qed.

Lemma occurs_ci_split (w s : string) :
  occurs_ci w s = true ->
  exists pre s', s = (pre ++ s')%string /\ prefix_ci w s' = true.
Proof.
  induction s as [|c s IH]; cbn [occurs_ci]; intros H.
  - apply orb_prop in H as [H | H]; [| done]. by exists EmptyString, EmptyString.
  - apply orb_prop in H as [H | H].
    + by exists EmptyString, (String c s).
    + destruct (IH H) as (pre & s' & -> & Hs'). by exists (String c pre), s'.
Qed.

Lemma occurs_ci_intro (w pre s' : string) :
  prefix_ci w s' = true -> occurs_ci w (pre ++ s')%string = true.
Proof.
  intros Hs'. induction pre as [|c pre IH].
  - change (EmptyString ++ s')%string with s'.
    destruct s'; cbn [occurs_ci]; by rewrite Hs'.
  - rewrite str_app_cons. cbn [occurs_ci]. rewrite IH. apply orb_true_r.
Qed.

Lemma no_linebreak_any (c : ascii) :
  no_linebreak c = true -> Re.in_class true Re.Any c = true.
Proof.
  unfold no_linebreak. cbn [Re.in_class].
  destruct (Ascii.eqb_spec c PyStr.LF) as [-> |]; [done | done].
Qed.

Lemma lookahead_matches (input w s : string) (caps : Re.captures) :
  all_chars no_linebreak s = true ->
  occurs_ci w s = true ->
  is_Some (Re.run true input (Re.Seq (Re.Rep true 0 Re.Any) (Re.word w)) s caps
             (fun _ caps' => Some caps')).
Proof.
  intros Hs Hocc. apply occurs_ci_split in Hocc as (pre & s' & -> & Hs').
  rewrite all_chars_app in Hs. apply andb_prop in Hs as [Hpre _].
  cbn [Re.run Re.repeat]. apply star_greedy_complete.
  - eapply all_chars_impl; [apply no_linebreak_any | done].
  - rewrite run_word by done. by eexists.
Qed.

Lemma run_neg_lookahead (ignorecase : bool) (input : string) (r : Re.regex)
    (s : string) (caps : Re.captures)
    (k : string -> Re.captures -> option Re.captures) :
  Re.run ignorecase input (Re.NegLookahead r) s caps k
  = match Re.run ignorecase input r s caps (fun _ caps' => Some caps') with
    | Some _ => None
    | None => k s caps
    end.
Proof. reflexivity. Qed.

Lemma run_bol (ignorecase : bool) (input : string) (caps : Re.captures)
    (k : string -> Re.captures -> option Re.captures) :
  Re.run ignorecase input Re.Bol input caps k = k input caps.
Proof. cbn [Re.run]. by rewrite Nat.eqb_refl. Qed.

Lemma pattern_rejects (line : string) :
  all_chars no_linebreak line = true ->
  occurs_ci "Contenido" line = true ->
  Re.re_match true pattern line = None.
Proof.
  intros Hline Hocc. unfold Re.re_match, pattern.
  rewrite run_seq, run_bol, run_seq, run_neg_lookahead.
  by destruct (lookahead_matches line "Contenido" line ∅ Hline Hocc) as [m ->].
Qed.

(** White space matches no letter of the word. *)
Lemma space_matches_none (c : ascii) :
  PyStr.is_space c = true -> matches_none "Contenido" c = true.
Proof. destruct c as [[] [] [] [] [] [] [] []]; intros H; by vm_compute in *. Qed.

Lemma matches_none_tail (a : ascii) (w s : string) :
  all_chars (matches_none (String a w)) s = true ->
  all_chars (matches_none w) s = true.
Proof.
  apply all_chars_impl. intros c. unfold matches_none. cbn [all_chars].
  by intros [_ H]%andb_prop.
Qed.

Lemma prefix_ci_app_none (w x y : string) :
  all_chars (matches_none w) y = true ->
  prefix_ci w (x ++ y)%string = true -> prefix_ci w x = true.
Proof.
  revert x. induction w as [|a w IH]; intros x Hy; [done |].
  destruct x as [|c x].
  - change (EmptyString ++ y)%string with y. destruct y as [|c y]; [done |].
    cbn [prefix_ci all_chars] in *. apply andb_prop in Hy as [Hc _].
    unfold matches_none in Hc. cbn [all_chars] in Hc.
    apply andb_prop in Hc as [Hc _]. intros [H _]%andb_prop.
    by rewrite H in Hc.
  - rewrite str_app_cons. cbn [prefix_ci]. intros [Hc H]%andb_prop.
    rewrite Hc. cbn [andb]. apply IH; [by eapply matches_none_tail | done].
Qed.

Lemma occurs_ci_app_none (w x y : string) :
  w <> EmptyString ->
  all_chars (matches_none w) y = true ->
  occurs_ci w (x ++ y)%string = true -> occurs_ci w x = true.
Proof.
  intros Hw Hy. induction x as [|c x IH].
  - change (EmptyString ++ y)%string with y. intros H. exfalso.
    clear -Hw Hy H. induction y as [|c y IHy].
    + cbn [occurs_ci] in H. destruct w; [done |]. done.
    + cbn [occurs_ci all_chars] in *. apply andb_prop in Hy as [Hc Hy].
      apply orb_prop in H as [H | H]; [| by apply IHy].
      destruct w as [|a w]; [done |]. cbn [prefix_ci] in H.
      apply andb_prop in H as [H _]. unfold matches_none in Hc.
      cbn [all_chars] in Hc. apply andb_prop in Hc as [Hc _].
      by rewrite H in Hc.
  - rewrite str_app_cons. cbn [occurs_ci]. intros [H | H]%orb_prop.
    + rewrite <- str_app_cons in H. apply prefix_ci_app_none in H; [| done].
      by rewrite H.
    + rewrite (IH H). apply orb_true_r.
Qed.

Lemma occurs_ci_skip_spaces (a y : string) :
  all_chars PyStr.is_space a = true ->
  occurs_ci "Contenido" (a ++ y)%string = true ->
  occurs_ci "Contenido" y = true.
Proof.
  intros Ha. induction a as [|c a IH]; [done |].
  cbn [all_chars] in Ha. apply andb_prop in Ha as [Hc Ha].
  rewrite str_app_cons. cbn [occurs_ci]. intros [H | H]%orb_prop; [| auto].
  exfalso. apply space_matches_none in Hc. cbn [prefix_ci] in H.
  apply andb_prop in H as [H _]. unfold matches_none in Hc.
  cbn [all_chars] in Hc. apply andb_prop in Hc as [Hc _]. by rewrite H in Hc.
Qed.

Lemma lstrip_split (s : string) :
  exists a, s = (a ++ PyStr.lstrip s)%string /\ all_chars PyStr.is_space a = true.
Proof.
  induction s as [|c s IH]; [by exists EmptyString |].
  cbn [PyStr.lstrip]. destruct (PyStr.is_space c) eqn:Hc.
  - destruct IH as (a & Ha & Hspace). exists (String c a). split.
    + rewrite str_app_cons. by f_equal.
    + cbn [all_chars]. by rewrite Hc, Hspace.
  - by exists EmptyString.
Qed.

Lemma rstrip_split (s : string) :
  exists b, s = (PyStr.rstrip s ++ b)%string /\ all_chars PyStr.is_space b = true.
Proof.
  induction s as [|c s IH]; [by exists EmptyString |].
  destruct IH as (b & Hb & Hspace). cbn [PyStr.rstrip].
  destruct (PyStr.rstrip s) as [|c1 r] eqn:Hr.
  - destruct (PyStr.is_space c) eqn:Hc.
    + exists (String c b). split.
      * change (EmptyString ++ String c b)%string with (String c b).
        by f_equal.
      * cbn [all_chars]. by rewrite Hc, Hspace.
    + exists b. split; [| done]. rewrite str_app_cons. by f_equal.
  - exists b. split; [| done]. rewrite str_app_cons. by f_equal.
Qed.

Lemma occurs_ci_strip (line : string) :
  occurs_ci "Contenido" line = true ->
  occurs_ci "Contenido" (PyStr.strip line) = true.
Proof.
  unfold PyStr.strip. intros H.
  destruct (lstrip_split line) as (a & Ha & Haspace).
  destruct (rstrip_split (PyStr.lstrip line)) as (b & Hb & Hbspace).
  rewrite Ha in H. apply occurs_ci_skip_spaces in H; [| done].
  rewrite Hb in H. apply occurs_ci_app_none in H; [done | done |].
  eapply all_chars_impl; [apply space_matches_none | done].
Qed.

Lemma contenido_line_skipped (entries : list toc_entry) (line : string) :
  all_chars no_linebreak line = true ->
  occurs_ci "Contenido" line = true ->
  parse_toc_line entries line = entries.
Proof.
  intros Hline Hocc. unfold parse_toc_line.
  destruct (PyStr.is_empty _); [done |].
  rewrite pattern_rejects; [done | by apply all_chars_strip | by apply occurs_ci_strip].
Qed.

Lemma splitlines_from_no_linebreak (n : nat) (s cur : string) :
  (String.length s <= n)%nat ->
  all_chars no_linebreak cur = true ->
  Forall (fun line => all_chars no_linebreak line = true)
         (PyStr.splitlines_from cur s).
Proof.
  revert s cur. induction n as [|n IH]; intros s cur Hlen Hcur.
  - destruct s; [| simpl in Hlen; lia]. cbn [PyStr.splitlines_from].
    destruct (PyStr.is_empty cur); by repeat constructor.
  - destruct s as [|c s].
    { cbn [PyStr.splitlines_from].
      destruct (PyStr.is_empty cur); by repeat constructor. }
    cbn [PyStr.splitlines_from]. cbn [String.length] in Hlen.
    destruct (PyStr.is_linebreak c) eqn:Hc.
    + destruct s as [|c' s']; [by repeat constructor |].
      cbn [String.length] in Hlen.
      destruct (Ascii.eqb c PyStr.CR && Ascii.eqb c' PyStr.LF);
        (constructor; [done |]); apply IH; cbn [String.length]; (lia || done).
    + apply IH; [lia |]. rewrite all_chars_app, Hcur. cbn [all_chars].
      unfold no_linebreak. by rewrite Hc.
Qed.

Lemma splitlines_no_linebreak (text : string) :
  Forall (fun line => all_chars no_linebreak line = true)
         (PyStr.splitlines text).
Proof.
  by apply (splitlines_from_no_linebreak (String.length text)).
Qed.

(** X23.  Lines that contain Contenido, in any letter case, are
    ignored: parsing a text gives what parsing its other lines
    gives. *)
Theorem contenido_lines_ignored (text : string) :
  parse_toc_text text
  = foldl parse_toc_line []
      (List.filter (fun line => negb (occurs_ci "Contenido" line))
                   (PyStr.splitlines text)).
Proof.
  unfold parse_toc_text. cbv zeta.
  pose proof (splitlines_no_linebreak text) as Hlines.
  generalize (@nil toc_entry) as entries.
  induction Hlines as [|line lines Hline Hlines IH]; intros entries; [done |].
  cbn [foldl List.filter].
  destruct (occurs_ci "Contenido" line) eqn:Hocc; cbn [negb].
  - rewrite contenido_line_skipped by done. apply IH.
  - cbn [foldl]. apply IH.
Qed.

(** *** A well-formed line gives its title and its page *)

Lemma splitlines_from_single (s cur : string) :
  all_chars no_linebreak s = true ->
  (cur ++ s)%string <> EmptyString ->
  PyStr.splitlines_from cur s = [(cur ++ s)%string].
Proof.
  revert cur. induction s as [|c s IH]; intros cur Hs Hne.
  - rewrite str_app_nil_r in *. cbn [PyStr.splitlines_from].
    by destruct cur.
  - cbn [all_chars] in Hs. apply andb_prop in Hs as [Hc Hs].
    cbn [PyStr.splitlines_from]. unfold no_linebreak in Hc.
    destruct (PyStr.is_linebreak c); [done |].
    rewrite IH; [by rewrite str_app_assoc | done |].
    rewrite str_app_assoc. by destruct cur.
Qed.

Lemma splitlines_single (s : string) :
  all_chars no_linebreak s = true -> s <> EmptyString ->
  PyStr.splitlines s = [s].
Proof. intros Hs Hne. by apply (splitlines_from_single s EmptyString). Qed.

Lemma rstrip_nonspace (d : string) :
  all_chars (fun c => negb (PyStr.is_space c)) d = true ->
  PyStr.rstrip d = d.
Proof.
  induction d as [|c d IH]; [done |]. cbn [all_chars].
  intros [Hc Hd]%andb_prop. cbn [PyStr.rstrip]. rewrite (IH Hd).
  destruct d; [| done]. by destruct (PyStr.is_space c).
Qed.

Lemma rstrip_app_nonspace (x d : string) :
  d <> EmptyString ->
  all_chars (fun c => negb (PyStr.is_space c)) d = true ->
  PyStr.rstrip (x ++ d)%string = (x ++ d)%string.
Proof.
  intros Hne Hd. induction x as [|c x IH].
  - by apply rstrip_nonspace.
  - rewrite str_app_cons. cbn [PyStr.rstrip]. rewrite IH.
    destruct (x ++ d)%string eqn:Hxd; [| done].
    destruct x, d; done.
Qed.

Lemma lstrip_fixed_head (s : string) :
  PyStr.lstrip s = s ->
  match s with
  | EmptyString => True
  | String c _ => PyStr.is_space c = false
  end.
Proof. intros H. rewrite <- H. apply lstrip_head. Qed.

Lemma lstrip_nonspace_head (c : ascii) (s : string) :
  PyStr.is_space c = false -> PyStr.lstrip (String c s) = String c s.
Proof. intros Hc. cbn [PyStr.lstrip]. by rewrite Hc. Qed.

Lemma digit_not_space (c : ascii) :
  PyStr.is_digit c = true -> negb (PyStr.is_space c) = true.
Proof. destruct c as [[] [] [] [] [] [] [] []]; intros H; by vm_compute in *. Qed.

Lemma int_digits_value (s : string) (need_digit : bool) (acc : Z) :
  all_chars PyStr.is_digit s = true ->
  s <> EmptyString \/ need_digit = false ->
  PyStr.int_digits need_digit acc s = Some (decimal_from acc s).
Proof.
  revert need_digit acc. induction s as [|c s IH]; intros need_digit acc Hs Hne.
  - destruct Hne as [Hne | ->]; [done | reflexivity].
  - cbn [all_chars] in Hs. apply andb_prop in Hs as [Hc Hs].
    cbn [PyStr.int_digits decimal_from]. rewrite Hc. apply IH; [done | by right].
Qed.

Lemma strip_digits (digits : string) :
  all_chars PyStr.is_digit digits = true -> PyStr.strip digits = digits.
Proof.
  intros Hd. unfold PyStr.strip.
  assert (Hns : all_chars (fun c => negb (PyStr.is_space c)) digits = true).
  { eapply all_chars_impl; [apply digit_not_space | done]. }
  destruct digits as [|c r]; [done |].
  cbn [all_chars] in Hns. apply andb_prop in Hns as [Hc Hr].
  rewrite lstrip_nonspace_head by (by destruct (PyStr.is_space c)).
  apply rstrip_nonspace. cbn [all_chars]. by rewrite Hc, Hr.
Qed.

Lemma int_space_is_space (c : ascii) :
  PyStr.is_int_space c = true -> PyStr.is_space c = true.
Proof. destruct c as [[] [] [] [] [] [] [] []]; intros H; by vm_compute in *. Qed.

Lemma rstrip_by_none (sp : ascii -> bool) (d : string) :
  all_chars (fun c => negb (sp c)) d = true -> PyStr.rstrip_by sp d = d.
Proof.
  induction d as [|c d IH]; [done |]. cbn [all_chars].
  intros [Hc Hd]%andb_prop. cbn [PyStr.rstrip_by]. rewrite (IH Hd).
  destruct d; [| done]. by destruct (sp c).
Qed.

Lemma lstrip_by_none (sp : ascii -> bool) (d : string) :
  all_chars (fun c => negb (sp c)) d = true -> PyStr.lstrip_by sp d = d.
Proof.
  destruct d as [|c d]; [done |]. cbn [all_chars PyStr.lstrip_by].
  intros [Hc _]%andb_prop. by destruct (sp c).
Qed.

Lemma int_strip_digits (digits : string) :
  all_chars PyStr.is_digit digits = true ->
  PyStr.rstrip_by PyStr.is_int_space
    (PyStr.lstrip_by PyStr.is_int_space digits) = digits.
Proof.
  intros Hd.
  assert (Hns : all_chars (fun c => negb (PyStr.is_int_space c)) digits = true).
  { eapply all_chars_impl; [| exact Hd]. intros c Hc.
    apply digit_not_space in Hc.
    destruct (PyStr.is_int_space c) eqn:Hsp; [| done].
    by rewrite (int_space_is_space c Hsp) in Hc. }
  by rewrite lstrip_by_none, rstrip_by_none.
Qed.

Lemma count_digits_run (digits : string) :
  all_chars PyStr.is_digit digits = true ->
  PyStr.count_digits digits = String.length digits.
Proof.
  induction digits as [|c r IH]; [done |]. cbn [all_chars].
  intros [Hc Hr]%andb_prop. cbn [PyStr.count_digits String.length].
  by rewrite Hc, IH.
Qed.

(** [int] on a run of digits: the number, up to the limit on the number
    of digits, and a [ValueError] above it. *)
Lemma int_of_digits (digits : string) :
  digits <> EmptyString ->
  all_chars PyStr.is_digit digits = true ->
  PyStr.int digits
  = if Z.of_nat (String.length digits) <=? PyStr.max_str_digits
    then inr (decimal_value digits) else inl Py.ValueError.
Proof.
  intros Hne Hd. unfold PyStr.int. cbv zeta.
  rewrite int_strip_digits, count_digits_run by done.
  destruct digits as [|c r]; [done |].
  pose proof (int_digits_value (String c r) true 0 Hd (or_introl Hne)) as Hv.
  cbn [all_chars] in Hd. apply andb_prop in Hd as [Hc _].
  unfold decimal_value.
  destruct c as [[] [] [] [] [] [] [] []]; try discriminate Hc;
    cbv iota beta; by rewrite Hv.
Qed.

Section RepeatExact.
Context {A : Type} (p : ascii -> bool).

(** A greedy repetition followed by a character outside the class
    takes the whole run when the rest of the pattern then matches. *)
Lemma star_greedy_exact (pre s' : string) (k : string -> option A) (m : A) :
  all_chars p pre = true ->
  match s' with EmptyString => True | String c _ => p c = false end ->
  k s' = Some m ->
  Re.star_greedy p (pre ++ s')%string k = Some m.
Proof.
  intros Hpre Hs' Hk. induction pre as [|c pre IH].
  - change (EmptyString ++ s')%string with s'.
    destruct s' as [|c s']; [done |]. cbn [Re.star_greedy]. by rewrite Hs'.
  - cbn [all_chars] in Hpre. apply andb_prop in Hpre as [Hc Hpre].
    rewrite str_app_cons. cbn [Re.star_greedy]. by rewrite Hc, IH.
Qed.

Lemma repeat_greedy_exact (least : nat) (pre s' : string)
    (k : string -> option A) (m : A) :
  all_chars p pre = true ->
  (least <= String.length pre)%nat ->
  match s' with EmptyString => True | String c _ => p c = false end ->
  k s' = Some m ->
  Re.repeat p true least (pre ++ s')%string k = Some m.
Proof.
  revert pre. induction least as [|least IH]; intros pre Hpre Hlen Hs' Hk.
  - cbn [Re.repeat]. by apply star_greedy_exact.
  - destruct pre as [|c pre]; [simpl in Hlen; lia |].
    cbn [all_chars] in Hpre. apply andb_prop in Hpre as [Hc Hpre].
    rewrite str_app_cons. cbn [Re.repeat]. rewrite Hc.
    apply IH; [done | simpl in Hlen; lia | done | done].
Qed.

(** A lazy repetition stops at the first place where the rest of the
    pattern matches. *)
Lemma star_lazy_exact (pre s' : string) (k : string -> option A) (m : A) :
  all_chars p pre = true ->
  (forall a b, pre = (a ++ b)%string -> b <> EmptyString ->
               k (b ++ s')%string = None) ->
  k s' = Some m ->
  Re.star_lazy p (pre ++ s')%string k = Some m.
Proof.
  intros Hpre Hfail Hk. induction pre as [|c pre IH].
  - change (EmptyString ++ s')%string with s'.
    destruct s'; cbn [Re.star_lazy]; by rewrite Hk.
  - cbn [all_chars] in Hpre. apply andb_prop in Hpre as [Hc Hpre].
    rewrite str_app_cons. cbn [Re.star_lazy].
    rewrite <- str_app_cons, (Hfail EmptyString (String c pre)) by done.
    rewrite Hc. apply IH; [done |].
    intros a b -> Hb. by apply (Hfail (String c a) b).
Qed.

End RepeatExact.

Lemma run_word_sound (input w s : string) (caps m : Re.captures)
    (k : string -> Re.captures -> option Re.captures) :
  Re.run true input (Re.word w) s caps k = Some m -> prefix_ci w s = true.
Proof.
  revert s. induction w as [|a w IH]; intros s H; [done |].
  destruct w as [|b w].
  - cbn [Re.word Re.run Re.in_class] in H. destruct s as [|c s]; [done |].
    cbn [prefix_ci]. destruct (Ascii.eqb _ _); [by destruct s | done].
  - change (Re.word (String a (String b w)))
      with (Re.Seq (Re.Chr (Re.Lit a)) (Re.word (String b w))) in H.
    cbn [Re.run Re.in_class] in H. destruct s as [|c s]; [done |].
    destruct (Ascii.eqb (PyStr.lower a) (PyStr.lower c)) eqn:Hc; [| done].
    apply IH in H. cbn [prefix_ci] in *. by rewrite Hc.
Qed.

Lemma lookahead_sound (input w s : string) (caps m : Re.captures) :
  Re.run true input (Re.Seq (Re.Rep true 0 Re.Any) (Re.word w)) s caps
    (fun _ caps' => Some caps') = Some m ->
  occurs_ci w s = true.
Proof.
  intros H. cbn [Re.run] in H.
  apply repeat_success in H as (pre & s' & -> & _ & _ & H).
  apply run_word_sound in H. by apply occurs_ci_intro.
Qed.

(** The characters of the separators and of the page number. *)
Lemma lit_dot (c : ascii) : Re.in_class true (Re.Lit ".") c = Ascii.eqb c ".".
Proof. by destruct c as [[] [] [] [] [] [] [] []]. Qed.

Lemma lit_hyphen (c : ascii) : Re.in_class true (Re.Lit "-") c = Ascii.eqb c "-".
Proof. by destruct c as [[] [] [] [] [] [] [] []]. Qed.

Lemma dot_matches_none (c : ascii) :
  Ascii.eqb c "." = true -> matches_none "Contenido" c = true.
Proof. intros ->%Ascii.eqb_eq. reflexivity. Qed.

Lemma digit_matches_none (c : ascii) :
  PyStr.is_digit c = true -> matches_none "Contenido" c = true.
Proof. destruct c as [[] [] [] [] [] [] [] []]; intros H; by vm_compute in *. Qed.

Lemma blank_is_space (c : ascii) :
  blank_char c = true -> PyStr.is_space c = true.
Proof. unfold blank_char. by intros [H _]%andb_prop. Qed.

Lemma blank_no_linebreak (c : ascii) :
  blank_char c = true -> no_linebreak c = true.
Proof. unfold blank_char, no_linebreak. by intros [_ H]%andb_prop. Qed.

Lemma title_char_no_linebreak (c : ascii) :
  title_char c = true -> no_linebreak c = true.
Proof.
  unfold title_char, no_linebreak. by intros [[H _]%andb_prop _]%andb_prop.
Qed.

Lemma dot_no_linebreak (c : ascii) :
  Ascii.eqb c "." = true -> no_linebreak c = true.
Proof. intros ->%Ascii.eqb_eq. reflexivity. Qed.

Lemma digit_no_linebreak (c : ascii) :
  PyStr.is_digit c = true -> no_linebreak c = true.
Proof. destruct c as [[] [] [] [] [] [] [] []]; intros H; by vm_compute in *. Qed.

Lemma digit_not_dot (c : ascii) :
  PyStr.is_digit c = true -> Ascii.eqb c "." = false.
Proof. destruct c as [[] [] [] [] [] [] [] []]; intros H; by vm_compute in *. Qed.

Lemma space_not_dot (c : ascii) :
  PyStr.is_space c = true -> Ascii.eqb c "." = false.
Proof. destruct c as [[] [] [] [] [] [] [] []]; intros H; by vm_compute in *. Qed.

Lemma space_not_hyphen (c : ascii) :
  PyStr.is_space c = true -> Ascii.eqb c "-" = false.
Proof. destruct c as [[] [] [] [] [] [] [] []]; intros H; by vm_compute in *. Qed.

Lemma dot_not_space (c : ascii) :
  Ascii.eqb c "." = true -> PyStr.is_space c = false.
Proof. intros ->%Ascii.eqb_eq. reflexivity. Qed.

Lemma pattern_unfold :
  pattern
  = Re.Seq Re.Bol
      (Re.Seq (Re.NegLookahead
                 (Re.Seq (Re.Rep true 0 Re.Any) (Re.word "Contenido")))
         (Re.Seq (Re.Group 1 (Re.Rep false 0 Re.Any)) pattern_tail)).
Proof. reflexivity. Qed.

Lemma rstrip_fixed_tail (c : ascii) (b : string) :
  PyStr.rstrip (String c b) = String c b -> b <> EmptyString ->
  PyStr.rstrip b = b.
Proof.
  cbn [PyStr.rstrip]. intros H Hb.
  destruct (PyStr.rstrip b) as [|c1 r].
  - destruct (PyStr.is_space c); [done |]. inversion H. by subst.
  - by inversion H.
Qed.

Lemma rstrip_fixed_suffix (a b : string) :
  PyStr.rstrip (a ++ b)%string = (a ++ b)%string -> b <> EmptyString ->
  PyStr.rstrip b = b.
Proof.
  intros H Hb. induction a as [|c a IH]; [done |].
  rewrite str_app_cons in H. apply IH.
  apply (rstrip_fixed_tail c); [done |]. by destruct a, b.
Qed.

Lemma first_nonspace_in_title (pre1 b rest x : string) (d : ascii) :
  b <> EmptyString ->
  PyStr.rstrip b = b ->
  all_chars title_char b = true ->
  all_chars PyStr.is_space pre1 = true ->
  Ascii.eqb d "." || Ascii.eqb d "-" = true ->
  (b ++ rest)%string = (pre1 ++ String d x)%string ->
  False.
Proof.
  revert b. induction pre1 as [|s pre1 IH]; intros b Hb Hfix Htitle Hpre Hd Heq.
  - destruct b as [|c b]; [done |].
    rewrite str_app_cons in Heq.
    change (EmptyString ++ String d x)%string with (String d x) in Heq.
    inversion Heq; subst. cbn [all_chars] in Htitle.
    apply andb_prop in Htitle as [Hc _]. unfold title_char in Hc.
    destruct (Ascii.eqb d "."), (Ascii.eqb d "-"); simpl in *;
      try done; by rewrite ?andb_false_r in Hc.
  - destruct b as [|c b]; [done |].
    rewrite !str_app_cons in Heq. inversion Heq; subst.
    cbn [all_chars] in Hpre, Htitle.
    apply andb_prop in Hpre as [Hs Hpre]. apply andb_prop in Htitle as [_ Htitle].
    destruct b as [|c' b'].
    + cbn [PyStr.rstrip] in Hfix. by rewrite Hs in Hfix.
    + apply (IH (String c' b')); try done.
      by apply (rstrip_fixed_tail s).
Qed.

Lemma class_space (s : string) :
  all_chars (Re.in_class true Re.Space) s = all_chars PyStr.is_space s.
Proof. reflexivity. Qed.

Lemma tail_fails (input b rest : string) (caps : Re.captures) :
  b <> EmptyString ->
  PyStr.rstrip b = b ->
  all_chars title_char b = true ->
  Re.run true input pattern_tail (b ++ rest)%string caps
    (fun _ caps' => Some caps') = None.
Proof.
  intros Hb Hfix Htitle.
  destruct (Re.run _ _ _ _ _ _) as [m|] eqn:H; [exfalso | done].
  unfold pattern_tail, dotted_separator, hyphen_separator in H.
  cbn [Re.run] in H.
  match type of H with
  | match ?alt1 with _ => _ end = _ => destruct alt1 eqn:H1
  end.
  - clear H.
    apply repeat_success in H1 as (pre1 & s1 & Heq & Hpre1 & _ & H1).
    apply repeat_success in H1 as (pre2 & s2 & -> & Hpre2 & Hlen & _).
    destruct pre2 as [|d pre2]; [simpl in Hlen; lia |].
    cbn [all_chars] in Hpre2. apply andb_prop in Hpre2 as [Hd _].
    rewrite lit_dot in Hd. rewrite str_app_cons in Heq.
    apply (first_nonspace_in_title pre1 b rest (pre2 ++ s2) d); try done.
    by rewrite Hd.
  - apply repeat_success in H as (pre1 & s1 & Heq & Hpre1 & _ & H).
    destruct s1 as [|d s1]; [done |].
    destruct (Re.in_class true (Re.Lit "-") d) eqn:Hd; [| done].
    rewrite lit_hyphen in Hd.
    apply (first_nonspace_in_title pre1 b rest s1 d); try done.
    rewrite Hd. apply orb_true_r.
Qed.

Lemma head_outside_app (p : ascii -> bool) (x y : string) :
  all_chars (fun c => negb (p c)) x = true ->
  match y with EmptyString => True | String c _ => p c = false end ->
  match (x ++ y)%string with
  | EmptyString => True
  | String c _ => p c = false
  end.
Proof.
  destruct x as [|c x]; [done |]. rewrite str_app_cons. cbn [all_chars].
  intros [Hc _]%andb_prop _. by destruct (p c).
Qed.

Lemma consumed_all (s : string) : Re.consumed s EmptyString = s.
Proof.
  rewrite <- (str_app_nil_r s) at 1. apply consumed_app.
Qed.

Lemma tail_matches (input ws1 dots ws2 digits : string) (caps : Re.captures) :
  all_chars blank_char ws1 = true ->
  dots <> EmptyString ->
  all_chars (fun c => Ascii.eqb c ".") dots = true ->
  all_chars blank_char ws2 = true ->
  digits <> EmptyString ->
  all_chars PyStr.is_digit digits = true ->
  Re.run true input pattern_tail (ws1 ++ dots ++ ws2 ++ digits)%string caps
    (fun _ caps' => Some caps')
  = Some (<[2%nat := digits]> caps).
Proof.
  intros Hws1 Hdots_ne Hdots Hws2 Hdigits_ne Hdigits.
  unfold pattern_tail, dotted_separator, hyphen_separator.
  cbn [Re.run].
  match goal with
  | |- match ?alt1 with _ => _ end = _ =>
      assert (Halt : alt1 = Some (<[2%nat := digits]> caps));
        [| by rewrite Halt]
  end.
  assert (Hdigit_head :
    match digits with
    | EmptyString => True
    | String c _ => PyStr.is_space c = false /\ Ascii.eqb c "." = false
    end).
  { destruct digits as [|c r]; [done |]. cbn [all_chars] in Hdigits.
    apply andb_prop in Hdigits as [Hc _]. split.
    - apply digit_not_space in Hc. by destruct (PyStr.is_space c).
    - by apply digit_not_dot. }
  apply repeat_greedy_exact.
  - rewrite class_space. eapply all_chars_impl; [apply blank_is_space | done].
  - lia.
  - destruct dots as [|d dots']; [done |]. rewrite str_app_cons.
    cbn [all_chars] in Hdots. apply andb_prop in Hdots as [Hd _].
    cbn [Re.in_class]. by apply dot_not_space.
  - apply repeat_greedy_exact.
    + eapply all_chars_impl; [| exact Hdots]. intros c Hc. by rewrite lit_dot.
    + destruct dots; [done | simpl; lia].
    + apply head_outside_app.
      * eapply all_chars_impl; [| exact Hws2]. intros c Hc%blank_is_space.
        rewrite lit_dot. by rewrite space_not_dot.
      * destruct digits as [|c r]; [done |]. rewrite lit_dot.
        by destruct Hdigit_head.
    + apply repeat_greedy_exact.
      * rewrite class_space.
        eapply all_chars_impl; [apply blank_is_space | done].
      * lia.
      * destruct digits as [|c r]; [done |]. cbn [Re.in_class].
        by destruct Hdigit_head.
      * rewrite <- (str_app_nil_r digits) at 1.
        apply repeat_greedy_exact; [done | | done |].
        -- destruct digits; [done | simpl; lia].
        -- cbv beta iota. by rewrite consumed_all.
Qed.

Lemma strip_fixed (s : string) :
  PyStr.strip s = s -> PyStr.lstrip s = s /\ PyStr.rstrip s = s.
Proof.
  unfold PyStr.strip. intros H. split.
  - rewrite <- H at 1. rewrite lstrip_rstrip by apply lstrip_head. done.
  - rewrite <- H at 1. rewrite rstrip_idemp. done.
Qed.

(** A stripped title without [.], [-] or Contenido, then a separator
    and a page number that the rest of the pattern accepts: the line
    gives the title and the number. *)
Lemma line_parses (title sep digits : string) :
  title <> EmptyString ->
  PyStr.strip title = title ->
  all_chars title_char title = true ->
  occurs_ci "Contenido" title = false ->
  all_chars no_linebreak sep = true ->
  all_chars (matches_none "Contenido") sep = true ->
  digits <> EmptyString ->
  all_chars PyStr.is_digit digits = true ->
  (forall input caps,
     Re.run true input pattern_tail (sep ++ digits)%string caps
       (fun _ caps' => Some caps')
     = Some (<[2%nat := digits]> caps)) ->
  parse_toc_text (title ++ sep ++ digits)%string
  = if Z.of_nat (String.length digits) <=? 4300
    then [(title, decimal_value digits)] else [].
Proof.
  intros Htitle_ne Hstrip Htitle Hocc Hsep_nlb Hsep_none Hdigits_ne Hdigits Htail.
  destruct (strip_fixed title Hstrip) as [Hl Hr].
  set (line := (title ++ sep ++ digits)%string).
  assert (Hnlb : all_chars no_linebreak line = true).
  { unfold line. rewrite !all_chars_app, Hsep_nlb.
    rewrite (all_chars_impl _ _ title title_char_no_linebreak Htitle).
    by rewrite (all_chars_impl _ _ digits digit_no_linebreak Hdigits). }
  assert (Hline_ne : line <> EmptyString).
  { unfold line. by destruct title. }
  assert (Hline_strip : PyStr.strip line = line).
  { unfold PyStr.strip.
    assert (PyStr.lstrip line = line) as ->.
    { unfold line. destruct title as [|c t]; [done |].
      rewrite str_app_cons. apply lstrip_nonspace_head.
      apply (lstrip_fixed_head (String c t) Hl). }
    unfold line. rewrite <- !str_app_assoc.
    rewrite rstrip_app_nonspace; [done | done |].
    eapply all_chars_impl; [apply digit_not_space | done]. }
  assert (Hmatch : Re.re_match true pattern line
                   = Some (<[2%nat := digits]> (<[1%nat := title]> ∅))).
  { unfold Re.re_match.
    rewrite pattern_unfold, run_seq, run_bol, run_seq, run_neg_lookahead.
    destruct (Re.run true line
                (Re.Seq (Re.Rep true 0 Re.Any) (Re.word "Contenido")) line ∅
                (fun _ caps' => Some caps')) as [m|] eqn:Hahead.
    { exfalso. apply lookahead_sound in Hahead. unfold line in Hahead.
      apply occurs_ci_app_none in Hahead; [congruence | done |].
      rewrite all_chars_app, Hsep_none.
      by rewrite (all_chars_impl _ _ digits digit_matches_none Hdigits). }
    rewrite run_seq. cbn [Re.run Re.repeat].
    apply star_lazy_exact.
    - eapply all_chars_impl; [| exact Htitle].
      intros c Hc. by apply no_linebreak_any, title_char_no_linebreak.
    - intros a b Hab Hb. cbv beta. apply tail_fails; [done | |].
      + apply (rstrip_fixed_suffix a); [by rewrite <- Hab | done].
      + rewrite Hab, all_chars_app in Htitle.
        by apply andb_prop in Htitle as [_ ?].
    - cbv beta. unfold line. rewrite consumed_app. apply Htail. }
  unfold parse_toc_text. rewrite splitlines_single by done.
  cbn [foldl]. unfold parse_toc_line.
  rewrite Hline_strip, Hmatch.
  assert (PyStr.is_empty line = false) as -> by (by destruct line).
  unfold Re.group.
  rewrite (lookup_insert_ne _ 2%nat 1%nat) by done.
  rewrite !lookup_insert_eq. cbn [default]. unfold id.
  rewrite Hstrip, strip_digits, int_of_digits by done.
  change PyStr.max_str_digits with 4300.
  by destruct (Z.of_nat (String.length digits) <=? 4300).
Qed.

(** X24.  A line that is a stripped title without [.], [-], line break
    or Contenido, then optional blanks, one or more dots, optional
    blanks and a run of digits, gives exactly one entry, that title
    with the number of the digits, when the digits are 4300 or fewer;
    with more digits [int] raises and the line gives no entry. *)
Theorem dotted_line_parses (title ws1 dots ws2 digits : string) :
  title <> EmptyString ->
  PyStr.strip title = title ->
  all_chars title_char title = true ->
  occurs_ci "Contenido" title = false ->
  all_chars blank_char ws1 = true ->
  dots <> EmptyString ->
  all_chars (fun c => Ascii.eqb c ".") dots = true ->
  all_chars blank_char ws2 = true ->
  digits <> EmptyString ->
  all_chars PyStr.is_digit digits = true ->
  parse_toc_text (title ++ ws1 ++ dots ++ ws2 ++ digits)%string
  = if Z.of_nat (String.length digits) <=? 4300
    then [(title, decimal_value digits)] else [].
Proof.
  intros Htitle_ne Hstrip Htitle Hocc Hws1 Hdots_ne Hdots Hws2 Hdigits_ne Hdigits.
  replace (title ++ ws1 ++ dots ++ ws2 ++ digits)%string
    with (title ++ (ws1 ++ dots ++ ws2) ++ digits)%string
    by (by rewrite !str_app_assoc).
  apply line_parses; try done.
  - rewrite !all_chars_app.
    rewrite (all_chars_impl _ _ ws1 blank_no_linebreak Hws1).
    rewrite (all_chars_impl _ _ ws2 blank_no_linebreak Hws2).
    by rewrite (all_chars_impl _ _ dots dot_no_linebreak Hdots).
  - rewrite !all_chars_app.
    rewrite (all_chars_impl _ _ ws1
               (fun c H => space_matches_none c (blank_is_space c H)) Hws1).
    rewrite (all_chars_impl _ _ ws2
               (fun c H => space_matches_none c (blank_is_space c H)) Hws2).
    by rewrite (all_chars_impl _ _ dots dot_matches_none Hdots).
  - intros input caps. rewrite !str_app_assoc. by apply tail_matches.
Qed.

Lemma dotted_line_parses_witness :
  parse_toc_text ("Parte 1/a" ++ " " ++ "...." ++ " " ++ "007")%string
  = [("Parte 1/a"%string, decimal_value "007")].
Proof.
  apply (dotted_line_parses "Parte 1/a" " " "...." " " "007"); by vm_compute.
Defined.

Lemma blank_then_hyphen (ws1 pre1 x y : string) (d : ascii) :
  all_chars blank_char ws1 = true ->
  all_chars PyStr.is_space pre1 = true ->
  Ascii.eqb d "." = true ->
  (ws1 ++ String "-" y)%string = (pre1 ++ String d x)%string ->
  False.
Proof.
  revert pre1. induction ws1 as [|w ws1 IH]; intros pre1 Hws1 Hpre1 Hd Heq.
  - change (EmptyString ++ String "-" y)%string with (String "-" y) in Heq.
    destruct pre1 as [|s pre1].
    + inversion Heq; subst. done.
    + rewrite str_app_cons in Heq. inversion Heq; subst. done.
  - cbn [all_chars] in Hws1. apply andb_prop in Hws1 as [Hw Hws1].
    rewrite str_app_cons in Heq. destruct pre1 as [|s pre1].
    + inversion Heq; subst. apply blank_is_space, space_not_dot in Hw.
      congruence.
    + rewrite str_app_cons in Heq. inversion Heq; subst.
      cbn [all_chars] in Hpre1. apply andb_prop in Hpre1 as [_ Hpre1].
      by apply (IH pre1).
Qed.

Lemma tail_matches_hyphen (input ws1 ws2 digits : string) (caps : Re.captures) :
  ws1 <> EmptyString ->
  all_chars blank_char ws1 = true ->
  ws2 <> EmptyString ->
  all_chars blank_char ws2 = true ->
  digits <> EmptyString ->
  all_chars PyStr.is_digit digits = true ->
  Re.run true input pattern_tail (ws1 ++ "-" ++ ws2 ++ digits)%string caps
    (fun _ caps' => Some caps')
  = Some (<[2%nat := digits]> caps).
Proof.
  intros Hws1_ne Hws1 Hws2_ne Hws2 Hdigits_ne Hdigits.
  unfold pattern_tail, dotted_separator, hyphen_separator.
  cbn [Re.run].
  match goal with
  | |- match ?alt1 with _ => _ end = _ => destruct alt1 eqn:H1
  end.
  { exfalso.
    apply repeat_success in H1 as (pre1 & s1 & Heq & Hpre1 & _ & H1).
    apply repeat_success in H1 as (pre2 & s2 & -> & Hpre2 & Hlen & _).
    destruct pre2 as [|d pre2]; [simpl in Hlen; lia |].
    cbn [all_chars] in Hpre2. apply andb_prop in Hpre2 as [Hd _].
    rewrite lit_dot in Hd. rewrite str_app_cons in Heq.
    by apply (blank_then_hyphen ws1 pre1 (pre2 ++ s2) (ws2 ++ digits) d). }
  assert (Hdigit_head :
    match digits with
    | EmptyString => True
    | String c _ => PyStr.is_space c = false
    end).
  { destruct digits as [|c r]; [done |]. cbn [all_chars] in Hdigits.
    apply andb_prop in Hdigits as [Hc _].
    apply digit_not_space in Hc. by destruct (PyStr.is_space c). }
  apply repeat_greedy_exact.
  - rewrite class_space. eapply all_chars_impl; [apply blank_is_space | done].
  - destruct ws1; [done | simpl; lia].
  - reflexivity.
  - change ("-" ++ ws2 ++ digits)%string with (String "-" (ws2 ++ digits)).
    cbv beta iota. change (Re.in_class true (Re.Lit "-") "-") with true.
    cbv iota. apply repeat_greedy_exact.
    + rewrite class_space.
      eapply all_chars_impl; [apply blank_is_space | done].
    + destruct ws2; [done | simpl; lia].
    + destruct digits as [|c r]; [done |]. cbn [Re.in_class]. done.
    + rewrite <- (str_app_nil_r digits) at 1.
      apply repeat_greedy_exact; [done | | done |].
      * destruct digits; [done | simpl; lia].
      * cbv beta iota. by rewrite consumed_all.
Qed.

(** X25.  The same with the other separator: a stripped title without
    [.], [-], line break or Contenido, then blanks, a hyphen, blanks
    and a run of digits give that title with the number of the
    digits when the digits are 4300 or fewer, and no entry when they
    are more. *)
Theorem hyphen_line_parses (title ws1 ws2 digits : string) :
  title <> EmptyString ->
  PyStr.strip title = title ->
  all_chars title_char title = true ->
  occurs_ci "Contenido" title = false ->
  ws1 <> EmptyString ->
  all_chars blank_char ws1 = true ->
  ws2 <> EmptyString ->
  all_chars blank_char ws2 = true ->
  digits <> EmptyString ->
  all_chars PyStr.is_digit digits = true ->
  parse_toc_text (title ++ ws1 ++ "-" ++ ws2 ++ digits)%string
  = if Z.of_nat (String.length digits) <=? 4300
    then [(title, decimal_value digits)] else [].
Proof.
  intros Htitle_ne Hstrip Htitle Hocc Hws1_ne Hws1 Hws2_ne Hws2
         Hdigits_ne Hdigits.
  replace (title ++ ws1 ++ "-" ++ ws2 ++ digits)%string
    with (title ++ (ws1 ++ "-" ++ ws2) ++ digits)%string
    by (by rewrite !str_app_assoc).
  apply line_parses; try done.
  - rewrite !all_chars_app.
    rewrite (all_chars_impl _ _ ws1 blank_no_linebreak Hws1).
    by rewrite (all_chars_impl _ _ ws2 blank_no_linebreak Hws2).
  - rewrite !all_chars_app.
    rewrite (all_chars_impl _ _ ws1
               (fun c H => space_matches_none c (blank_is_space c H)) Hws1).
    by rewrite (all_chars_impl _ _ ws2
                  (fun c H => space_matches_none c (blank_is_space c H)) Hws2).
  - intros input caps. rewrite !str_app_assoc. by apply tail_matches_hyphen.
Qed.

Lemma hyphen_line_parses_witness :
  parse_toc_text ("Capitulo Uno" ++ " " ++ "-" ++ " " ++ "10")%string
  = [("Capitulo Uno"%string, decimal_value "10")].
Proof.
  apply (hyphen_line_parses "Capitulo Uno" " " " " "10"); by vm_compute.
Defined.
